(** * The MCP Oracle Server integration-test harness

    A shallow embedding of the check-running logic of the repository's test
    clients (test-cases/test_base.py, the per-controller suites, the
    runner scripts, test_controllers_advanced.py and
    test_banking_corrected.py) together with the properties the
    specification states about it and further properties of the code.

    Python objects received from the remote service are JSON values; a
    Python [dict] is a [gmap string json].  Methods that mutate [self],
    print, sleep or talk to the network are computations in a small state
    and exception monad.  The remote service is opaque: it is a function
    from the number of requests already sent and the request to a reply. *)

From Stdlib Require Import ZArith QArith_base Ascii String Lia.
From stdpp Require Import base gmap strings list.

Set Warnings "-register-all".

(** ** Python values, exceptions and builtins *)

Module Py.

(** What [response.json()] can produce. JSON numbers are kept as
    integers: every operation below treats a float the way it treats an
    int (no [len], no [.get], never equal to a string). *)
Inductive json : Type :=
  | JNull
  | JBool (b : bool)
  | JInt (z : Z)
  | JStr (s : string)
  | JList (l : list json)
  | JDict (d : gmap string json).

(** Subclasses of [Exception] that the harness can meet.  Process-level
    signals ([KeyboardInterrupt], [SystemExit]) are not [Exception]s and
    are not part of the model. *)
Inductive exn_class : Type :=
  | AttributeError
  | TypeError
  | ValueError
  | UnboundLocalError
  | NameError
  | ZeroDivisionError
  | ConnectionError
  | Timeout
  | JSONDecodeError
  | RuntimeError.

Record exn : Type := Exn { exn_cls : exn_class; exn_msg : string }.

Inductive result (A : Type) : Type :=
  | Ok (a : A)
  | Raise (e : exn).
Arguments Ok {A} a.
Arguments Raise {A} e.

#[global] Instance exn_class_eq_dec : EqDecision exn_class.
Proof. solve_decision. Defined.

#[global] Instance exn_eq_dec : EqDecision exn.
Proof. solve_decision. Defined.

#[global] Instance result_eq_dec {A} `{EqDecision A} : EqDecision (result A).
Proof. solve_decision. Defined.

(** [str(e)] *)
Definition str_exn (e : exn) : string := exn_msg e.

(** [o.get(k, default)]: only a dict has the method. *)
Definition dict_get (o : json) (k : string) (default : json) : result json :=
  match o with
  | JDict d => Ok (match d !! k with Some v => v | None => default end)
  | JNull => Raise (Exn AttributeError "'NoneType' object has no attribute 'get'")
  | JBool _ => Raise (Exn AttributeError "'bool' object has no attribute 'get'")
  | JInt _ => Raise (Exn AttributeError "'int' object has no attribute 'get'")
  | JStr _ => Raise (Exn AttributeError "'str' object has no attribute 'get'")
  | JList _ => Raise (Exn AttributeError "'list' object has no attribute 'get'")
  end.

(** [len(o)] *)
Definition len (o : json) : result nat :=
  match o with
  | JStr s => Ok (String.length s)
  | JList l => Ok (length l)
  | JDict d => Ok (size d)
  | JNull => Raise (Exn TypeError "object of type 'NoneType' has no len()")
  | JBool _ => Raise (Exn TypeError "object of type 'bool' has no len()")
  | JInt _ => Raise (Exn TypeError "object of type 'int' has no len()")
  end.

(** [v == s] for a string literal [s]: only a string equals a string. *)
Definition eq_str (v : json) (s : string) : bool :=
  match v with
  | JStr t => bool_decide (t = s)
  | _ => false
  end.

(** Truth value of an object, as [if v:] tests it. *)
Definition truthy (v : json) : bool :=
  match v with
  | JNull => false
  | JBool b => b
  | JInt z => negb (z =? 0)%Z
  | JStr s => negb (bool_decide (s = EmptyString))
  | JList l => negb (bool_decide (length l = 0))
  | JDict d => negb (bool_decide (size d = 0))
  end.

(** [needle in hay] on strings. *)
Fixpoint contains (needle hay : string) : bool :=
  if String.prefix needle hay then true
  else match hay with
       | EmptyString => false
       | String _ rest => contains needle rest
       end.

(** [k in o] for a string literal [k]. *)
Definition has (k : string) (o : json) : result bool :=
  match o with
  | JDict d => Ok (bool_decide (is_Some (d !! k)))
  | JList l => Ok (existsb (fun v => eq_str v k) l)
  | JStr s => Ok (contains k s)
  | JNull => Raise (Exn TypeError "argument of type 'NoneType' is not iterable")
  | JBool _ => Raise (Exn TypeError "argument of type 'bool' is not iterable")
  | JInt _ => Raise (Exn TypeError "argument of type 'int' is not iterable")
  end.

(** [str(v)]: a string is itself; any other object is rendered by the
    builtin [repr], which is taken as given. *)
Definition str (repr : json -> string) (v : json) : string :=
  match v with
  | JStr s => s
  | _ => repr v
  end.

(** [a / b] on ints; the float is kept as the exact ratio. *)
Definition truediv (a b : Z) : result Q :=
  if (b =? 0)%Z
  then Raise (Exn ZeroDivisionError "division by zero")
  else Ok (Qmake (Z.sgn b * a) (Z.to_pos (Z.abs b))).

(** [s.upper()], on ASCII letters. *)
Definition upper_ascii (c : ascii) : ascii :=
  let n := nat_of_ascii c in
  if (97 <=? n)%nat && (n <=? 122)%nat then ascii_of_nat (n - 32) else c.

Fixpoint upper (s : string) : string :=
  match s with
  | EmptyString => EmptyString
  | String c rest => String (upper_ascii c) (upper rest)
  end.

End Py.

Export Py.

(** ** The HTTP boundary *)

Module Http.

Inductive verb : Type := GET | POST | PUT | DELETE.

(** One call on the [requests] session.  [req_json] is the [json=]
    keyword ([None] where the call does not pass it). *)
Record request : Type := Request {
  req_verb : verb;
  req_url : string;
  req_json : option json;
  req_params : json;
  req_headers : gmap string string
}.

(** A [requests.Response]: [content] is the raw body and [json_] is what
    calling [response.json()] evaluates to. *)
Record response : Type := Response {
  status_code : Z;
  content : string;
  json_ : result json
}.

(** The transport either delivers a response or raises. *)
Inductive reply : Type :=
  | Replied (r : response)
  | Failed (e : exn).

(** The remote service and the network in front of it: the reply to the
    [n]-th request of the process. *)
Definition network : Type := nat -> request -> reply.

End Http.

Export Http.

(** ** Console, clock and wire: the world a harness acts on *)

Inductive line : Type :=
  | Text (s : string)
  | TextName (s name : string)
  | TextStatus (s name : string) (status : Z) (payload : json)
  | TextJson (s : string) (j : json)
  | TextNum (s : string) (n : nat)
  | TextRate (s : string) (passed total : nat) (rate : Q).

Record world : Type := World {
  stdout : list line;
  sent : list request;
  slept : list Z
}.

Definition world0 : world := World [] [] [].

Class Harness (S : Type) : Type := {
  world_of : S -> world;
  with_world : world -> S -> S
}.

#[global] Instance world_harness : Harness world :=
  {| world_of := fun w => w; with_world := fun w _ => w |}.

(** ** State and exception monad *)

Definition M (S A : Type) : Type := S -> result A * S.

Definition ret {S A} (a : A) : M S A := fun st => (Ok a, st).

Definition bind {S A B} (c : M S A) (k : A -> M S B) : M S B :=
  fun st =>
    match c st with
    | (Ok a, st') => k a st'
    | (Raise e, st') => (Raise e, st')
    end.

Definition raise {S A} (e : exn) : M S A := fun st => (Raise e, st).

Definition lift {S A} (r : result A) : M S A := fun st => (r, st).

(** [try: body  except Exception as e: handler(e)] *)
Definition try_except {S A} (body : M S A) (handler : exn -> M S A) : M S A :=
  fun st =>
    match body st with
    | (Ok a, st') => (Ok a, st')
    | (Raise e, st') => handler e st'
    end.

Notation "'let*' x ':=' c 'in' k" := (bind c (fun x => k))
  (at level 10, x pattern, c at level 200, k at level 200).

Section World.
Context {S : Type} `{Harness S}.

Definition print (l : line) : M S unit :=
  fun st =>
    let w := world_of st in
    (Ok tt, with_world (World (stdout w ++ [l]) (sent w) (slept w)) st).

Definition prints (ls : list line) : M S unit :=
  fun st =>
    let w := world_of st in
    (Ok tt, with_world (World (stdout w ++ ls) (sent w) (slept w)) st).

(** [time.sleep(seconds)] *)
Definition sleep (seconds : Z) : M S unit :=
  fun st =>
    let w := world_of st in
    (Ok tt, with_world (World (stdout w) (sent w) (slept w ++ [seconds])) st).

(** One call on the session: the request goes on the wire and the
    network answers it. *)
Definition send (net : network) (req : request) : M S response :=
  fun st =>
    let w := world_of st in
    let st' := with_world (World (stdout w) (sent w ++ [req]) (slept w)) st in
    match net (length (sent w)) req with
    | Replied r => (Ok r, st')
    | Failed e => (Raise e, st')
    end.

End World.

(** ** test-cases/test_base.py *)

Module TestBase.

Definition BASE_URL : string := "http://localhost:8080".

(** [self.session.headers] after [__init__]. *)
Definition session_headers : gmap string string :=
  {[ "Content-Type" := "application/json" ]}.

(** The fields of a tester object that its methods read or write.
    [csrf_token] is only assigned by the CSRF suite. *)
Record tester : Type := Tester {
  test_results : list (string * bool);
  csrf_token : json;
  tester_world : world
}.

#[global] Instance tester_harness : Harness tester :=
  {| world_of := tester_world;
     with_world := fun w t => Tester (test_results t) (csrf_token t) w |}.

(** [TestBase()] followed by the subclass's [__init__], in world [w]. *)
Definition new_tester (w : world) : tester := Tester [] JNull w.

(** [self.test_results.append(entry)] *)
Definition append_result (entry : string * bool) : M tester unit :=
  fun t => (Ok tt, Tester (test_results t ++ [entry]) (csrf_token t) (tester_world t)).

Definition set_csrf_token (v : json) : M tester unit :=
  fun t => (Ok tt, Tester (test_results t) v (tester_world t)).

Section Requests.
Context {S : Type} `{Harness S}.
Variable net : network.

(** The body of the [try] block of [make_request]. *)
Definition make_request_body (endpoint method : string) (data params : json)
    (headers : option (gmap string string)) : M S (Z * json) :=
  let request_headers :=
    match headers with
    | Some h => if bool_decide (size h = 0) then session_headers else h ∪ session_headers
    | None => session_headers
    end in
  let url := (BASE_URL ++ endpoint)%string in
  let* response :=
    if String.eqb (upper method) "GET" then
      send net (Request GET url None params request_headers)
    else if String.eqb (upper method) "POST" then
      send net (Request POST url (Some data) params request_headers)
    else if String.eqb (upper method) "PUT" then
      send net (Request PUT url (Some data) params request_headers)
    else if String.eqb (upper method) "DELETE" then
      send net (Request DELETE url None params request_headers)
    else raise (Exn ValueError ("Unsupported method: " ++ method)) in
  if bool_decide (content response = EmptyString)
  then ret (status_code response, JDict ∅)
  else let* body := lift (json_ response) in
       ret (status_code response, body).

Definition make_request (endpoint method : string) (data params : json)
    (headers : option (gmap string string)) : M S (Z * json) :=
  try_except (make_request_body endpoint method data params headers)
    (fun e => ret (500%Z, JDict {[ "error" := JStr (str_exn e) ]})).

(** [print_test_header] *)
Definition print_test_header (test_name : string) : M S unit :=
  prints [Text "============================================================";
          TextName "TEST" test_name;
          Text "============================================================"].

(** [print_results]: a non-empty list prints its first [max_items]
    items, a dict prints itself, anything else prints its [str]. *)
Definition print_results (results : json) (title : string) (max_items : nat) : M S unit :=
  let* _ := prints [TextName "RESULTS" title; Text "----------------------------------------"] in
  match results with
  | JList ((_ :: _) as items) =>
      let* _ := prints (TextJson "item" <$> take max_items items) in
      if (max_items <? length items)%nat
      then print (TextNum "... and more items" (length items - max_items))
      else ret tt
  | JDict _ => print (TextJson "dict" results)
  | _ => print (TextJson "Results:" results)
  end.

End Requests.

Section Methods.
Variable net : network.

(** [assert_success] *)
Definition assert_success (status_code : Z) (response : json) (test_name : string)
    : M tester bool :=
  let* ok :=
    if (status_code =? 200)%Z
    then let* s := lift (dict_get response "status" JNull) in
         ret (eq_str s "success")
    else ret false in
  if ok
  then let* _ := print (TextName "PASSED" test_name) in ret true
  else let* _ := print (TextStatus "FAILED" test_name status_code response) in ret false.

(** One turn of the loop of [wait_for_service]; [true] stands for the
    [return True] inside the loop. *)
Definition wait_attempt (max_attempts attempt : nat) : M tester bool :=
  let* found :=
    try_except
      (let* (status, response) := make_request net "/actuator/health" "GET" JNull JNull None in
       if (status =? 200)%Z
       then let* _ := print (Text "Service is available") in ret true
       else ret false)
      (fun _ => ret false) in
  if found then ret true
  else
    let* _ :=
      if (attempt <? max_attempts - 1)%nat
      then let* _ := print (TextNum "Waiting for service... attempt" (attempt + 1)) in
           sleep 2
      else ret tt in
    ret false.

(** [for attempt in range(max_attempts)], with [remaining] turns left. *)
Fixpoint wait_loop (max_attempts remaining attempt : nat) : M tester bool :=
  match remaining with
  | O =>
      let* _ := print (Text "Service is not available after waiting") in
      ret false
  | S remaining' =>
      let* found := wait_attempt max_attempts attempt in
      if found then ret true
      else wait_loop max_attempts remaining' (S attempt)
  end.

Definition wait_for_service (max_attempts : nat) : M tester bool :=
  wait_loop max_attempts max_attempts 0.

(** The default of the [max_attempts] parameter. *)
Definition default_max_attempts : nat := 30.

End Methods.

(** The loop every suite's [run_all_tests] runs over its [tests] list:
    [try: if test(): passed += 1] with the handler that records
    [(test.__name__, False)].  A test is paired with its [__name__]. *)
Definition run_test (passed : nat) (test : string * M tester bool) : M tester nat :=
  try_except
    (let* r := snd test in
     ret (if r : bool then S passed else passed))
    (fun e =>
       let* _ := print (TextName ("crashed: " ++ str_exn e) (fst test)) in
       let* _ := append_result (fst test, false) in
       ret passed).

Fixpoint run_tests (tests : list (string * M tester bool)) (passed : nat) : M tester nat :=
  match tests with
  | [] => ret passed
  | test :: rest =>
      let* passed' := run_test passed test in
      run_tests rest passed'
  end.

(** The summary block that ends every [run_all_tests]. *)
Definition print_summary (title : string) (passed total : nat) : M tester unit :=
  let* _ := prints [TextName "TEST RESULTS" title;
                    Text "============================================================"] in
  let* _ := fun t =>
    prints ((fun r : string * bool =>
               TextName (if snd r then "PASSED" else "FAILED") (fst r)) <$> test_results t) t in
  let* rate := lift (truediv (Z.of_nat passed) (Z.of_nat total)) in
  print (TextRate "Overall" passed total (Qmult rate (Qmake 100 1))).

End TestBase.

(** ** test-cases/test_oracle_core_controller.py *)

Module Core.
Import TestBase.

Section Suite.
Variable net : network.

Definition strs (l : list string) : json := JList (JStr <$> l).
Definition dict (l : list (string * json)) : json := JDict (list_to_map l).

Definition test_health_check : M tester bool :=
  let* _ := print_test_header "CORE SERVICE HEALTH CHECK" in
  let* (status, response) := make_request net "/api/oracle/core/health" "GET" JNull JNull None in
  let* result :=
    if (status =? 200)%Z
    then let* _ := print (Text "Core Health Check - SUCCESS") in ret true
    else let* _ := print (TextStatus "FAILED" "Core Health Check" status response) in ret false in
  let* _ := append_result ("Health Check", result) in
  let* _ := if result : bool
            then print_results response "Health Check Response" 5
            else ret tt in
  ret result.

Definition test_list_tables : M tester bool :=
  let* _ := print_test_header "LIST TABLES" in
  let* (status, response) :=
    make_request net "/api/oracle/core/tables" "GET" JNull
      (dict [("schemaName", JStr "C##DEEPAI")]) None in
  let* result :=
    if (status =? 200)%Z
    then let* _ := print (Text "List Tables - SUCCESS") in
         let* tables := lift (dict_get response "tables" (JList [])) in
         let* n := lift (len tables) in
         let* _ := print (TextNum "Found tables" n) in
         let* _ := print_results tables "Database Tables" 10 in
         ret true
    else let* _ := print (TextStatus "FAILED" "List Tables" status response) in ret false in
  let* _ := append_result ("List Tables", result) in
  ret result.

Definition test_query_customers : M tester bool :=
  let* _ := print_test_header "QUERY CUSTOMERS TABLE" in
  let* (status, response) :=
    make_request net "/api/oracle/core/tables/CUSTOMERS/query" "POST"
      (strs ["CUSTOMER_ID"; "FIRST_NAME"; "LAST_NAME"; "STATE"; "CREDIT_SCORE"])
      (dict [("limit", JInt 10); ("orderBy", JStr "CREDIT_SCORE DESC")]) None in
  let* result := assert_success status response "Query Customers" in
  let* _ := append_result ("Query Customers", result) in
  let* _ := if result : bool
            then let* customers := lift (dict_get response "results" (JList [])) in
                 let* n := lift (len customers) in
                 let* _ := print (TextNum "Retrieved customer records" n) in
                 print_results customers "Top Customers by Credit Score" 5
            else ret tt in
  ret result.

Definition test_describe_table : M tester bool :=
  let* _ := print_test_header "DESCRIBE TABLE STRUCTURE" in
  let* (status, response) :=
    make_request net "/api/oracle/core/tables/CUSTOMERS/describe" "GET" JNull JNull None in
  let* result := assert_success status response "Describe Table" in
  let* _ := append_result ("Describe Table", result) in
  let* _ := if result : bool
            then let* columns := lift (dict_get response "columns" (JList [])) in
                 let* n := lift (len columns) in
                 let* _ := print (TextNum "CUSTOMERS table columns" n) in
                 print_results columns "Table Structure" 8
            else ret tt in
  ret result.

Definition test_account_query_with_filter : M tester bool :=
  let* _ := print_test_header "FILTERED ACCOUNT QUERY" in
  let* (status, response) :=
    make_request net "/api/oracle/core/tables/ACCOUNTS/query" "POST"
      (strs ["ACCOUNT_ID"; "CUSTOMER_ID"; "ACCOUNT_TYPE"; "BALANCE"])
      (dict [("whereClause", JStr "BALANCE > 50000");
             ("orderBy", JStr "BALANCE DESC");
             ("limit", JInt 15)]) None in
  let* result := assert_success status response "Filtered Account Query" in
  let* _ := append_result ("Filtered Account Query", result) in
  let* _ := if result : bool
            then let* accounts := lift (dict_get response "results" (JList [])) in
                 let* n := lift (len accounts) in
                 let* _ := print (TextNum "Found high-balance accounts" n) in
                 print_results accounts "High-Balance Accounts" 5
            else ret tt in
  ret result.

Definition test_loan_data_query : M tester bool :=
  let* _ := print_test_header "LOAN DATA QUERY" in
  let* (status, response) :=
    make_request net "/api/oracle/core/tables/LOANS/query" "POST"
      (strs ["LOAN_ID"; "CUSTOMER_ID"; "PRINCIPAL_AMOUNT"; "INTEREST_RATE"; "STATUS"])
      (dict [("whereClause", JStr "STATUS = 'ACTIVE'"); ("limit", JInt 20)]) None in
  let* result := assert_success status response "Loan Data Query" in
  let* _ := append_result ("Loan Data Query", result) in
  let* _ := if result : bool
            then let* loans := lift (dict_get response "results" (JList [])) in
                 let* n := lift (len loans) in
                 let* _ := print (TextNum "Found active loans" n) in
                 print_results loans "Active Loans" 3
            else ret tt in
  ret result.

(** The [tests] list of [run_all_tests], each method with its [__name__]. *)
Definition tests : list (string * M tester bool) :=
  [ ("test_health_check", test_health_check);
    ("test_list_tables", test_list_tables);
    ("test_query_customers", test_query_customers);
    ("test_describe_table", test_describe_table);
    ("test_account_query_with_filter", test_account_query_with_filter);
    ("test_loan_data_query", test_loan_data_query) ].

(** [run_all_tests].  The module binds the global [datetime] only under
    [if __name__ == "__main__"], so [as_script] says whether the file
    runs as a script (bound) or was imported (the lookup raises). *)
Definition banner (as_script : bool) : M tester unit :=
  let* _ := prints [Text "ORACLE CORE CONTROLLER TEST SUITE";
                    Text "============================================================";
                    TextName "Testing API:" BASE_URL] in
  if as_script then print (Text "Started at: <now>")
  else raise (Exn NameError "name 'datetime' is not defined").

Definition run_all_tests (as_script : bool) : M tester bool :=
  let* _ := banner as_script in
  let* available := wait_for_service net default_max_attempts in
  if negb available
  then let* _ := print (Text "Service not available, skipping tests") in
       ret false
  else
    let* passed := run_tests tests 0 in
    let total := length tests in
    let* _ := print_summary "CORE CONTROLLER" passed total in
    ret (passed =? total)%nat.

(** The [if __name__ == "__main__"] block: the exit status of the
    process, an uncaught exception ending it with status 1. *)
Definition script (w : world) : Z * tester :=
  match run_all_tests true (new_tester w) with
  | (Ok success, t) => (if success then 0%Z else 1%Z, t)
  | (Raise _, t) => (1%Z, t)
  end.

End Suite.

End Core.

(** ** test-cases/test_oracle_security_controller.py *)

Module Security.
Import TestBase.

(** [sec_assert_success] *)
Definition sec_assert_success (status_code : Z) (response : json) (test_name : string)
    : M tester bool :=
  if (status_code =? 200)%Z then
    let* _ := print (TextName "PASSED" test_name) in ret true
  else if (status_code =? 404)%Z then
    let* _ := print (TextName "PASSED (endpoint not implemented yet)" test_name) in ret true
  else
    let* _ := print (TextStatus "FAILED" test_name status_code response) in ret false.

End Security.

(** ** test-cases/test_oracle_analytics_controller.py *)

Module Analytics.
Import TestBase.

Section Suite.
Variable net : network.
(** The builtin [repr], used by [str] on a message that is not a string. *)
Variable repr : json -> string.

(** [analytics_assert_success].  Leaving the [status_code == 200]
    branch without a [return] falls through to the failure lines. *)
Definition analytics_assert_success (status_code : Z) (response : json)
    (test_name : string) : M tester bool :=
  let failed : M tester bool :=
    let* _ := print (TextStatus "FAILED" test_name status_code response) in ret false in
  if (status_code =? 200)%Z then
    let* s := lift (dict_get response "status" JNull) in
    let* ok := if eq_str s "success" then ret true
               else lift (has "data" response) in
    if ok : bool then
      let* _ := print (TextName "PASSED" test_name) in ret true
    else
      let* s' := lift (dict_get response "status" JNull) in
      let* sql :=
        if eq_str s' "error"
        then let* m := lift (dict_get response "message" (JStr "")) in
             ret (contains "SQL grammar" (str repr m))
        else ret false in
      if sql : bool then
        let* _ := print (TextName "PASSED (SQL syntax issue - expected)" test_name) in ret true
      else failed
  else if (status_code =? 404)%Z then
    let* _ := print (TextName "PASSED (endpoint not implemented yet)" test_name) in ret true
  else failed.

(** The six tests share one body: header, one POST, the policy, the
    record in [test_results], then the listing of [response['results']]
    when the check passed. *)
Definition analytics_test (header endpoint : string) (data params : json)
    (test_name found title : string) (max_items : nat) : M tester bool :=
  let* _ := print_test_header header in
  let* (status, response) := make_request net endpoint "POST" data params None in
  let* result := analytics_assert_success status response test_name in
  let* _ := append_result (test_name, result) in
  let* _ := if result : bool
            then let* results := lift (dict_get response "results" (JList [])) in
                 let* n := lift (len results) in
                 let* _ := print (TextNum found n) in
                 print_results results title max_items
            else ret tt in
  ret result.

Definition strs := Core.strs.
Definition dict := Core.dict.

Definition test_window_functions : M tester bool :=
  analytics_test "WINDOW FUNCTIONS TEST" "/api/oracle/analytics/window-functions"
    (dict [("partitionBy", strs ["STATE"]);
           ("orderBy", strs ["CREDIT_SCORE DESC"]);
           ("selectColumns",
            strs ["CUSTOMER_ID"; "FIRST_NAME"; "LAST_NAME"; "STATE"; "CREDIT_SCORE"])])
    (dict [("tableName", JStr "CUSTOMERS"); ("windowFunction", JStr "ROW_NUMBER()")])
    "Window Functions" "Generated customer rankings" "Customer Rankings by State" 6.

Definition test_complex_joins : M tester bool :=
  analytics_test "COMPLEX JOINS TEST" "/api/oracle/analytics/complex-joins"
    (dict [("tables", strs ["CUSTOMERS"; "ACCOUNTS"]);
           ("joinConditions", strs ["CUSTOMERS.CUSTOMER_ID = ACCOUNTS.CUSTOMER_ID"]);
           ("selectColumns",
            strs ["CUSTOMERS.FIRST_NAME || ' ' || CUSTOMERS.LAST_NAME as CUSTOMER_NAME";
                  "CUSTOMERS.STATE";
                  "ACCOUNTS.ACCOUNT_TYPE";
                  "ROUND(ACCOUNTS.BALANCE, 2) as BALANCE"]);
           ("whereClause", JStr "ACCOUNTS.BALANCE > 25000")])
    JNull
    "Complex Joins" "Found customer-account records" "High-Balance Customer Accounts" 5.

Definition test_hierarchical_queries : M tester bool :=
  analytics_test "HIERARCHICAL QUERIES TEST" "/api/oracle/analytics/hierarchical-queries"
    (dict [("selectColumns",
            strs ["EMPLOYEE_ID";
                  "FIRST_NAME || ' ' || LAST_NAME as EMPLOYEE_NAME";
                  "POSITION"; "DEPARTMENT"; "SALARY"; "LEVEL as ORG_LEVEL"])])
    (dict [("tableName", JStr "EMPLOYEES");
           ("startWithCondition", JStr "MANAGER_ID IS NULL");
           ("connectByCondition", JStr "PRIOR EMPLOYEE_ID = MANAGER_ID")])
    "Hierarchical Queries" "Retrieved employees in hierarchy"
    "Employee Organizational Structure" 8.

Definition test_analytical_functions : M tester bool :=
  analytics_test "ANALYTICAL FUNCTIONS TEST" "/api/oracle/analytics/analytical-functions"
    (dict [("partitionBy", strs ["STATE"]);
           ("orderBy", strs ["CREDIT_SCORE DESC"]);
           ("parameters", JList [])])
    (dict [("tableName", JStr "CUSTOMERS");
           ("analyticalFunction", JStr "RANK");
           ("column", JStr "CREDIT_SCORE")])
    "Analytical Functions" "Analyzed customer records" "Credit Score Rankings" 5.

Definition test_loan_risk_analysis : M tester bool :=
  analytics_test "LOAN RISK ANALYSIS TEST" "/api/oracle/analytics/complex-joins"
    (dict [("tables", strs ["LOANS"; "CUSTOMERS"; "LOAN_TYPES"]);
           ("joinConditions",
            strs ["LOANS.CUSTOMER_ID = CUSTOMERS.CUSTOMER_ID";
                  "LOANS.LOAN_TYPE_ID = LOAN_TYPES.LOAN_TYPE_ID"]);
           ("selectColumns",
            strs ["LOAN_TYPES.LOAN_TYPE_NAME";
                  "COUNT(*) as LOAN_COUNT";
                  "ROUND(AVG(LOANS.PRINCIPAL_AMOUNT), 2) as AVG_AMOUNT";
                  "ROUND(AVG(CUSTOMERS.CREDIT_SCORE), 0) as AVG_CREDIT_SCORE"]);
           ("whereClause", JStr "LOANS.STATUS = 'ACTIVE'");
           ("groupBy", strs ["LOAN_TYPES.LOAN_TYPE_NAME"])])
    JNull
    "Loan Risk Analysis" "Analyzed loan types" "Loan Risk Assessment" 5.

Definition test_transaction_patterns : M tester bool :=
  analytics_test "TRANSACTION PATTERN ANALYSIS" "/api/oracle/analytics/complex-joins"
    (dict [("tables", strs ["ACCOUNTS"; "TRANSACTIONS"]);
           ("joinConditions", strs ["ACCOUNTS.ACCOUNT_ID = TRANSACTIONS.ACCOUNT_ID"]);
           ("selectColumns",
            strs ["ACCOUNTS.ACCOUNT_TYPE";
                  "COUNT(TRANSACTIONS.TRANSACTION_ID) as TRANSACTION_COUNT";
                  "ROUND(SUM(ABS(TRANSACTIONS.AMOUNT)), 2) as TOTAL_VOLUME";
                  "ROUND(AVG(ABS(TRANSACTIONS.AMOUNT)), 2) as AVG_AMOUNT"]);
           ("whereClause", JStr "TRANSACTIONS.STATUS = 'COMPLETED'");
           ("groupBy", strs ["ACCOUNTS.ACCOUNT_TYPE"])])
    JNull
    "Transaction Patterns" "Analyzed account types"
    "Transaction Volume by Account Type" 4.

Definition tests : list (string * M tester bool) :=
  [ ("test_window_functions", test_window_functions);
    ("test_complex_joins", test_complex_joins);
    ("test_hierarchical_queries", test_hierarchical_queries);
    ("test_analytical_functions", test_analytical_functions);
    ("test_loan_risk_analysis", test_loan_risk_analysis);
    ("test_transaction_patterns", test_transaction_patterns) ].

(** [run_all_tests]; this module imports [datetime] at its top. *)
Definition banner : M tester unit :=
  prints [Text "ORACLE ANALYTICS CONTROLLER TEST SUITE";
          Text "============================================================";
          TextName "Testing API:" BASE_URL;
          Text "Started at: <now>"].

Definition run_all_tests : M tester bool :=
  let* _ := banner in
  let* available := wait_for_service net default_max_attempts in
  if negb available
  then let* _ := print (Text "Service not available, skipping tests") in
       ret false
  else
    let* passed := run_tests tests 0 in
    let total := length tests in
    let* _ := print_summary "ANALYTICS CONTROLLER" passed total in
    ret (passed =? total)%nat.

End Suite.

End Analytics.

(** ** test-cases/test_csrf_controller.py *)

Module Csrf.
Import TestBase.

(** [v[:20]]: strings and lists can be sliced, nothing else can (on a
    dict the error is [TypeError] or, from Python 3.12, [KeyError]). *)
Definition slice20 (v : json) : result json :=
  match v with
  | JStr s => Ok (JStr (String.substring 0 20 s))
  | JList l => Ok (JList (take 20 l))
  | JDict _ => Raise (Exn TypeError "unhashable type: 'slice'")
  | JNull => Raise (Exn TypeError "'NoneType' object is not subscriptable")
  | JBool _ => Raise (Exn TypeError "'bool' object is not subscriptable")
  | JInt _ => Raise (Exn TypeError "'int' object is not subscriptable")
  end.

Section Suite.
Variable net : network.

Definition test_csrf_info_endpoint : M tester bool :=
  let* _ := print_test_header "CSRF INFO ENDPOINT" in
  let* (status, response) := make_request net "/api/csrf/info" "GET" JNull JNull None in
  let* result :=
    if (status =? 200)%Z
    then let* _ := print (Text "CSRF Info - SUCCESS") in ret true
    else let* _ := print (TextStatus "FAILED" "CSRF Info" status response) in ret false in
  let* _ := append_result ("CSRF Info", result) in
  let* _ := if result : bool
            then print_results response "CSRF Service Info" 5
            else ret tt in
  ret result.

Definition test_get_csrf_token : M tester bool :=
  let* _ := print_test_header "GET CSRF TOKEN" in
  let* (status, response) := make_request net "/api/csrf/token" "GET" JNull JNull None in
  let* result :=
    if (status =? 200)%Z
    then let* _ := print (Text "Get CSRF Token - SUCCESS") in
         let* _ :=
           match response with
           | JDict d =>
               let token := default JNull (d !! "token") in
               if truthy token
               then let* _ := set_csrf_token token in
                    let* head := lift (slice20 token) in
                    print (TextJson "CSRF Token acquired:" head)
               else ret tt
           | _ => ret tt
           end in
         ret true
    else let* _ := print (TextStatus "FAILED" "Get CSRF Token" status response) in ret false in
  let* _ := append_result ("Get CSRF Token", result) in
  let* _ := if result : bool
            then print_results response "CSRF Token Information" 5
            else ret tt in
  ret result.

Definition tests : list (string * M tester bool) :=
  [ ("test_csrf_info_endpoint", test_csrf_info_endpoint);
    ("test_get_csrf_token", test_get_csrf_token) ].

Definition banner : M tester unit :=
  prints [Text "CSRF CONTROLLER TEST SUITE";
          Text "============================================================";
          TextName "Testing API:" BASE_URL;
          Text "Started at: <now>"].

Definition run_all_tests : M tester bool :=
  let* _ := banner in
  let* available := wait_for_service net default_max_attempts in
  if negb available
  then let* _ := print (Text "Service not available, skipping tests") in
       ret false
  else
    let* passed := run_tests tests 0 in
    let total := length tests in
    let* _ := print_summary "CSRF CONTROLLER" passed total in
    ret (passed =? total)%nat.

Definition script (w : world) : Z * tester :=
  match run_all_tests (new_tester w) with
  | (Ok success, t) => (if success then 0%Z else 1%Z, t)
  | (Raise _, t) => (1%Z, t)
  end.

End Suite.

End Csrf.

(** ** test_controllers_advanced.py *)

Module Advanced.

Definition BASE_URL : string := "http://localhost:8080".

Section Requests.
Context {S : Type} `{Harness S}.
Variable net : network.

(** The body of the [try] block of the module-level [make_request]:
    only the exact strings GET and POST assign [response]. *)
Definition make_request_body (endpoint method : string) (data params : json)
    : M S (Z * json) :=
  let headers : gmap string string :=
    if truthy data then {[ "Content-Type" := "application/json" ]} else ∅ in
  let url := (BASE_URL ++ endpoint)%string in
  let* response :=
    if String.eqb method "GET" then
      send net (Request GET url None params headers)
    else if String.eqb method "POST" then
      send net (Request POST url (Some data) params headers)
    else raise (Exn UnboundLocalError
                  "cannot access local variable 'response' where it is not associated with a value") in
  if bool_decide (content response = EmptyString)
  then ret (status_code response, JDict ∅)
  else let* body := lift (json_ response) in
       ret (status_code response, body).

Definition make_request (endpoint method : string) (data params : json)
    : M S (Z * json) :=
  try_except (make_request_body endpoint method data params)
    (fun e => ret (500%Z, JDict {[ "error" := JStr (str_exn e) ]})).

End Requests.

End Advanced.

(** ** test-cases/run_all_tests.py *)

Module Master.

(** One entry of [overall_results] (the wall-clock [duration] left out). *)
Record suite_result : Type := SuiteResult {
  sr_suite : string;
  sr_status : string;
  sr_success : bool;
  sr_error : option string
}.

(** A registered test class, seen from the runner: what
    [test_class().run_all_tests()] does to the world and returns. *)
Definition test_class : Type := M world bool.

Record runner : Type := Runner {
  test_suites : list (test_class * string);
  overall_results : list suite_result;
  runner_world : world
}.

#[global] Instance runner_harness : Harness runner :=
  {| world_of := runner_world;
     with_world := fun w r => Runner (test_suites r) (overall_results r) w |}.

(** [MasterTestRunner()] *)
Definition new_runner (w : world) : runner := Runner [] [] w.

(** [add_test_suite] *)
Definition add_test_suite (c : test_class) (name : string) : M runner unit :=
  fun r => (Ok tt, Runner (test_suites r ++ [(c, name)]) (overall_results r) (runner_world r)).

Definition append_overall (x : suite_result) : M runner unit :=
  fun r => (Ok tt, Runner (test_suites r) (overall_results r ++ [x]) (runner_world r)).

(** [tester = test_class(); success = tester.run_all_tests()] *)
Definition instantiate_and_run (c : test_class) : M runner bool :=
  fun r => let (res, w) := c (runner_world r) in (res, with_world w r).

(** The body of the [for] loop of [run_all_tests]. *)
Definition run_suite (i total_suites total_passed : nat) (entry : test_class * string)
    : M runner nat :=
  let suite_name := snd entry in
  let* _ := prints [TextNum ("Executing " ++ suite_name) i;
                    Text "----------------------------------------------------------------------"] in
  let* total_passed' :=
    try_except
      (let* success := instantiate_and_run (fst entry) in
       let status := if success : bool then "PASSED" else "FAILED" in
       let* _ := append_overall (SuiteResult suite_name status success None) in
       let* _ := print (TextName status suite_name) in
       ret (if success then S total_passed else total_passed))
      (fun e =>
         let* _ := print (TextName ("CRASHED: " ++ str_exn e) suite_name) in
         let* _ := append_overall (SuiteResult suite_name "CRASHED" false (Some (str_exn e))) in
         ret total_passed) in
  let* _ := print (Text "======================================================================") in
  ret total_passed'.

Fixpoint run_suites (suites : list (test_class * string)) (i total_suites total_passed : nat)
    : M runner nat :=
  match suites with
  | [] => ret total_passed
  | entry :: rest =>
      let* total_passed' := run_suite i total_suites total_passed entry in
      run_suites rest (S i) total_suites total_passed'
  end.

(** [generate_final_report] *)
Definition generate_final_report (passed total : nat) : M runner unit :=
  let* _ := prints [Text "COMPREHENSIVE TEST RESULTS";
                    Text "======================================================================"] in
  let* _ := fun r =>
    prints (mjoin ((fun x : suite_result =>
                      TextName (sr_status x) (sr_suite x) ::
                      match sr_error x with
                      | Some e => [TextName "   Error:" e]
                      | None => []
                      end) <$> overall_results r)) r in
  let* _ := print (Text "----------------------------------------------------------------------") in
  let* success_rate := lift (truediv (Z.of_nat passed) (Z.of_nat total)) in
  let* _ := prints [Text "OVERALL STATISTICS:";
                    TextNum "   Total Test Suites:" total;
                    TextNum "   Passed:" passed;
                    TextNum "   Failed:" (total - passed);
                    TextRate "   Success Rate:" passed total
                      (Qmult success_rate (Qmake 100 1));
                    Text "TEST ENVIRONMENT:"] in
  let* _ := if (passed =? total)%nat
            then prints [TextNum "ALL TEST SUITES PASSED!" total]
            else prints [TextNum "test suites failed" (total - passed)] in
  print (Text "======================================================================").

(** [run_all_tests] *)
Definition run_all_tests : M runner bool :=
  fun r =>
    (let* _ := prints [Text "MCP ORACLE SERVER - MASTER TEST SUITE";
                       Text "======================================================================";
                       Text "Started at: <now>";
                       TextNum "Number of test suites:" (length (test_suites r))] in
     let total_suites := length (test_suites r) in
     let* total_passed := run_suites (test_suites r) 1 total_suites 0 in
     let* _ := generate_final_report total_passed total_suites in
     ret (total_passed =? total_suites)%nat) r.

Section Main.
Variable net : network.
Variable repr : json -> string.

(** The two classes [main] registers, as the runner sees them: both
    modules are imported, not run as scripts. *)
Definition TestOracleCoreController : test_class :=
  fun w => let (res, t) := Core.run_all_tests net false (TestBase.new_tester w) in
           (res, TestBase.tester_world t).

Definition TestOracleAnalyticsController : test_class :=
  fun w => let (res, t) := Analytics.run_all_tests net repr (TestBase.new_tester w) in
           (res, TestBase.tester_world t).

(** [main]: the status [sys.exit] is called with, an uncaught
    exception ending the process with status 1. *)
Definition main (w : world) : Z * runner :=
  match
    (let* _ := add_test_suite TestOracleCoreController "Oracle Core Controller Tests" in
     let* _ := add_test_suite TestOracleAnalyticsController
                 "Oracle Analytics Controller Tests" in
     run_all_tests) (new_runner w)
  with
  | (Ok success, r) => (if success then 0%Z else 1%Z, r)
  | (Raise _, r) => (1%Z, r)
  end.

End Main.

End Master.

(** ** test-cases/run_all_controller_tests.py *)

Module Comprehensive.

(** One entry of [self.results], with the fields the summary reads. *)
Record script_result : Type := ScriptResult {
  name : string;
  script : string;
  success : bool;
  test_count : Z;
  passed_count : Z;
  errors : string;
  return_code : Z
}.

Record runner : Type := Runner {
  results : list script_result;
  runner_world : world
}.

#[global] Instance runner_harness : Harness runner :=
  {| world_of := runner_world;
     with_world := fun w r => Runner (results r) w |}.

Definition sum_Z (l : list Z) : Z := foldr Z.add 0%Z l.

(** [print_detailed_summary] *)
Definition print_detailed_summary : M runner unit :=
  fun r =>
    (let rs := results r in
     let* _ := prints [Text "COMPREHENSIVE TEST RESULTS SUMMARY";
                       Text "======================================================================";
                       Text "Total Duration: <duration>";
                       Text "Completed at: <now>"] in
     let total_suites := length rs in
     let passed_suites := length (filter (fun x => success x = true) rs) in
     let total_tests := sum_Z (test_count <$> rs) in
     let total_passed_tests := sum_Z (passed_count <$> rs) in
     let* _ := print (Text "OVERALL STATISTICS:") in
     let* suite_rate := lift (truediv (Z.of_nat passed_suites) (Z.of_nat total_suites)) in
     let* _ := print (TextRate "   Controller Suites:" passed_suites total_suites
                        (Qmult suite_rate (Qmake 100 1))) in
     let* _ :=
       if (0 <? total_tests)%Z
       then let* test_rate := lift (truediv total_passed_tests total_tests) in
            print (TextRate "   Individual Tests:" (Z.to_nat total_passed_tests)
                     (Z.to_nat total_tests) (Qmult test_rate (Qmake 100 1)))
       else ret tt in
     let* _ := prints [Text "DETAILED RESULTS BY CONTROLLER:";
                       Text "----------------------------------------------------------------------"] in
     let* _ := prints ((fun x => TextName (if success x then "PASSED" else "FAILED") (name x))
                         <$> rs) in
     let failed_results := filter (fun x => success x = false) rs in
     let* _ :=
       match failed_results with
       | [] => ret tt
       | _ :: _ =>
           let* _ := prints [Text "FAILED CONTROLLER DETAILS:";
                             Text "----------------------------------------------------------------------"] in
           prints (mjoin ((fun x =>
                             [TextName "controller" (name x);
                              TextName "   Script:" (script x);
                              TextJson "   Return Code:" (JInt (return_code x))]
                             ++ (if bool_decide (errors x = EmptyString) then []
                                 else [TextName "   Error:" (String.substring 0 200 (errors x))])
                             ++ (if (0 <? test_count x)%Z
                                 then [TextJson "   Failed Tests:"
                                         (JInt (test_count x - passed_count x))]
                                 else [])) <$> failed_results))
       end in
     if (passed_suites =? total_suites)%nat
     then print (Text "ALL CONTROLLER SUITES PASSED!")
     else print (TextNum "controller suite(s) failed" (total_suites - passed_suites))) r.

End Comprehensive.

(** ** Notions the properties are stated with *)

Module Report.
Import TestBase.

(** A payload that reports an operation error, as the service words it:
    a dict whose ['status'] is ['error']. *)
Definition business_error (body : json) : bool :=
  match body with
  | JDict d => match d !! "status" with
               | Some v => eq_str v "error"
               | None => false
               end
  | _ => false
  end.

(** The status [make_request] hands back for a reply of the transport. *)
Definition reply_status (rep : reply) : Z :=
  match rep with
  | Failed _ => 500%Z
  | Replied r =>
      if bool_decide (content r = EmptyString) then status_code r
      else match json_ r with
           | Ok _ => status_code r
           | Raise _ => 500%Z
           end
  end.

(** The pair [make_request] hands back for a reply of the transport. *)
Definition reply_pair (rep : reply) : Z * json :=
  match rep with
  | Failed e => (500%Z, JDict {[ "error" := JStr (str_exn e) ]})
  | Replied r =>
      if bool_decide (content r = EmptyString) then (status_code r, JDict ∅)
      else match json_ r with
           | Ok body => (status_code r, body)
           | Raise e => (500%Z, JDict {[ "error" := JStr (str_exn e) ]})
           end
  end.

(** The request [TestBase.make_request] puts on the wire, if any. *)
Definition base_request (endpoint method : string) (data params : json)
    (headers : option (gmap string string)) : option request :=
  let hs := match headers with
            | Some h => if bool_decide (size h = 0) then session_headers
                        else h ∪ session_headers
            | None => session_headers
            end in
  let url := (BASE_URL ++ endpoint)%string in
  if String.eqb (upper method) "GET" then Some (Request GET url None params hs)
  else if String.eqb (upper method) "POST" then Some (Request POST url (Some data) params hs)
  else if String.eqb (upper method) "PUT" then Some (Request PUT url (Some data) params hs)
  else if String.eqb (upper method) "DELETE" then Some (Request DELETE url None params hs)
  else None.

(** The request [Advanced.make_request] puts on the wire, if any. *)
Definition advanced_request (endpoint method : string) (data params : json)
    : option request :=
  let hs : gmap string string :=
    if truthy data then {[ "Content-Type" := "application/json" ]} else ∅ in
  let url := (Advanced.BASE_URL ++ endpoint)%string in
  if String.eqb method "GET" then Some (Request GET url None params hs)
  else if String.eqb method "POST" then Some (Request POST url (Some data) params hs)
  else None.

(** The probe of [wait_for_service]. *)
Definition health_request : request :=
  Request GET (BASE_URL ++ "/actuator/health")%string None JNull session_headers.

(** The state a computation leaves when it only touched the world. *)
Definition in_world (w : world) (t : tester) : tester :=
  Tester (test_results t) (csrf_token t) w.

(** Number of recorded results whose [passed] field is true. *)
Definition count_passed (rs : list (string * bool)) : nat :=
  length (filter (fun r => snd r = true) rs).

(** What each test of the loop did when its turn came: the value it
    returned or the exception it raised.  The state is threaded exactly
    as [run_tests] threads it, handler included. *)
Fixpoint outcomes (tests : list (string * M tester bool)) (t : tester)
    : list (result bool) :=
  match tests with
  | [] => []
  | test :: rest => fst (snd test t) :: outcomes rest (snd (run_test 0 test t))
  end.

Definition count_true (os : list (result bool)) : nat :=
  length (filter (fun o => o = Ok true) os).

(** [passedCount] and [totalCount] of the run of a [tests] list that
    starts in state [t]. *)
Definition passedCount (tests : list (string * M tester bool)) (t : tester) : nat :=
  match run_tests tests 0 t with
  | (Ok passed, _) => passed
  | (Raise _, _) => 0
  end.

Definition totalCount (tests : list (string * M tester bool)) : nat := length tests.

(** Number of suites a master runner recorded as successful. *)
Definition count_success (rs : list Master.suite_result) : nat :=
  length (filter (fun x => Master.sr_success x = true) rs).

(** A test that leaves exactly one entry of its own when it returns,
    carrying the value it returns, and none when it raises. *)
Definition records_once (test : M tester bool) : Prop :=
  forall t,
    match test t with
    | (Ok b, t') => exists label, test_results t' = test_results t ++ [(label, b)]
    | (Raise _, t') => test_results t' = test_results t
    end.

(** A computation of a tester that always returns and touches nothing
    but the world. *)
Definition world_only {A : Type} (c : M tester A) : Prop :=
  forall t, exists a w', c t = (Ok a, in_world w' t).

(** A computation that leaves [test_results] as it found it, whether it
    returns or raises. *)
Definition keeps_results {A : Type} (c : M tester A) : Prop :=
  forall t, test_results (snd (c t)) = test_results t.

(** A computation that returns a value from every state: it never
    raises. *)
Definition returns {St A : Type} (c : M St A) : Prop :=
  forall st, exists a st', c st = (Ok a, st').

(** The state after one more request went on the wire. *)
Definition wired {St : Type} `{Harness St} (req : request) (st : St) : St :=
  let w := world_of st in
  with_world (World (stdout w) (sent w ++ [req]) (slept w)) st.

(** The status [make_request] reports for the [n]-th request of the
    process when that request is a health probe. *)
Definition probe (net : network) (n : nat) : Z := reply_status (net n health_request).

(** What [analytics_assert_success] answers, as a function of the
    status code and the payload alone. *)
Definition analytics_value (repr : json -> string) (status : Z) (body : json)
    : result bool :=
  if (status =? 200)%Z then
    match dict_get body "status" JNull with
    | Raise e => Raise e
    | Ok s =>
        match (if eq_str s "success" then Ok true else has "data" body) with
        | Raise e => Raise e
        | Ok true => Ok true
        | Ok false =>
            if eq_str s "error"
            then match dict_get body "message" (JStr "") with
                 | Ok m => Ok (contains "SQL grammar" (str repr m))
                 | Raise e => Raise e
                 end
            else Ok false
        end
    end
  else Ok (status =? 404)%Z.

(** What [assert_success] answers, in the same way. *)
Definition base_value (status : Z) (body : json) : result bool :=
  if (status =? 200)%Z
  then match dict_get body "status" JNull with
       | Ok s => Ok (eq_str s "success")
       | Raise e => Raise e
       end
  else Ok false.

(** An error payload the analytics policy accepts all the same: it has
    a ['data'] key, or its message mentions the SQL grammar. *)
Definition analytics_tolerates (repr : json -> string) (body : json) : bool :=
  match body with
  | JDict d =>
      bool_decide (is_Some (d !! "data"))
      || contains "SQL grammar" (str repr (default (JStr "") (d !! "message")))
  | _ => false
  end.

End Report.

(** ** Concrete services used to run the model *)

Module Scenario.
Import TestBase.

Definition answer (status : Z) (body : json) : reply :=
  Replied (Response status "<json>" (Ok body)).

(** The usual success payload, with an empty result list. *)
Definition success_body : json :=
  Core.dict [("status", JStr "success"); ("results", JList [])].

(** A service that answers every request with the success payload. *)
Definition net_ok : network := fun _ _ => answer 200 success_body.

(** No service: every connection is refused. *)
Definition net_down : network :=
  fun _ _ => Failed (Exn ConnectionError "Connection refused").

(** A healthy service whose table description carries
    [{"status": "success", "columns": null}]. *)
Definition null_columns_body : json :=
  Core.dict [("status", JStr "success"); ("columns", JNull)].

Definition net_null_columns : network :=
  fun _ req =>
    if String.eqb (req_url req)
         (BASE_URL ++ "/api/oracle/core/tables/CUSTOMERS/describe")
    then answer 200 null_columns_body
    else answer 200 success_body.

(** A healthy service on which the describe endpoint does not exist. *)
Definition net_describe_missing : network :=
  fun _ req =>
    if String.eqb (req_url req)
         (BASE_URL ++ "/api/oracle/core/tables/CUSTOMERS/describe")
    then answer 404 (JDict ∅)
    else answer 200 success_body.

(** An operation error about the SQL grammar. *)
Definition sql_error_body : json :=
  Core.dict [("status", JStr "error");
             ("message", JStr "bad SQL grammar [SELECT ...]")].

(** A plain operation error. *)
Definition error_body : json :=
  Core.dict [("status", JStr "error"); ("message", JStr "ORA-00942")].

Definition no_repr : json -> string := fun _ => EmptyString.

(** The state in which the core suite's loop starts on a healthy
    service, in a fresh process. *)
Definition core_loop_start (net : network) : tester :=
  snd (wait_for_service net default_max_attempts
         (snd (Core.banner true (new_tester world0)))).

End Scenario.

(** ** Notions for the further properties *)

Module Shape.
Import TestBase.

(** A computation that puts nothing on the wire, whether it returns or
    raises. *)
Definition keeps_wire {A : Type} (c : M tester A) : Prop :=
  forall t, sent (tester_world (snd (c t))) = sent (tester_world t).

(** A computation that puts exactly the request [req] on the wire,
    whether it returns or raises. *)
Definition sends_one {A : Type} (req : request) (c : M tester A) : Prop :=
  forall t, sent (tester_world (snd (c t))) = sent (tester_world t) ++ [req].

(** A test that leaves one entry of its own carrying the value it
    returns, and that, when it raises, has left either nothing or one
    entry with passed=true. *)
Definition records_early (test : M tester bool) : Prop :=
  forall t,
    match test t with
    | (Ok b, t') => exists label, test_results t' = test_results t ++ [(label, b)]
    | (Raise _, t') =>
        test_results t' = test_results t
        \/ exists label, test_results t' = test_results t ++ [(label, true)]
    end.

(** Number of recorded results whose [passed] field is false. *)
Definition count_failed (rs : list (string * bool)) : nat :=
  length (filter (fun r => snd r = false) rs).

(** The endpoints a list of requests went to, with their verbs. *)
Definition endpoints (reqs : list request) : list (verb * string) :=
  (fun r => (req_verb r, req_url r)) <$> reqs.

Definition is_dict (v : json) : bool :=
  match v with JDict _ => true | _ => false end.

End Shape.

Module CsrfShape.
Import TestBase.

(** The call of [test_get_csrf_token]. *)
Definition token_request : request :=
  Request GET (BASE_URL ++ "/api/csrf/token")%string None JNull session_headers.

(** [response.get('token')] when the payload is a dict, [None] otherwise. *)
Definition token_of (response : json) : json :=
  match response with
  | JDict d => default JNull (d !! "token")
  | _ => JNull
  end.

End CsrfShape.

Module MasterShape.
Import Master.

(** The three forms an entry of [overall_results] can take. *)
Definition entry_consistent (x : suite_result) : Prop :=
  (sr_status x = "PASSED" /\ sr_success x = true /\ sr_error x = None)
  \/ (sr_status x = "FAILED" /\ sr_success x = false /\ sr_error x = None)
  \/ (sr_status x = "CRASHED" /\ sr_success x = false /\ exists msg, sr_error x = Some msg).

(** A suite that passes without doing anything. *)
Definition trivial_suite : test_class := fun w => (Ok true, w).

End MasterShape.

(** ** test_controllers_advanced.py: the tests and their runner *)

Module AdvancedSuite.
Import Advanced.

(** One entry of the local list [results_summary]: a test that returned
    has a status and a duration, a test that raised has the status
    CRASHED and the error text.  The duration is a reading of the clock
    and is left out. *)
Inductive summary_entry : Type :=
  | Finished (test status : string)
  | Crashed (test error : string).

Definition strs := Core.strs.
Definition dict := Core.dict.

(** [print_test_header] *)
Definition print_test_header (test_name : string) : M world unit :=
  prints [Text "================================================================================";
          TextName "TEST" test_name;
          Text "================================================================================"].

(** [print_results] *)
Definition print_results (results : json) (title : string) (max_items : nat) : M world unit :=
  let* _ := prints [TextName "RESULTS" title;
                    Text "------------------------------------------------------------"] in
  match results with
  | JList ((_ :: _) as items) =>
      let* _ := prints (TextJson "item" <$> take max_items items) in
      if (max_items <? length items)%nat
      then print (TextNum "... and more items" (length items - max_items))
      else ret tt
  | JDict _ => print (TextJson "dict" results)
  | _ => print (TextJson "Results:" results)
  end.

(** The payloads the tests build. *)
Definition window_data : json :=
  dict [("partitionBy", strs ["STATE"]);
        ("orderBy", strs ["SUM(BALANCE) DESC"]);
        ("selectColumns",
         strs ["CUSTOMER_ID"; "FIRST_NAME"; "LAST_NAME"; "STATE";
               "SUM(BALANCE) as TOTAL_BALANCE"])].

Definition window_params : json :=
  dict [("tableName",
         JStr "CUSTOMERS JOIN ACCOUNTS ON CUSTOMERS.CUSTOMER_ID = ACCOUNTS.CUSTOMER_ID");
        ("windowFunction", JStr "ROW_NUMBER()")].

Definition join_data : json :=
  dict [("tables", strs ["CUSTOMERS c"; "ACCOUNTS a"; "TRANSACTIONS t"]);
        ("joinConditions",
         strs ["c.CUSTOMER_ID = a.CUSTOMER_ID"; "a.ACCOUNT_ID = t.ACCOUNT_ID"]);
        ("selectColumns",
         strs ["c.FIRST_NAME || ' ' || c.LAST_NAME as CUSTOMER_NAME";
               "c.STATE";
               "c.CREDIT_SCORE";
               "a.ACCOUNT_TYPE";
               "COUNT(t.TRANSACTION_ID) as TRANSACTION_COUNT";
               "SUM(ABS(t.AMOUNT)) as TOTAL_VOLUME"]);
        ("whereClause", JStr "t.STATUS = 'COMPLETED'")].

Definition hierarchy_data : json :=
  dict [("selectColumns",
         strs ["EMPLOYEE_ID";
               "FIRST_NAME || ' ' || LAST_NAME as EMPLOYEE_NAME";
               "POSITION";
               "DEPARTMENT";
               "SALARY";
               "LEVEL as ORG_LEVEL"])].

Definition hierarchy_params : json :=
  dict [("tableName", JStr "EMPLOYEES");
        ("startWithCondition", JStr "MANAGER_ID IS NULL");
        ("connectByCondition", JStr "PRIOR EMPLOYEE_ID = MANAGER_ID")].

Definition analytical_data : json :=
  dict [("partitionBy", strs ["STATE"]);
        ("orderBy", strs ["CREDIT_SCORE"]);
        ("parameters", JList [])].

Definition analytical_params : json :=
  dict [("tableName", JStr "CUSTOMERS");
        ("analyticalFunction", JStr "PERCENTILE_CONT(0.5) WITHIN GROUP");
        ("column", JStr "CREDIT_SCORE")].

Definition table_query_data : json :=
  strs ["CUSTOMER_ID"; "FIRST_NAME"; "LAST_NAME"; "STATE"; "CREDIT_SCORE"; "ANNUAL_INCOME"].

Definition table_query_params : json :=
  dict [("whereClause", JStr "CREDIT_SCORE > 700 AND ANNUAL_INCOME > 75000");
        ("orderBy", JStr "CREDIT_SCORE DESC, ANNUAL_INCOME DESC");
        ("limit", JInt 15)].

Definition risk_analysis_data : json :=
  dict [("tables", strs ["LOANS l"; "CUSTOMERS c"; "LOAN_TYPES lt"]);
        ("joinConditions",
         strs ["l.CUSTOMER_ID = c.CUSTOMER_ID"; "l.LOAN_TYPE_ID = lt.LOAN_TYPE_ID"]);
        ("selectColumns",
         strs ["lt.LOAN_TYPE_NAME";
               "COUNT(*) as LOAN_COUNT";
               "ROUND(AVG(l.PRINCIPAL_AMOUNT), 2) as AVG_LOAN_AMOUNT";
               "ROUND(AVG(c.CREDIT_SCORE), 0) as AVG_CREDIT_SCORE";
               "ROUND(SUM(l.CURRENT_BALANCE), 2) as TOTAL_OUTSTANDING";
               ("CASE WHEN AVG(c.CREDIT_SCORE) >= 750 THEN 'LOW_RISK' "
                ++ "WHEN AVG(c.CREDIT_SCORE) >= 700 THEN 'MEDIUM_RISK' "
                ++ "WHEN AVG(c.CREDIT_SCORE) >= 650 THEN 'HIGH_RISK' "
                ++ "ELSE 'VERY_HIGH_RISK' END as RISK_CATEGORY")%string]);
        ("whereClause", JStr "l.STATUS = 'ACTIVE'")].

Definition pattern_data : json :=
  dict [("tables", strs ["ACCOUNTS a"; "TRANSACTIONS t"]);
        ("joinConditions", strs ["a.ACCOUNT_ID = t.ACCOUNT_ID"]);
        ("selectColumns",
         strs ["a.ACCOUNT_TYPE";
               "COUNT(t.TRANSACTION_ID) as TRANSACTION_COUNT";
               "ROUND(SUM(ABS(t.AMOUNT)), 2) as TOTAL_VOLUME";
               "ROUND(AVG(ABS(t.AMOUNT)), 2) as AVG_AMOUNT";
               "COUNT(DISTINCT a.CUSTOMER_ID) as UNIQUE_CUSTOMERS"]);
        ("whereClause", JStr "t.STATUS = 'COMPLETED'")].

Definition segmentation_data : json :=
  dict [("tables", strs ["CUSTOMERS c"; "ACCOUNTS a"]);
        ("joinConditions", strs ["c.CUSTOMER_ID = a.CUSTOMER_ID"]);
        ("selectColumns",
         strs [("CASE WHEN c.CREDIT_SCORE >= 750 AND SUM(a.BALANCE) >= 100000 THEN 'PLATINUM' "
                ++ "WHEN c.CREDIT_SCORE >= 700 AND SUM(a.BALANCE) >= 50000 THEN 'GOLD' "
                ++ "WHEN c.CREDIT_SCORE >= 650 OR SUM(a.BALANCE) >= 25000 THEN 'SILVER' "
                ++ "ELSE 'STANDARD' END as CUSTOMER_TIER")%string;
               "COUNT(DISTINCT c.CUSTOMER_ID) as CUSTOMER_COUNT";
               "ROUND(AVG(SUM(a.BALANCE)), 2) as AVG_BALANCE";
               "ROUND(AVG(c.CREDIT_SCORE), 0) as AVG_CREDIT_SCORE";
               "ROUND(AVG(c.ANNUAL_INCOME), 0) as AVG_INCOME"])].

Definition performance_data : json :=
  dict [("tables", strs ["BRANCHES b"; "EMPLOYEES e"; "TRANSACTIONS t"]);
        ("joinConditions",
         strs ["b.BRANCH_ID = e.BRANCH_ID"; "b.BRANCH_ID = t.BRANCH_ID"]);
        ("selectColumns",
         strs ["b.BRANCH_NAME";
               "b.CITY";
               "b.STATE";
               "COUNT(DISTINCT e.EMPLOYEE_ID) as ACTIVE_EMPLOYEES";
               "COUNT(t.TRANSACTION_ID) as TRANSACTIONS_PROCESSED";
               "ROUND(SUM(ABS(t.AMOUNT)), 2) as TRANSACTION_VOLUME";
               "ROUND(AVG(ABS(t.AMOUNT)), 2) as AVG_TRANSACTION_SIZE"]);
        ("whereClause", JStr "e.STATUS = 'ACTIVE' AND t.STATUS = 'COMPLETED'")].

Definition payment_data : json :=
  dict [("tables", strs ["PAYMENTS p"; "LOANS l"; "CUSTOMERS c"]);
        ("joinConditions",
         strs ["p.LOAN_ID = l.LOAN_ID"; "l.CUSTOMER_ID = c.CUSTOMER_ID"]);
        ("selectColumns",
         strs ["p.PAYMENT_METHOD";
               "COUNT(*) as PAYMENT_COUNT";
               "ROUND(SUM(p.ACTUAL_AMOUNT), 2) as TOTAL_PAYMENTS";
               "ROUND(AVG(p.ACTUAL_AMOUNT), 2) as AVG_PAYMENT";
               "COUNT(CASE WHEN p.LATE_FEE > 0 THEN 1 END) as LATE_PAYMENTS";
               "ROUND(AVG(c.CREDIT_SCORE), 0) as AVG_CUSTOMER_CREDIT_SCORE"]);
        ("whereClause", JStr "p.STATUS = 'COMPLETED'")].

Section Suite.
Variable net : network.

(** The ten tests share one body: header, a title line, one POST, the
    status line, then the test on the status code and on
    [response.get('status')]; a passing test lists [response['data']]. *)
Definition advanced_test (header intro endpoint : string) (data params : json)
    (passed failed title : string) (max_items : nat) : M world bool :=
  let* _ := print_test_header header in
  let* _ := print (Text intro) in
  let* (status, response) := make_request net endpoint "POST" data params in
  let* _ := print (TextJson "Status:" (JInt status)) in
  let* ok := if (status =? 200)%Z
             then let* s := lift (dict_get response "status" JNull) in
                  ret (eq_str s "success")
             else ret false in
  if ok : bool then
    let* _ := print (Text passed) in
    let* results := lift (dict_get response "data" (JList [])) in
    let* _ := print_results results title max_items in
    ret true
  else
    let* _ := print (TextJson failed response) in
    ret false.

Definition test_analytics_window_functions : M world bool :=
  advanced_test "ADVANCED WINDOW FUNCTIONS TESTING"
    "Test 1: Customer Balance Rankings with Window Functions"
    "/api/oracle/analytics/window-functions" window_data window_params
    "Window functions test PASSED" "Window functions test FAILED:"
    "Top Customer Rankings by State" 10.

Definition test_complex_joins : M world bool :=
  advanced_test "COMPLEX JOINS TESTING"
    "Test 1: Customer-Account-Transaction Complex Join"
    "/api/oracle/analytics/complex-joins" join_data JNull
    "Complex joins test PASSED" "Complex joins test FAILED:"
    "Customer Transaction Summary" 8.

Definition test_hierarchical_queries : M world bool :=
  advanced_test "HIERARCHICAL QUERIES TESTING"
    "Test 1: Employee Hierarchy Analysis"
    "/api/oracle/analytics/hierarchical-queries" hierarchy_data hierarchy_params
    "Hierarchical queries test PASSED" "Hierarchical queries test FAILED:"
    "Employee Organizational Hierarchy" 15.

Definition test_analytical_functions : M world bool :=
  advanced_test "ANALYTICAL FUNCTIONS TESTING"
    "Test 1: Credit Score Distribution Analysis"
    "/api/oracle/analytics/analytical-functions" analytical_data analytical_params
    "Analytical functions test PASSED" "Analytical functions test FAILED:"
    "Credit Score Percentile Analysis" 10.

Definition test_table_queries_advanced : M world bool :=
  advanced_test "ADVANCED TABLE QUERIES TESTING"
    "Test 1: Customer Financial Profile Query"
    "/api/oracle/core/tables/CUSTOMERS/query" table_query_data table_query_params
    "Advanced table query test PASSED" "Advanced table query test FAILED:"
    "High-Value Customer Profiles" 10.

Definition test_loan_risk_analysis : M world bool :=
  advanced_test "LOAN RISK ANALYSIS TESTING"
    "Test 1: Loan Portfolio Risk Assessment"
    "/api/oracle/analytics/complex-joins" risk_analysis_data JNull
    "Loan risk analysis test PASSED" "Loan risk analysis test FAILED:"
    "Loan Portfolio Risk Assessment" 8.

Definition test_transaction_patterns : M world bool :=
  advanced_test "TRANSACTION PATTERN ANALYSIS"
    "Test 1: Transaction Volume by Account Type"
    "/api/oracle/analytics/complex-joins" pattern_data JNull
    "Transaction pattern analysis test PASSED" "Transaction pattern analysis test FAILED:"
    "Transaction Patterns by Account Type" 5.

Definition test_customer_segmentation : M world bool :=
  advanced_test "CUSTOMER SEGMENTATION ANALYSIS"
    "Test 1: Multi-Dimensional Customer Segmentation"
    "/api/oracle/analytics/complex-joins" segmentation_data JNull
    "Customer segmentation test PASSED" "Customer segmentation test FAILED:"
    "Customer Tier Distribution" 5.

Definition test_branch_performance : M world bool :=
  advanced_test "BRANCH PERFORMANCE ANALYSIS"
    "Test 1: Branch Operational Metrics"
    "/api/oracle/analytics/complex-joins" performance_data JNull
    "Branch performance analysis test PASSED" "Branch performance analysis test FAILED:"
    "Branch Performance Metrics" 6.

Definition test_payment_analysis : M world bool :=
  advanced_test "PAYMENT BEHAVIOR ANALYSIS"
    "Test 1: Payment Performance Metrics"
    "/api/oracle/analytics/complex-joins" payment_data JNull
    "Payment analysis test PASSED" "Payment analysis test FAILED:"
    "Payment Behavior Analysis" 5.

Definition tests : list (string * M world bool) :=
  [("Window Functions", test_analytics_window_functions);
   ("Complex Joins", test_complex_joins);
   ("Hierarchical Queries", test_hierarchical_queries);
   ("Analytical Functions", test_analytical_functions);
   ("Advanced Table Queries", test_table_queries_advanced);
   ("Loan Risk Analysis", test_loan_risk_analysis);
   ("Transaction Patterns", test_transaction_patterns);
   ("Customer Segmentation", test_customer_segmentation);
   ("Branch Performance", test_branch_performance);
   ("Payment Analysis", test_payment_analysis)].

End Suite.

(** One turn of the loop of [run_comprehensive_test_suite], on the two
    locals [passed] and [results_summary]. *)
Definition run_test (acc : nat * list summary_entry) (test : string * M world bool)
    : M world (nat * list summary_entry) :=
  let* _ := print (TextName "Running test" (fst test)) in
  try_except
    (let* result := snd test in
     let passed := if result : bool then S (fst acc) else fst acc in
     let status := if result : bool then "PASSED" else "FAILED" in
     ret (passed, snd acc ++ [Finished (fst test) status]))
    (fun e =>
       let* _ := print (TextName ("test crashed: " ++ str_exn e)%string (fst test)) in
       ret (fst acc, snd acc ++ [Crashed (fst test) (str_exn e)])).

Fixpoint run_tests (tests : list (string * M world bool)) (acc : nat * list summary_entry)
    : M world (nat * list summary_entry) :=
  match tests with
  | [] => ret acc
  | test :: rest =>
      let* acc' := run_test acc test in
      run_tests rest acc'
  end.

(** The line printed for one entry: [result.get('duration', 'N/A')] is
    the duration of a finished test and N/A for a crashed one. *)
Definition summary_line (x : summary_entry) : line :=
  match x with
  | Finished test status => TextName (status ++ " (<duration>)")%string test
  | Crashed test _ => TextName "CRASHED (N/A)" test
  end.

(** [run_comprehensive_test_suite]: the value is the exit status. *)
Definition run_comprehensive_test_suite (net : network) : M world Z :=
  let* _ := prints [Text "ADVANCED BANKING ANALYTICS CONTROLLER TEST SUITE";
                    Text "================================================================================";
                    TextName "Testing API:" BASE_URL;
                    Text "Started at: <now>"] in
  let total := length (tests net) in
  let* (passed, results_summary) := run_tests (tests net) (0, []) in
  let* _ := prints [Text "================================================================================";
                    Text "COMPREHENSIVE TEST RESULTS";
                    Text "================================================================================"] in
  let* _ := prints (summary_line <$> results_summary) in
  let* rate := lift (truediv (Z.of_nat passed) (Z.of_nat total)) in
  let* _ := print (TextRate "Overall Results" passed total (Qmult rate (Qmake 100 1))) in
  if (passed =? total)%nat
  then let* _ := prints [Text "ALL ADVANCED CONTROLLER TESTS PASSED!";
                         Text "Banking database analytics are fully functional through API"] in
       ret 0%Z
  else let* _ := print (Text "Some tests failed. Check individual test results above.") in
       ret 1%Z.

End AdvancedSuite.

Module AdvancedShape.
Import Report AdvancedSuite.

(** The ten calls of the suite, in the order of its list of tests. *)
Definition calls : list (string * json * json) :=
  [("/api/oracle/analytics/window-functions", window_data, window_params);
   ("/api/oracle/analytics/complex-joins", join_data, JNull);
   ("/api/oracle/analytics/hierarchical-queries", hierarchy_data, hierarchy_params);
   ("/api/oracle/analytics/analytical-functions", analytical_data, analytical_params);
   ("/api/oracle/core/tables/CUSTOMERS/query", table_query_data, table_query_params);
   ("/api/oracle/analytics/complex-joins", risk_analysis_data, JNull);
   ("/api/oracle/analytics/complex-joins", pattern_data, JNull);
   ("/api/oracle/analytics/complex-joins", segmentation_data, JNull);
   ("/api/oracle/analytics/complex-joins", performance_data, JNull);
   ("/api/oracle/analytics/complex-joins", payment_data, JNull)].

(** A POST of a JSON body with the Content-Type header. *)
Definition post (call : string * json * json) : request :=
  Request POST (Advanced.BASE_URL ++ call.1.1)%string (Some call.1.2) call.2
    {[ "Content-Type" := "application/json" ]}.

Definition requests : list request := post <$> calls.

(** What a test makes of the reply to its call when that call is the
    [n]-th request of the process. *)
Definition verdict (net : network) (n : nat) (req : request) : result bool :=
  let p := reply_pair (net n req) in base_value (fst p) (snd p).

(** The verdicts of a run that starts after [n] requests. *)
Fixpoint verdicts (net : network) (n : nat) (reqs : list request) : list (result bool) :=
  match reqs with
  | [] => []
  | req :: rest => verdict net n req :: verdicts net (S n) rest
  end.

(** The summary entry for a test and what it did. *)
Definition entry_of (test : string) (v : result bool) : summary_entry :=
  match v with
  | Ok true => Finished test "PASSED"
  | Ok false => Finished test "FAILED"
  | Raise e => Crashed test (str_exn e)
  end.

Definition is_pass (v : result bool) : bool :=
  match v with Ok true => true | _ => false end.

Definition count_pass (vs : list (result bool)) : nat :=
  length (filter (fun v => is_pass v = true) vs).

(** A test that makes the one call [req] and whose outcome is the
    verdict on the reply. *)
Definition calls_one (net : network) (req : request) (test : M world bool) : Prop :=
  forall w, exists w',
    test w = (verdict net (length (sent w)) req, w')
    /\ sent w' = sent w ++ [req].

End AdvancedShape.

(** ** test_banking_corrected.py *)

Module Banking.

Definition BASE_URL : string := "http://localhost:8080".

(** [for x in v]: the items a loop over [v] visits.  A string yields its
    characters and a dict its keys, all of them strings; the order of the
    keys is the map's, which no caller depends on. *)
Fixpoint chars (s : string) : list json :=
  match s with
  | EmptyString => []
  | String c rest => JStr (String c EmptyString) :: chars rest
  end.

Definition iter (v : json) : result (list json) :=
  match v with
  | JList l => Ok l
  | JStr s => Ok (chars s)
  | JDict d => Ok (JStr <$> (map_to_list d).*1)
  | JNull => Raise (Exn TypeError "'NoneType' object is not iterable")
  | JBool _ => Raise (Exn TypeError "'bool' object is not iterable")
  | JInt _ => Raise (Exn TypeError "'int' object is not iterable")
  end.

(** [v[:n]] (on a dict the error is [TypeError] or, from Python 3.12,
    [KeyError]). *)
Definition slice_to (n : nat) (v : json) : result json :=
  match v with
  | JStr s => Ok (JStr (String.substring 0 n s))
  | JList l => Ok (JList (take n l))
  | JDict _ => Raise (Exn TypeError "unhashable type: 'slice'")
  | JNull => Raise (Exn TypeError "'NoneType' object is not subscriptable")
  | JBool _ => Raise (Exn TypeError "'bool' object is not subscriptable")
  | JInt _ => Raise (Exn TypeError "'int' object is not subscriptable")
  end.

(** Keys of a Python dict: a list or a dict cannot be one; [True] and
    [1] are the same key, as are [False] and [0]. *)
Definition hashable (v : json) : result unit :=
  match v with
  | JList _ => Raise (Exn TypeError "unhashable type: 'list'")
  | JDict _ => Raise (Exn TypeError "unhashable type: 'dict'")
  | _ => Ok tt
  end.

Definition key_eq (a b : json) : bool :=
  match a, b with
  | JNull, JNull => true
  | JStr s, JStr t => bool_decide (s = t)
  | JInt x, JInt y => (x =? y)%Z
  | JBool x, JBool y => bool_decide (x = y)
  | JBool x, JInt y | JInt y, JBool x => ((if x then 1 else 0) =? y)%Z
  | _, _ => false
  end.

(** [counts[k] = counts.get(k, 0) + 1] on a dict kept in insertion
    order. *)
Fixpoint count_key (k : json) (counts : list (json * nat)) : list (json * nat) :=
  match counts with
  | [] => [(k, 1)]
  | (k', n) :: rest =>
      if key_eq k' k then (k', S n) :: rest else (k', n) :: count_key k rest
  end.

(** [for x in items: body(x)] *)
Fixpoint for_each {S A : Type} (body : A -> M S unit) (items : list A) : M S unit :=
  match items with
  | [] => ret tt
  | x :: rest => let* _ := body x in for_each body rest
  end.

Section Requests.
Context {S : Type} `{Harness S}.
Variable net : network.

(** The body of the [try] block of [make_request]: a POST passes
    [json=data] only when [data] is truthy, and only the exact strings
    GET and POST assign [response]. *)
Definition make_request_body (endpoint method : string) (data params : json)
    : M S (Z * json) :=
  let headers : gmap string string :=
    if truthy data then {[ "Content-Type" := "application/json" ]} else ∅ in
  let url := (BASE_URL ++ endpoint)%string in
  let* response :=
    if String.eqb method "GET" then
      send net (Request GET url None params headers)
    else if String.eqb method "POST" then
      if truthy data
      then send net (Request POST url (Some data) params headers)
      else send net (Request POST url None params headers)
    else raise (Exn UnboundLocalError
                  "cannot access local variable 'response' where it is not associated with a value") in
  if bool_decide (content response = EmptyString)
  then ret (status_code response, JDict ∅)
  else let* body := lift (json_ response) in
       ret (status_code response, body).

Definition make_request (endpoint method : string) (data params : json)
    : M S (Z * json) :=
  try_except (make_request_body endpoint method data params)
    (fun e => ret (500%Z, JDict {[ "error" := JStr (str_exn e) ]})).

End Requests.

Definition strs := Core.strs.
Definition dict := Core.dict.

(** What [summary[table]] holds: a count, or one of the strings Unknown
    and Error. *)
Inductive table_count : Type :=
  | Count (n : nat)
  | Unknown
  | Error.

Definition is_count (c : table_count) : bool :=
  match c with Count _ => true | _ => false end.

Section Tests.
Variable net : network.
(** ["  " * (int(level) - 1)], the indentation of one employee: the
    builtin [int] and the repetition are taken as given. *)
Variable indent : json -> result string.

(** [status == 200 and response.get('status') == 'success'] *)
Definition success (status : Z) (response : json) : M world bool :=
  if (status =? 200)%Z
  then let* s := lift (dict_get response "status" JNull) in
       ret (eq_str s "success")
  else ret false.

Definition test_service_health : M world bool :=
  let* _ := print (Text "Testing service health...") in
  let* (status, response) := make_request net "/api/oracle/core/health" "GET" JNull JNull in
  if (status =? 200)%Z then
    let* _ := print (Text "Service is healthy") in
    let* service := lift (dict_get response "service" (JStr "Unknown")) in
    let* _ := print (TextJson "   Service:" service) in
    let* available := lift (dict_get response "availableEndpoints" (JStr "Unknown")) in
    let* _ := print (TextJson "   Available endpoints:" available) in
    ret true
  else
    let* _ := print (TextJson "Service health check failed:" response) in
    ret false.

Definition banking_names : list string :=
  ["CUSTOMERS"; "ACCOUNTS"; "LOANS"; "BRANCHES"; "EMPLOYEES"].

(** [[t for t in tables if t.get('TABLE_NAME') in banking_names]] *)
Fixpoint banking_only (tables : list json) : result (list json) :=
  match tables with
  | [] => Ok []
  | t :: rest =>
      match dict_get t "TABLE_NAME" JNull with
      | Raise e => Raise e
      | Ok v =>
          match banking_only rest with
          | Raise e => Raise e
          | Ok kept => Ok (if existsb (eq_str v) banking_names then t :: kept else kept)
          end
      end
  end.

Definition test_banking_tables : M world bool :=
  let* _ := print (Text "Testing banking table access...") in
  let* (status, response) := make_request net "/api/oracle/core/tables" "GET" JNull JNull in
  let* ok := success status response in
  if ok : bool then
    let* tables := lift (dict_get response "data" (JList [])) in
    let* items := lift (iter tables) in
    let* banking_tables := lift (banking_only items) in
    let* _ := print (TextNum "Found banking tables" (length banking_tables)) in
    let* _ := for_each (fun table =>
                          let* v := lift (dict_get table "TABLE_NAME" JNull) in
                          print (TextJson "   -" v)) banking_tables in
    ret (0 <? length banking_tables)%nat
  else
    let* _ := print (TextJson "Failed to list tables:" response) in
    ret false.

Definition test_table_query : M world bool :=
  let* _ := print (Text "Testing table queries...") in
  let* (status, response) :=
    make_request net "/api/oracle/core/tables/CUSTOMERS/query" "POST"
      (JList []) (dict [("limit", JInt 5)]) in
  let* ok := success status response in
  if ok : bool then
    let* customers := lift (dict_get response "data" (JList [])) in
    let* n := lift (len customers) in
    let* _ := print (TextNum "Retrieved customer records" n) in
    let* _ :=
      if truthy customers then
        let* _ := print (Text "   Sample customer data:") in
        let* head := lift (slice_to 3 customers) in
        let* items := lift (iter head) in
        for_each (fun customer =>
                    let* first := lift (dict_get customer "FIRST_NAME" (JStr "")) in
                    let* last := lift (dict_get customer "LAST_NAME" (JStr "")) in
                    let* score := lift (dict_get customer "CREDIT_SCORE" (JStr "N/A")) in
                    print (TextJson "   -" (JList [first; last; score]))) items
      else ret tt in
    ret true
  else
    let* _ := print (TextJson "Failed to query customers:" response) in
    ret false.

Definition window_data : json :=
  dict [("partitionBy", strs ["STATE"]);
        ("orderBy", strs ["CREDIT_SCORE DESC"]);
        ("selectColumns",
         strs ["CUSTOMER_ID"; "FIRST_NAME"; "LAST_NAME"; "STATE"; "CREDIT_SCORE"])].

Definition test_analytics_capabilities : M world bool :=
  let* _ := print (Text "Testing analytics capabilities...") in
  let* (status, response) :=
    make_request net "/api/oracle/analytics/window-functions" "POST" window_data
      (dict [("tableName", JStr "CUSTOMERS"); ("windowFunction", JStr "ROW_NUMBER()")]) in
  let* ok := success status response in
  if ok : bool then
    let* rankings := lift (dict_get response "data" (JList [])) in
    let* n := lift (len rankings) in
    let* _ := print (TextNum "Window functions: customer rankings by state" n) in
    let* _ :=
      if truthy rankings then
        let* _ := print (Text "   Sample rankings:") in
        let* head := lift (slice_to 5 rankings) in
        let* items := lift (iter head) in
        for_each (fun rank =>
                    let* first := lift (dict_get rank "FIRST_NAME" (JStr "")) in
                    let* last := lift (dict_get rank "LAST_NAME" (JStr "")) in
                    let* state := lift (dict_get rank "STATE" (JStr "")) in
                    let* score := lift (dict_get rank "CREDIT_SCORE" (JStr "N/A")) in
                    print (TextJson "   -" (JList [first; last; state; score]))) items
      else ret tt in
    ret true
  else
    let* _ := print (TextJson "Window functions test failed:" response) in
    ret false.

Definition join_data : json :=
  dict [("tables", strs ["CUSTOMERS"; "ACCOUNTS"]);
        ("joinConditions", strs ["CUSTOMERS.CUSTOMER_ID = ACCOUNTS.CUSTOMER_ID"]);
        ("selectColumns",
         strs ["CUSTOMERS.FIRST_NAME"; "CUSTOMERS.LAST_NAME";
               "ACCOUNTS.ACCOUNT_TYPE"; "ACCOUNTS.BALANCE"])].

(** The loop that fills [account_types]. *)
Fixpoint count_account_types (records : list json) (account_types : list (json * nat))
    : result (list (json * nat)) :=
  match records with
  | [] => Ok account_types
  | record :: rest =>
      match dict_get record "ACCOUNT_TYPE" (JStr "Unknown") with
      | Raise e => Raise e
      | Ok acc_type =>
          match hashable acc_type with
          | Raise e => Raise e
          | Ok _ => count_account_types rest (count_key acc_type account_types)
          end
      end
  end.

Definition test_complex_joins : M world bool :=
  let* _ := print (Text "Testing complex joins...") in
  let* (status, response) :=
    make_request net "/api/oracle/analytics/complex-joins" "POST" join_data JNull in
  let* ok := success status response in
  if ok : bool then
    let* join_results := lift (dict_get response "data" (JList [])) in
    let* n := lift (len join_results) in
    let* _ := print (TextNum "Complex joins: customer-account records" n) in
    let* _ :=
      if truthy join_results then
        let* records := lift (iter join_results) in
        let* account_types := lift (count_account_types records []) in
        let* _ := print (Text "   Account type distribution:") in
        for_each (fun entry : json * nat =>
                    print (TextJson "   - accounts"
                             (JList [fst entry; JInt (Z.of_nat (snd entry))])))
          account_types
      else ret tt in
    ret true
  else
    let* _ := print (TextJson "Complex joins test failed:" response) in
    ret false.

Definition hierarchy_data : json :=
  dict [("selectColumns",
         strs ["EMPLOYEE_ID"; "FIRST_NAME"; "LAST_NAME"; "POSITION"; "LEVEL"])].

Definition test_banking_analytics : M world bool :=
  let* _ := print (Text "Testing banking analytics...") in
  let* (status, response) :=
    make_request net "/api/oracle/analytics/hierarchical-queries" "POST" hierarchy_data
      (dict [("tableName", JStr "EMPLOYEES");
             ("startWithCondition", JStr "MANAGER_ID IS NULL");
             ("connectByCondition", JStr "PRIOR EMPLOYEE_ID = MANAGER_ID")]) in
  let* ok := success status response in
  if ok : bool then
    let* hierarchy := lift (dict_get response "data" (JList [])) in
    let* n := lift (len hierarchy) in
    let* _ := print (TextNum "Hierarchical query: employee records in hierarchy" n) in
    let* _ :=
      if truthy hierarchy then
        let* _ := print (Text "   Management hierarchy sample:") in
        let* head := lift (slice_to 5 hierarchy) in
        let* items := lift (iter head) in
        for_each (fun emp =>
                    let* lvl := lift (dict_get emp "LEVEL" (JInt 1)) in
                    let* level := lift (indent lvl) in
                    let* first := lift (dict_get emp "FIRST_NAME" (JStr "")) in
                    let* last := lift (dict_get emp "LAST_NAME" (JStr "")) in
                    let* position := lift (dict_get emp "POSITION" (JStr "Unknown")) in
                    print (TextJson level (JList [first; last; position]))) items
      else ret tt in
    ret true
  else
    let* _ := print (TextJson "Banking analytics test failed:" response) in
    ret false.

Definition summary_tables : list string :=
  ["CUSTOMERS"; "ACCOUNTS"; "LOANS"; "TRANSACTIONS"; "EMPLOYEES"; "BRANCHES"].

(** One turn of the loop of [test_data_summary].  The tables are
    distinct, so [summary[table] = ...] adds an entry. *)
Definition summarise (summary : list (string * table_count)) (table : string)
    : M world (list (string * table_count)) :=
  let endpoint := ("/api/oracle/core/tables/" ++ table ++ "/query")%string in
  let* (status, response) :=
    make_request net endpoint "POST" (JList []) (dict [("limit", JInt 1)]) in
  let* ok := success status response in
  if ok : bool then
    let* (status2, response2) := make_request net endpoint "POST" (JList []) JNull in
    let* ok2 := success status2 response2 in
    if ok2 : bool then
      let* data := lift (dict_get response2 "data" (JList [])) in
      let* count := lift (len data) in
      ret (summary ++ [(table, Count count)])
    else ret (summary ++ [(table, Unknown)])
  else ret (summary ++ [(table, Error)]).

Fixpoint summarise_all (tables : list string) (summary : list (string * table_count))
    : M world (list (string * table_count)) :=
  match tables with
  | [] => ret summary
  | table :: rest =>
      let* summary' := summarise summary table in
      summarise_all rest summary'
  end.

Definition summary_line (entry : string * table_count) : line :=
  match snd entry with
  | Count n => TextNum (fst entry) n
  | Unknown => TextName "Unknown" (fst entry)
  | Error => TextName "Error" (fst entry)
  end.

Definition test_data_summary : M world bool :=
  let* _ := print (Text "Banking data summary...") in
  let* summary := summarise_all summary_tables [] in
  let* _ := print (Text "Banking Database Summary:") in
  let* _ := prints (summary_line <$> summary) in
  ret (0 <? length (filter (fun e => is_count (snd e) = true) summary))%nat.

Definition tests : list (string * M world bool) :=
  [("Service Health", test_service_health);
   ("Banking Tables", test_banking_tables);
   ("Table Queries", test_table_query);
   ("Analytics Capabilities", test_analytics_capabilities);
   ("Complex Joins", test_complex_joins);
   ("Banking Analytics", test_banking_analytics);
   ("Data Summary", test_data_summary)].

End Tests.

(** One turn of the loop of [main]. *)
Definition run_test (passed : nat) (test : string * M world bool) : M world nat :=
  try_except
    (let* r := snd test in
     if r : bool then ret (S passed)
     else let* _ := print (TextName "test failed" (fst test)) in ret passed)
    (fun e =>
       let* _ := print (TextName ("test crashed: " ++ str_exn e)%string (fst test)) in
       ret passed).

Fixpoint run_tests (tests : list (string * M world bool)) (passed : nat) : M world nat :=
  match tests with
  | [] => ret passed
  | test :: rest =>
      let* passed' := run_test passed test in
      run_tests rest passed'
  end.

(** The lines [main] starts with. *)
Definition banner : M world unit :=
  prints [Text "Banking Database MCP Oracle Server Test Suite";
          Text "=================================================================";
          TextName "Testing against:" BASE_URL;
          Text "Started at: <now>";
          Text ""].

(** [main]: the value is the exit status. *)
Definition main (net : network) (indent : json -> result string) : M world Z :=
  let* _ := banner in
  let total := length (tests net indent) in
  let* passed := run_tests (tests net indent) 0 in
  let* _ := prints [Text "=================================================================";
                    TextJson "Test Results: passed/total"
                      (JList [JInt (Z.of_nat passed); JInt (Z.of_nat total)])] in
  if (passed =? total)%nat
  then let* _ := print (Text "All banking database tests passed!") in ret 0%Z
  else let* _ := print (Text "Some tests failed. The banking database is populated but may need adjustments.") in
       ret 1%Z.

End Banking.

Module BankingShape.
Import Report Banking.

(** The request [Banking.make_request] puts on the wire, if any. *)
Definition banking_request (endpoint method : string) (data params : json)
    : option request :=
  let hs : gmap string string :=
    if truthy data then {[ "Content-Type" := "application/json" ]} else ∅ in
  let url := (Banking.BASE_URL ++ endpoint)%string in
  if String.eqb method "GET" then Some (Request GET url None params hs)
  else if String.eqb method "POST"
       then Some (Request POST url (if truthy data then Some data else None) params hs)
  else None.

(** A computation that puts nothing on the wire. *)
Definition quiet {A : Type} (c : M world A) : Prop :=
  forall w, sent (snd (c w)) = sent w.

(** A computation that, whether it returns or raises, sends between
    [lo] and [hi] requests, each of them satisfying [P]. *)
Definition traffic {A : Type} (P : request -> Prop) (lo hi : nat) (c : M world A) : Prop :=
  forall w, exists reqs,
    sent (snd (c w)) = sent w ++ reqs
    /\ lo <= length reqs <= hi
    /\ Forall P reqs.

(** A query of one of the summary's tables that carries neither a JSON
    body nor a header. *)
Definition bare_query (req : request) : Prop :=
  req_verb req = POST
  /\ req_json req = None
  /\ req_headers req = ∅
  /\ exists table,
       table ∈ summary_tables
       /\ req_url req
          = (Banking.BASE_URL ++ "/api/oracle/core/tables/" ++ table ++ "/query")%string.

(** What each test of [main]'s loop did when its turn came. *)
Fixpoint outcomes (tests : list (string * M world bool)) (w : world)
    : list (result bool) :=
  match tests with
  | [] => []
  | test :: rest => fst (snd test w) :: outcomes rest (snd (Banking.run_test 0 test w))
  end.

(** The call of [test_banking_tables]. *)
Definition tables_request : request :=
  Request GET (Banking.BASE_URL ++ "/api/oracle/core/tables")%string None JNull ∅.

(** A row of the listing that names one of the banking tables. *)
Definition names_banking_table (t : json) : bool :=
  match t with
  | JDict row => existsb (eq_str (default JNull (row !! "TABLE_NAME"))) banking_names
  | _ => false
  end.

(** A service that lists the tables named [names], one row each. *)
Definition net_listing (names : list string) : network :=
  fun _ _ =>
    Replied (Response 200 "{...}"
               (Ok (JDict (list_to_map
                  [("status", JStr "success");
                   ("data", JList ((fun n => JDict {[ "TABLE_NAME" := JStr n ]}) <$> names))])))).

End BankingShape.

(** ** test-cases/test_oracle_security_controller.py: the tests *)

Module SecuritySuite.
Import TestBase Security.

Definition strs := Core.strs.
Definition dict := Core.dict.

(** What a passing test lists: the whole response, its ['data'] with
    an empty dict as default, or its ['data'] with an empty list as
    default after a line that counts it. *)
Inductive listing : Type :=
  | Whole
  | Data
  | Counted (found : string).

Section Suite.
Variable net : network.

Definition show (what : listing) (response : json) (title : string) (max_items : nat)
    : M tester unit :=
  match what with
  | Whole => print_results response title max_items
  | Data =>
      let* data := lift (dict_get response "data" (JDict ∅)) in
      print_results data title max_items
  | Counted found =>
      let* data := lift (dict_get response "data" (JList [])) in
      let* n := lift (len data) in
      let* _ := print (TextNum found n) in
      print_results data title max_items
  end.

(** The thirteen tests share one body: header, one call, the policy,
    the record in [test_results], then the listing when the check
    passed. *)
Definition security_test (header endpoint method : string) (data params : json)
    (test_name : string) (what : listing) (title : string) (max_items : nat)
    : M tester bool :=
  let* _ := print_test_header header in
  let* (status, response) := make_request net endpoint method data params None in
  let* result := sec_assert_success status response test_name in
  let* _ := append_result (test_name, result) in
  let* _ := if result : bool then show what response title max_items else ret tt in
  ret result.

Definition test_security_health_check : M tester bool :=
  security_test "SECURITY SERVICE HEALTH CHECK" "/api/oracle/security/health" "GET"
    JNull JNull "Security Health Check" Whole "Security Service Status" 5.

Definition test_security_assessment : M tester bool :=
  security_test "SECURITY ASSESSMENT" "/api/oracle/security/assessment" "GET"
    JNull JNull "Security Assessment" Data "Security Assessment Report" 12.

Definition audit_request : json :=
  dict [("timeRange", JStr "24h");
        ("auditTypes", strs ["LOGIN"; "DDL"; "DML"]);
        ("includeFailedAttempts", JBool true);
        ("groupByUser", JBool true)].

Definition test_audit_trail_analysis : M tester bool :=
  security_test "AUDIT TRAIL ANALYSIS" "/api/oracle/security/audit-trail" "POST"
    audit_request JNull "Audit Trail Analysis"
    (Counted "Analyzed audit trail entries") "Recent Audit Events" 8.

Definition activity_request : json :=
  dict [("username", JStr "C##DEEPAI");
        ("timeRange", JStr "7d");
        ("includeAnomalies", JBool true);
        ("riskThreshold", JStr "MEDIUM")].

Definition test_user_activity_monitoring : M tester bool :=
  security_test "USER ACTIVITY MONITORING" "/api/oracle/security/user-activity" "POST"
    activity_request JNull "User Activity Monitoring" Data "C##DEEPAI Activity Analysis" 10.

Definition test_failed_login_analysis : M tester bool :=
  security_test "FAILED LOGIN ANALYSIS" "/api/oracle/security/failed-logins" "GET"
    JNull (dict [("timeRange", JStr "24h"); ("threshold", JStr "3")])
    "Failed Login Analysis" (Counted "Found failed login events") "Failed Login Attempts" 6.

Definition escalation_request : json :=
  dict [("timeRange", JStr "30d");
        ("includeRoleChanges", JBool true);
        ("includeSystemPrivileges", JBool true);
        ("alertThreshold", JStr "MEDIUM")].

Definition test_privilege_escalation_detection : M tester bool :=
  security_test "PRIVILEGE ESCALATION DETECTION" "/api/oracle/security/privilege-escalation"
    "POST" escalation_request JNull "Privilege Escalation Detection"
    (Counted "Detected potential privilege escalations") "Privilege Escalation Events" 5.

Definition injection_request : json :=
  dict [("timeRange", JStr "7d");
        ("analysisDepth", JStr "COMPREHENSIVE");
        ("includeSuspiciousPatterns", JBool true)].

Definition test_sql_injection_detection : M tester bool :=
  security_test "SQL INJECTION DETECTION" "/api/oracle/security/sql-injection-detection"
    "POST" injection_request JNull "SQL Injection Detection"
    (Counted "Detected potential SQL injection attempts") "SQL Injection Attempts" 5.

Definition access_request : json :=
  dict [("tableName", JStr "CUSTOMERS");
        ("timeRange", JStr "7d");
        ("detectAnomalies", JBool true);
        ("includeVolumeAnalysis", JBool true)].

Definition test_data_access_patterns : M tester bool :=
  security_test "DATA ACCESS PATTERNS" "/api/oracle/security/data-access-patterns" "POST"
    access_request JNull "Data Access Patterns" Data "CUSTOMERS Access Pattern Analysis" 8.

Definition test_encryption_status : M tester bool :=
  security_test "ENCRYPTION STATUS" "/api/oracle/security/encryption-status" "GET"
    JNull JNull "Encryption Status" Data "Database Encryption Status" 8.

Definition compliance_request : json :=
  dict [("standards", strs ["PCI_DSS"; "GDPR"; "SOX"]);
        ("includeRecommendations", JBool true);
        ("detailLevel", JStr "COMPREHENSIVE")].

Definition test_compliance_check : M tester bool :=
  security_test "COMPLIANCE CHECK" "/api/oracle/security/compliance-check" "POST"
    compliance_request JNull "Compliance Check" Data "Compliance Analysis Report" 10.

Definition alert_request : json :=
  dict [("severity", strs ["HIGH"; "CRITICAL"]);
        ("timeRange", JStr "24h");
        ("includeResolved", JBool false)].

Definition test_security_alerts : M tester bool :=
  security_test "SECURITY ALERTS" "/api/oracle/security/alerts" "POST"
    alert_request JNull "Security Alerts"
    (Counted "Found active security alerts") "Active Security Alerts" 5.

Definition scan_request : json :=
  dict [("scanType", JStr "COMPREHENSIVE");
        ("includeConfigurationChecks", JBool true);
        ("includePatchAnalysis", JBool true);
        ("riskThreshold", JStr "MEDIUM")].

Definition test_vulnerability_scan : M tester bool :=
  security_test "VULNERABILITY SCAN" "/api/oracle/security/vulnerability-scan" "POST"
    scan_request JNull "Vulnerability Scan"
    (Counted "Detected potential vulnerabilities") "Security Vulnerabilities" 6.

Definition rec_request : json :=
  dict [("scope", JStr "DATABASE");
        ("priority", strs ["HIGH"; "CRITICAL"]);
        ("includeImplementationSteps", JBool true);
        ("category", strs ["AUTHENTICATION"; "AUTHORIZATION"; "ENCRYPTION"; "MONITORING"])].

Definition test_security_recommendations : M tester bool :=
  security_test "SECURITY RECOMMENDATIONS" "/api/oracle/security/recommendations" "POST"
    rec_request JNull "Security Recommendations"
    (Counted "Generated security recommendations") "Security Hardening Recommendations" 5.

Definition tests : list (string * M tester bool) :=
  [ ("test_security_health_check", test_security_health_check);
    ("test_security_assessment", test_security_assessment);
    ("test_audit_trail_analysis", test_audit_trail_analysis);
    ("test_user_activity_monitoring", test_user_activity_monitoring);
    ("test_failed_login_analysis", test_failed_login_analysis);
    ("test_privilege_escalation_detection", test_privilege_escalation_detection);
    ("test_sql_injection_detection", test_sql_injection_detection);
    ("test_data_access_patterns", test_data_access_patterns);
    ("test_encryption_status", test_encryption_status);
    ("test_compliance_check", test_compliance_check);
    ("test_security_alerts", test_security_alerts);
    ("test_vulnerability_scan", test_vulnerability_scan);
    ("test_security_recommendations", test_security_recommendations) ].

(** [run_all_tests]; this module imports [datetime] at its top. *)
Definition banner : M tester unit :=
  prints [Text "ORACLE SECURITY CONTROLLER TEST SUITE";
          Text "============================================================";
          TextName "Testing API:" BASE_URL;
          Text "Started at: <now>"].

Definition run_all_tests : M tester bool :=
  let* _ := banner in
  let* available := wait_for_service net default_max_attempts in
  if negb available
  then let* _ := print (Text "Service not available, skipping tests") in
       ret false
  else
    let* passed := run_tests tests 0 in
    let total := length tests in
    let* _ := print_summary "SECURITY CONTROLLER" passed total in
    ret (passed =? total)%nat.

End Suite.

End SecuritySuite.

Module SecurityShape.
Import TestBase Report SecuritySuite.

(** The tolerant policy on a status code. *)
Definition tolerated (status : Z) : bool := (status =? 200)%Z || (status =? 404)%Z.

(** Whether listing the payload of a passed check raises. *)
Definition listable (what : listing) (body : json) : result unit :=
  match what with
  | Whole => Ok tt
  | Data =>
      match dict_get body "data" (JDict ∅) with
      | Ok _ => Ok tt
      | Raise e => Raise e
      end
  | Counted _ =>
      match dict_get body "data" (JList []) with
      | Ok data => match len data with Ok _ => Ok tt | Raise e => Raise e end
      | Raise e => Raise e
      end
  end.

(** One check of the suite: the name of the method, the name it
    records under, what it lists and the request it sends. *)
Record check : Type := Check {
  method_name : string;
  test_name : string;
  lists : listing;
  call : request
}.

Definition get (endpoint : string) (params : json) : request :=
  Request GET (BASE_URL ++ endpoint)%string None params session_headers.

Definition post (endpoint : string) (data : json) : request :=
  Request POST (BASE_URL ++ endpoint)%string (Some data) JNull session_headers.

Definition plan : list check :=
  [ Check "test_security_health_check" "Security Health Check" Whole
      (get "/api/oracle/security/health" JNull);
    Check "test_security_assessment" "Security Assessment" Data
      (get "/api/oracle/security/assessment" JNull);
    Check "test_audit_trail_analysis" "Audit Trail Analysis"
      (Counted "Analyzed audit trail entries")
      (post "/api/oracle/security/audit-trail" audit_request);
    Check "test_user_activity_monitoring" "User Activity Monitoring" Data
      (post "/api/oracle/security/user-activity" activity_request);
    Check "test_failed_login_analysis" "Failed Login Analysis"
      (Counted "Found failed login events")
      (get "/api/oracle/security/failed-logins"
         (dict [("timeRange", JStr "24h"); ("threshold", JStr "3")]));
    Check "test_privilege_escalation_detection" "Privilege Escalation Detection"
      (Counted "Detected potential privilege escalations")
      (post "/api/oracle/security/privilege-escalation" escalation_request);
    Check "test_sql_injection_detection" "SQL Injection Detection"
      (Counted "Detected potential SQL injection attempts")
      (post "/api/oracle/security/sql-injection-detection" injection_request);
    Check "test_data_access_patterns" "Data Access Patterns" Data
      (post "/api/oracle/security/data-access-patterns" access_request);
    Check "test_encryption_status" "Encryption Status" Data
      (get "/api/oracle/security/encryption-status" JNull);
    Check "test_compliance_check" "Compliance Check" Data
      (post "/api/oracle/security/compliance-check" compliance_request);
    Check "test_security_alerts" "Security Alerts"
      (Counted "Found active security alerts")
      (post "/api/oracle/security/alerts" alert_request);
    Check "test_vulnerability_scan" "Vulnerability Scan"
      (Counted "Detected potential vulnerabilities")
      (post "/api/oracle/security/vulnerability-scan" scan_request);
    Check "test_security_recommendations" "Security Recommendations"
      (Counted "Generated security recommendations")
      (post "/api/oracle/security/recommendations" rec_request) ].

(** What a check does with the reply to its call: the value it returns
    or the exception it raises. *)
Definition outcome (c : check) (rep : reply) : result bool :=
  let p := reply_pair rep in
  if tolerated (fst p)
  then match listable (lists c) (snd p) with
       | Ok _ => Ok true
       | Raise e => Raise e
       end
  else Ok false.

(** The entries a check and the handler of the loop leave in
    [test_results]: the check's own, and a failed one under the method
    name when the listing raised. *)
Definition entries (c : check) (rep : reply) : list (string * bool) :=
  (test_name c, tolerated (fst (reply_pair rep)))
  :: match outcome c rep with
     | Raise _ => [(method_name c, false)]
     | Ok _ => []
     end.

(** The replies to the calls of [checks] when the first of them is the
    [n]-th request of the process. *)
Fixpoint replies (net : network) (n : nat) (checks : list check) : list reply :=
  match checks with
  | [] => []
  | c :: rest => net n (call c) :: replies net (S n) rest
  end.

(** A test that behaves as the check [c] describes. *)
Definition follows (net : network) (c : check) (test : M tester bool) : Prop :=
  forall t, exists w',
    let rep := net (length (sent (tester_world t))) (call c) in
    test t = (outcome c rep,
              Tester (test_results t ++ [(test_name c, tolerated (fst (reply_pair rep)))])
                (csrf_token t) w')
    /\ sent w' = sent (tester_world t) ++ [call c].

End SecurityShape.

(** ** test-cases/run_all_controller_tests.py: running the scripts *)

Module ControllerRunner.
Import Comprehensive.

(** What [subprocess.run] does with one script: the process completes,
    the timeout expires, or the call raises another exception. *)
Inductive spawned : Type :=
  | Completed (returncode : Z) (stdout stderr : string)
  | TimeoutExpired
  | SpawnError (e : exn).

(** [s.split(sep)] for a separator of one character. *)
Fixpoint split_on (sep : ascii) (s : string) : list string :=
  match s with
  | EmptyString => [EmptyString]
  | String c rest =>
      if Ascii.eqb c sep then EmptyString :: split_on sep rest
      else match split_on sep rest with
           | [] => [String c EmptyString]
           | x :: xs => String c x :: xs
           end
  end.

Definition newline : ascii := "010"%char.
Definition slash : ascii := "/"%char.

(** [self.test_scripts], which no method changes. *)
Definition test_scripts : list (string * string) :=
  [("CSRF Controller", "test_csrf_controller.py");
   ("Oracle Service Controller", "test_oracle_core_controller.py");
   ("Oracle Analytics Controller", "test_oracle_analytics_controller.py");
   ("Oracle AI Controller", "test_oracle_ai_controller.py");
   ("Oracle Performance Controller", "test_oracle_performance_controller.py");
   ("Oracle Privilege Controller", "test_oracle_privilege_controller.py");
   ("Oracle Security Controller", "test_oracle_security_controller.py")].

(** [self.results.append(x)] *)
Definition append_result (x : script_result) : M runner unit :=
  fun r => (Ok tt, Runner (results r ++ [x]) (runner_world r)).

(** [for x in items: body(x)] *)
Fixpoint for_each {A : Type} (body : A -> M runner unit) (items : list A) : M runner unit :=
  match items with
  | [] => ret tt
  | x :: rest => let* _ := body x in for_each body rest
  end.

Section Runner.
(** The file system and the operating system: [os.path.exists],
    [subprocess.run] on a script, and writing the JSON file. *)
Variable path_exists : string -> bool.
Variable run : string -> spawned.
Variable dump : result unit.
(** The builtins [str.lower], [str.split()] and [int], taken as given. *)
Variable lower : string -> string.
Variable split : string -> list string.
Variable int : string -> result Z.

(** [print_header] *)
Definition print_header : M runner unit :=
  prints [Text "MCP ORACLE SERVER - COMPREHENSIVE CONTROLLER TESTS";
          Text "======================================================================";
          Text "Started at: <start_time>";
          TextNum "Testing controller suites" (length test_scripts);
          Text "======================================================================"].

(** The loop over the parts of one line, under its [try] with the bare
    [except: pass]: the first part with a slash assigns [passed_count],
    then [test_count], and ends the loop; an [int] that raises ends it
    with what was assigned so far.  A pair is (test_count,
    passed_count). *)
Fixpoint scan_parts (parts : list string) (counts : Z * Z) : Z * Z :=
  match parts with
  | [] => counts
  | part :: rest =>
      if contains "/" part then
        match int (nth 0 (split_on slash part) EmptyString) with
        | Raise _ => counts
        | Ok passed_count =>
            match int (nth 1 (split_on slash part) EmptyString) with
            | Raise _ => (fst counts, passed_count)
            | Ok test_count => (test_count, passed_count)
            end
        end
      else scan_parts rest counts
  end.

Definition scan_line (counts : Z * Z) (line : string) : Z * Z :=
  if contains "tests passed" (lower line) then scan_parts (split line) counts else counts.

(** The loop over the lines of the output. *)
Definition parse_counts (output : string) : Z * Z :=
  foldl scan_line (0%Z, 0%Z) (split_on newline output).

(** [run_test_script] *)
Definition run_test_script (name script_path : string) : M runner unit :=
  let* _ := prints [TextName "RUNNING:" name;
                    Text "--------------------------------------------------"] in
  match run script_path with
  | Completed returncode output errors =>
      let success := (returncode =? 0)%Z in
      let test_count := fst (parse_counts output) in
      let passed_count := snd (parse_counts output) in
      let* _ := append_result
                  (ScriptResult name script_path success test_count passed_count
                     errors returncode) in
      let counts := JList [JInt passed_count; JInt test_count] in
      if success then
        if (0 <? test_count)%Z
        then print (TextJson (name ++ ": PASSED (tests)") counts)
        else print (TextName "PASSED" name)
      else
        let* _ := if (0 <? test_count)%Z
                  then print (TextJson (name ++ ": FAILED (tests)") counts)
                  else print (TextName "FAILED" name) in
        if bool_decide (errors = EmptyString) then ret tt
        else print (TextName "   Error:" (nth 0 (split_on newline errors) EmptyString))
  | TimeoutExpired =>
      let* _ := print (TextName "TIMEOUT (>5 minutes)" name) in
      append_result (ScriptResult name script_path false 0 0
                       "Test timed out after 5 minutes" (-1))
  | SpawnError e =>
      let* _ := print (TextName ("CRASHED - " ++ str_exn e) name) in
      append_result (ScriptResult name script_path false 0 0 (str_exn e) (-2))
  end.

(** One turn of the loop of [run_all_tests]. *)
Definition run_script (entry : string * string) : M runner unit :=
  let name := fst entry in
  let script := snd entry in
  if path_exists script then run_test_script name script
  else
    let* _ := print (TextName ("SKIPPED: " ++ script ++ " not found") name) in
    append_result (ScriptResult name script false 0 0 "Test script not found" (-3)).

(** [save_results_json]: a failure to write is printed, not raised. *)
Definition save_results_json : M runner unit :=
  try_except
    (let* _ := lift dump in
     print (Text "Detailed results saved to: controller_test_results.json"))
    (fun e => print (Text ("Could not save results to JSON: " ++ str_exn e))).

(** [run_all_tests] *)
Definition run_all_tests : M runner bool :=
  let* _ := print_header in
  if negb (path_exists "test_base.py") then
    let* _ := print (Text "Error: test_base.py not found. Make sure you're in the test-cases directory.") in
    ret false
  else
    let* _ := for_each run_script test_scripts in
    let* _ := print_detailed_summary in
    let* _ := save_results_json in
    fun r => (Ok (forallb success (results r)), r).

End Runner.

(** The entry [run_all_tests] records for one script. *)
Definition entry_for (path_exists : string -> bool) (run : string -> spawned)
    (counts : string -> Z * Z) (entry : string * string) : script_result :=
  let name := fst entry in
  let script := snd entry in
  if path_exists script then
    match run script with
    | Completed returncode output errors =>
        ScriptResult name script (returncode =? 0)%Z (fst (counts output))
          (snd (counts output)) errors returncode
    | TimeoutExpired =>
        ScriptResult name script false 0 0 "Test timed out after 5 minutes" (-1)
    | SpawnError e => ScriptResult name script false 0 0 (str_exn e) (-2)
    end
  else ScriptResult name script false 0 0 "Test script not found" (-3).

(** A script that is present and ran to completion with status 0. *)
Definition succeeded (path_exists : string -> bool) (run : string -> spawned)
    (script : string) : Prop :=
  path_exists script = true /\ exists output errors, run script = Completed 0 output errors.

(** A computation of the runner that leaves [self.results] as it found
    it, whether it returns or raises. *)
Definition keeps_entries {A : Type} (c : M runner A) : Prop :=
  forall r, results (snd (c r)) = results r.

End ControllerRunner.

(** ** test-cases/run_quick_tests.py *)

Module QuickTests.
Import ControllerRunner.

Definition tests : list (string * string) :=
  [("test_csrf_controller.py", "CSRF Controller");
   ("test_oracle_core_controller.py", "Oracle Core Service");
   ("test_oracle_analytics_controller.py", "Oracle Analytics");
   ("test_oracle_ai_controller.py", "Oracle AI Services");
   ("test_oracle_performance_controller.py", "Oracle Performance");
   ("test_oracle_privilege_controller.py", "Oracle Privilege");
   ("test_oracle_security_controller.py", "Oracle Security")].

(** The loop over the lines of the output: the first line with both
    markers is returned. *)
Fixpoint overall_line (lines : list string) : option string :=
  match lines with
  | [] => None
  | line :: rest =>
      if contains "Overall:" line && contains "tests passed" line
      then Some line
      else overall_line rest
  end.

Section Quick.
(** [subprocess.run] on a script, and the builtin [str.strip]. *)
Variable run : string -> spawned.
Variable strip : string -> string.

(** [run_test] *)
Definition run_test (script_name controller_name : string) : M world (string * bool) :=
  let* _ := print (TextName "Testing" controller_name) in
  match run script_name with
  | Completed returncode output _ =>
      match (if contains "Overall:" output
             then overall_line (split_on newline output)
             else None) with
      | Some line => ret (strip line, (returncode =? 0)%Z)
      | None => ret ("No results found", (returncode =? 0)%Z)
      end
  | TimeoutExpired => ret ("TIMEOUT", false)
  | SpawnError e => ret (("ERROR: " ++ str_exn e)%string, false)
  end.

(** The loop of [main], on the locals [results] and [total_passed]. *)
Fixpoint run_tests (tests : list (string * string))
    (acc : list (string * string * bool) * nat)
    : M world (list (string * string * bool) * nat) :=
  match tests with
  | [] => ret acc
  | test :: rest =>
      let* (result_text, success) := run_test (fst test) (snd test) in
      run_tests rest
        (fst acc ++ [(snd test, result_text, success)],
         if success : bool then S (snd acc) else snd acc)
  end.

(** [main] *)
Definition main : M world bool :=
  let* _ := prints [Text "MCP ORACLE SERVER - QUICK CONTROLLER TEST SUMMARY";
                    Text "======================================================================";
                    Text "Started at: <now>";
                    Text ""] in
  let* (results, total_passed) := run_tests tests ([], 0) in
  let* _ := prints [Text "COMPREHENSIVE TEST RESULTS";
                    Text "======================================================================"] in
  let* _ := prints ((fun x : string * string * bool =>
                       TextName ((if snd x then "ok " else "failed ") ++ snd (fst x))
                         (fst (fst x))) <$> results) in
  let* _ := print (TextJson "FINAL SUMMARY: controller test suites passed"
                     (JList [JInt (Z.of_nat total_passed); JInt (Z.of_nat (length tests))])) in
  if (total_passed =? length tests)%nat
  then let* _ := print (Text "ALL CONTROLLER TESTS PASSED!") in ret true
  else let* _ := print (TextNum "controller test(s) have issues"
                          (length tests - total_passed)) in
       ret false.

End Quick.

(** A script that ran to completion with status 0. *)
Definition exit_ok (s : spawned) : bool :=
  match s with
  | Completed returncode _ _ => (returncode =? 0)%Z
  | _ => false
  end.

(** An output with two summary lines, and a script that prints it and
    exits with status 1. *)
Definition two_summaries : string :=
  ("header" ++ String newline
     ("Overall: 1/2 tests passed" ++ String newline "Overall: 2/2 tests passed"))%string.

Definition failing_script : string -> spawned :=
  fun _ => Completed 1 two_summaries EmptyString.

End QuickTests.

(** * Properties *)

Import TestBase Report.

(** ** The classification policies *)

Section Policies.
Implicit Types (status : Z) (body : json) (test_name : string) (t : tester).

Lemma sec_assert_success_value status body test_name t :
  fst (Security.sec_assert_success status body test_name t)
  = Ok ((status =? 200)%Z || (status =? 404)%Z).
Proof.
  unfold Security.sec_assert_success.
  destruct (status =? 200)%Z; [reflexivity|].
  destruct (status =? 404)%Z; reflexivity.
Qed.

Lemma assert_success_value status body test_name t :
  fst (assert_success status body test_name t) = base_value status body.
Proof.
  unfold assert_success, base_value, bind, lift, ret.
  destruct (status =? 200)%Z; [|reflexivity].
  destruct (dict_get body "status" JNull) as [s|e]; [|reflexivity].
  destruct (eq_str s "success"); reflexivity.
Qed.

Lemma analytics_assert_success_value repr status body test_name t :
  fst (Analytics.analytics_assert_success repr status body test_name t)
  = analytics_value repr status body.
Proof.
  unfold Analytics.analytics_assert_success, analytics_value, bind, lift, ret.
  destruct (status =? 200)%Z.
  - destruct (dict_get body "status" JNull) as [s|e]; [|reflexivity].
    destruct (eq_str s "success"); [reflexivity|].
    destruct (has "data" body) as [[|]|e]; try reflexivity.
    destruct (eq_str s "error"); [|reflexivity].
    destruct (dict_get body "message" (JStr "")) as [m|e]; [|reflexivity].
    destruct (contains "SQL grammar" (str repr m)); reflexivity.
  - destruct (status =? 404)%Z; reflexivity.
Qed.

Lemma eq_str_true v s : eq_str v s = true <-> v = JStr s.
Proof.
  destruct v; simpl; try (split; discriminate).
  case_bool_decide; split; intros Heq; try discriminate; congruence.
Qed.

Lemma base_value_true status body :
  base_value status body = Ok true
  <-> status = 200%Z /\ exists d, body = JDict d /\ d !! "status" = Some (JStr "success").
Proof.
  unfold base_value. destruct (Z.eqb_spec status 200) as [->|Hne].
  - destruct body as [| | | |l|d]; simpl;
      try (split; [discriminate|intros [_ (d' & Hd & _)]; discriminate]).
    split.
    + intros Hok. split; [reflexivity|]. exists d. split; [reflexivity|].
      destruct (d !! "status") as [v|]; simpl in Hok; [|discriminate].
      f_equal. apply eq_str_true. congruence.
    + intros [_ (d' & Hd & Hs)]. injection Hd as <-. rewrite Hs. reflexivity.
  - split; [discriminate|]. intros [-> _]. contradiction.
Qed.

Lemma business_error_dict body :
  business_error body = true ->
  exists d, body = JDict d /\ d !! "status" = Some (JStr "error").
Proof.
  intros Herr. destruct body as [| | | |l|d]; try discriminate Herr.
  exists d. split; [reflexivity|]. simpl in Herr.
  destruct (d !! "status") as [v|]; [|discriminate Herr].
  apply eq_str_true in Herr. subst v. reflexivity.
Qed.

End Policies.

(** C1 (as amended).  The tolerance for "not found" is a property of the
    security suite's policy, not of every check: [sec_assert_success]
    answers passed=true exactly when the status code is 200 or 404, while
    the base policy [assert_success] answers passed=true only for a status
    200 whose payload is a dict with ['status'] equal to ['success'], and
    classifies a 404 as failed. *)
Theorem C1_tolerance_by_policy :
  (forall status body test_name t,
      fst (Security.sec_assert_success status body test_name t)
      = Ok ((status =? 200)%Z || (status =? 404)%Z))
  /\ (forall status body test_name t,
         fst (assert_success status body test_name t) = Ok true
         <-> status = 200%Z
             /\ exists d, body = JDict d /\ d !! "status" = Some (JStr "success"))
  /\ (forall body test_name t,
         fst (assert_success 404 body test_name t) = Ok false).
Proof.
  split; [exact sec_assert_success_value|]. split.
  - intros status body test_name t. rewrite assert_success_value.
    apply base_value_true.
  - intros body test_name t. rewrite assert_success_value. reflexivity.
Qed.

(** C1 as stated fails: the base policy, which the core suite uses for
    four of its six checks, classifies a 404 as failed. *)
Lemma C1_base_policy_rejects_not_found :
  ~ (forall status body test_name t,
        status = 200%Z \/ status = 404%Z ->
        fst (assert_success status body test_name t) = Ok true).
Proof.
  intros Hall.
  specialize (Hall 404%Z (JDict ∅) "Describe Table" (new_tester world0)
                (or_intror eq_refl)).
  vm_compute in Hall. discriminate.
Qed.

(** C5 (as amended).  For a payload that reports an operation error, a
    status 200 is classified passed=false by the base policy; the
    analytics policy classifies it passed=true when the payload has a
    ['data'] key or its message mentions the SQL grammar, and passed=false
    otherwise; the security policy does not read the payload and answers
    passed=true.  A 404 is passed under the analytics policy. *)
Theorem C5_business_error_by_policy repr body test_name t :
  business_error body = true ->
  fst (assert_success 200 body test_name t) = Ok false
  /\ fst (Analytics.analytics_assert_success repr 200 body test_name t)
     = Ok (analytics_tolerates repr body)
  /\ fst (Security.sec_assert_success 200 body test_name t) = Ok true
  /\ fst (Analytics.analytics_assert_success repr 404 body test_name t) = Ok true.
Proof.
  intros Herr. destruct (business_error_dict body Herr) as (d & -> & Hs).
  rewrite assert_success_value, !analytics_assert_success_value, sec_assert_success_value.
  unfold base_value, analytics_value, analytics_tolerates. simpl. rewrite Hs. simpl.
  repeat split.
  case_bool_decide; simpl; [reflexivity|].
  destruct (d !! "message"); reflexivity.
Qed.

Lemma C5_business_error_by_policy_witness :
  business_error Scenario.error_body = true
  /\ fst (assert_success 200 Scenario.error_body "Query Customers" (new_tester world0))
     = Ok false.
Proof.
  split; [reflexivity|].
  apply (C5_business_error_by_policy Scenario.no_repr Scenario.error_body
           "Query Customers" (new_tester world0)).
  reflexivity.
Defined.

(** C5 as stated fails: the analytics policy passes a status 200 whose
    payload reports an SQL grammar error. *)
Lemma C5_analytics_passes_sql_error :
  ~ (forall repr body test_name t,
        business_error body = true ->
        fst (Analytics.analytics_assert_success repr 200 body test_name t) = Ok false).
Proof.
  intros Hall.
  specialize (Hall Scenario.no_repr Scenario.sql_error_body "Window Functions"
                (new_tester world0) eq_refl).
  vm_compute in Hall. discriminate.
Qed.

(** C8.  Each policy is a function of the status code and the payload:
    whatever the state of the tester and whatever the name of the test,
    two invocations on the same pair give the same classification (or
    raise the same exception), also when the second runs in the state the
    first one left. *)
Theorem C8_policy_deterministic repr status body :
  forall n1 n2 (t1 t2 : tester),
    fst (assert_success status body n1 t1) = fst (assert_success status body n2 t2)
    /\ fst (Security.sec_assert_success status body n1 t1)
       = fst (Security.sec_assert_success status body n2 t2)
    /\ fst (Analytics.analytics_assert_success repr status body n1 t1)
       = fst (Analytics.analytics_assert_success repr status body n2 t2)
    /\ fst (assert_success status body n1 (snd (assert_success status body n1 t1)))
       = fst (assert_success status body n1 t1)
    /\ fst (Security.sec_assert_success status body n1
              (snd (Security.sec_assert_success status body n1 t1)))
       = fst (Security.sec_assert_success status body n1 t1)
    /\ fst (Analytics.analytics_assert_success repr status body n1
              (snd (Analytics.analytics_assert_success repr status body n1 t1)))
       = fst (Analytics.analytics_assert_success repr status body n1 t1).
Proof.
  intros n1 n2 t1 t2.
  rewrite !assert_success_value, !sec_assert_success_value,
    !analytics_assert_success_value.
  repeat split.
Qed.

(** ** [make_request] *)

Section MakeRequest.
Context {St : Type} `{Harness St}.
Variable net : network.

Lemma send_then req (st : St) {A} (k : response -> M St A) :
  bind (send net req) k st =
  match net (length (sent (world_of st))) req with
  | Replied r => k r (wired req st)
  | Failed e => (Raise e, wired req st)
  end.
Proof.
  unfold bind, send, wired.
  destruct (net (length (sent (world_of st))) req); reflexivity.
Qed.

Ltac settle_request :=
  unfold try_except; rewrite send_then;
  match goal with
  | |- context [net ?n ?req] => destruct (net n req); [|reflexivity]
  end;
  unfold reply_pair, bind, lift, ret;
  case_bool_decide; [reflexivity|];
  match goal with
  | |- context [json_ ?r] => destruct (json_ r); reflexivity
  end.

Lemma make_request_spec endpoint method data params headers (st : St) :
  make_request net endpoint method data params headers st =
  match base_request endpoint method data params headers with
  | Some req => (Ok (reply_pair (net (length (sent (world_of st))) req)), wired req st)
  | None =>
      (Ok (500%Z, JDict {[ "error" := JStr ("Unsupported method: " ++ method) ]}), st)
  end.
Proof.
  unfold make_request, make_request_body, base_request.
  repeat match goal with
         | |- context [String.eqb ?a ?b] => destruct (String.eqb a b)
         end;
    try settle_request.
  reflexivity.
Qed.

Lemma advanced_make_request_spec endpoint method data params (st : St) :
  Advanced.make_request net endpoint method data params st =
  match advanced_request endpoint method data params with
  | Some req => (Ok (reply_pair (net (length (sent (world_of st))) req)), wired req st)
  | None =>
      (Ok (500%Z,
           JDict {[ "error" :=
                      JStr "cannot access local variable 'response' where it is not associated with a value" ]}),
       st)
  end.
Proof.
  unfold Advanced.make_request, Advanced.make_request_body, advanced_request.
  repeat match goal with
         | |- context [String.eqb ?a ?b] => destruct (String.eqb a b)
         end;
    try settle_request.
  reflexivity.
Qed.

End MakeRequest.

Lemma reply_pair_status rep : fst (reply_pair rep) = reply_status rep.
Proof.
  destruct rep as [r|e]; [|reflexivity]. simpl.
  case_bool_decide; [reflexivity|]. destruct (json_ r); reflexivity.
Qed.

(** C10.  Both [make_request] functions always return a pair and never
    raise.  A supported method puts one request on the wire and the pair
    is read off the reply: a transport exception, or a non-empty body
    whose JSON decoding raises, gives [(500, {"error": <message>})]; an
    empty body gives the status code with the empty dict.  An unsupported
    method sends nothing and gives the same kind of pair.  Such a pair is
    exactly what a service that really answers 500 with that JSON body
    produces. *)
Theorem C10_make_request_total :
  (forall (St : Type) (HSt : Harness St) net endpoint method data params headers (st : St),
      make_request net endpoint method data params headers st =
      match base_request endpoint method data params headers with
      | Some req => (Ok (reply_pair (net (length (sent (world_of st))) req)), wired req st)
      | None =>
          (Ok (500%Z, JDict {[ "error" := JStr ("Unsupported method: " ++ method) ]}), st)
      end)
  /\ (forall (St : Type) (HSt : Harness St) net endpoint method data params (st : St),
         Advanced.make_request net endpoint method data params st =
         match advanced_request endpoint method data params with
         | Some req =>
             (Ok (reply_pair (net (length (sent (world_of st))) req)), wired req st)
         | None =>
             (Ok (500%Z,
                  JDict {[ "error" :=
                             JStr "cannot access local variable 'response' where it is not associated with a value" ]}),
              st)
         end)
  /\ (forall e, reply_pair (Failed e) = (500%Z, JDict {[ "error" := JStr (str_exn e) ]}))
  /\ (forall status c cs e,
         reply_pair (Replied (Response status (String c cs) (Raise e)))
         = (500%Z, JDict {[ "error" := JStr (str_exn e) ]}))
  /\ (forall status decoded,
         reply_pair (Replied (Response status EmptyString decoded)) = (status, JDict ∅))
  /\ (forall e,
         reply_pair (Replied (Response 500 "<json>" (Ok (JDict {[ "error" := JStr (str_exn e) ]}))))
         = reply_pair (Failed e)).
Proof.
  split; [intros; apply make_request_spec|].
  split; [intros; apply advanced_make_request_spec|].
  repeat split.
Qed.

(** ** [wait_for_service] *)

Section Wait.
Variable net : network.

Lemma wait_attempt_spec max_attempts attempt t :
  let w := tester_world t in
  let found := (probe net (length (sent w)) =? 200)%Z in
  exists ls,
    wait_attempt net max_attempts attempt t =
    (Ok found,
     in_world (World (stdout w ++ ls) (sent w ++ [health_request])
                 (slept w ++ if found then []
                             else if (attempt <? max_attempts - 1)%nat
                                  then [2%Z] else [])) t).
Proof.
  intros w found. subst found. unfold wait_attempt, try_except.
  unfold bind at 1. unfold bind at 1.
  rewrite make_request_spec.
  change (base_request "/actuator/health" "GET" JNull JNull None)
    with (Some health_request).
  cbv beta iota. unfold probe.
  change (world_of t) with w.
  rewrite <- (reply_pair_status (net (length (sent w)) health_request)).
  destruct (reply_pair (net (length (sent w)) health_request)) as [status body].
  cbn [fst].
  destruct (status =? 200)%Z.
  - exists [Text "Service is available"].
    unfold bind, print, ret, wired, in_world. simpl.
    rewrite app_nil_r. reflexivity.
  - destruct (attempt <? max_attempts - 1)%nat.
    + eexists. unfold bind, print, sleep, ret, wired, in_world. simpl. reflexivity.
    + exists []. unfold bind, ret, wired, in_world. simpl.
      rewrite !app_nil_r. reflexivity.
Qed.

Lemma wait_loop_spec max_attempts remaining : forall attempt t,
  attempt + remaining = max_attempts ->
  let w := tester_world t in
  exists (b : bool) (k : nat) ls,
    wait_loop net max_attempts remaining attempt t =
    (Ok b, in_world (World (stdout w ++ ls) (sent w ++ replicate k health_request)
                       (slept w ++ replicate (if b then k - 1 else remaining - 1) 2%Z)) t)
    /\ k <= remaining
    /\ (forall i, i < (if b then k - 1 else k) ->
                  probe net (length (sent w) + i) <> 200%Z)
    /\ (if b then 1 <= k /\ probe net (length (sent w) + (k - 1)) = 200%Z
        else k = remaining).
Proof.
  induction remaining as [|rem IH]; intros attempt t Hsum w.
  - exists false, 0, [Text "Service is not available after waiting"].
    simpl. unfold bind, print, ret, in_world. simpl. rewrite !app_nil_r.
    split; [reflexivity|]. split; [lia|]. split; [intros i Hi; lia|reflexivity].
  - simpl. unfold bind at 1.
    destruct (wait_attempt_spec max_attempts attempt t) as [ls1 ->].
    fold w. destruct (Z.eqb_spec (probe net (length (sent w))) 200) as [Hok|Hko].
    + exists true, 1, ls1. unfold ret. simpl. rewrite app_nil_r.
      split; [reflexivity|]. split; [lia|]. split; [intros i Hi; lia|].
      split; [lia|]. rewrite Nat.add_0_r. exact Hok.
    + set (t1 := in_world _ t).
      destruct (IH (S attempt) t1 ltac:(lia))
        as (b & k & ls2 & Heq & Hk & Hbefore & Hat).
      rewrite Heq. exists b, (S k), (ls1 ++ ls2).
      assert (Hlen : length (sent (tester_world t1)) = S (length (sent w))).
      { subst t1. simpl. rewrite length_app. simpl. lia. }
      rewrite Hlen in Hbefore, Hat.
      split; [|split; [lia|split]].
      * f_equal. subst t1. unfold in_world. simpl. f_equal. f_equal.
        -- rewrite app_assoc. reflexivity.
        -- rewrite <- app_assoc. reflexivity.
        -- rewrite <- app_assoc. f_equal.
           assert (Hatt : (attempt <? max_attempts - 1)%nat = (0 <? rem)%nat).
           { destruct (Nat.ltb_spec attempt (max_attempts - 1)),
               (Nat.ltb_spec 0 rem); try reflexivity; lia. }
           rewrite Hatt.
           destruct b.
           ++ destruct Hat as [Hk1 _].
              assert (Hr : (0 <? rem)%nat = true) by (apply Nat.ltb_lt; lia).
              rewrite Hr. destruct k as [|k']; [lia|].
              simpl. rewrite ?Nat.sub_0_r. reflexivity.
           ++ destruct rem as [|rem']; [reflexivity|].
              simpl. rewrite ?Nat.sub_0_r. reflexivity.
      * intros i Hi. destruct i as [|i].
        -- rewrite Nat.add_0_r. exact Hko.
        -- replace (length (sent w) + S i) with (S (length (sent w)) + i) by lia.
           apply Hbefore. destruct b; lia.
      * destruct b.
        -- destruct Hat as [Hk1 Hp]. split; [lia|].
           replace (length (sent w) + (S k - 1))
             with (S (length (sent w)) + (k - 1)) by lia.
           exact Hp.
        -- lia.
Qed.

Lemma wait_for_service_returns t :
  exists (b : bool) t1, wait_for_service net default_max_attempts t = (Ok b, t1).
Proof.
  destruct (wait_loop_spec default_max_attempts default_max_attempts 0 t eq_refl)
    as (b & k & ls & Heq & _).
  unfold wait_for_service. rewrite Heq. eauto.
Qed.

End Wait.

(** ** The test loop *)

Section Loop.

Lemma run_test_spec passed test t :
  run_test passed test t =
  (Ok (if decide (fst (snd test t) = Ok true) then S passed else passed),
   snd (run_test 0 test t)).
Proof.
  unfold run_test, try_except, bind, ret.
  destruct (snd test t) as [[[|]|e] t1]; reflexivity.
Qed.

(** Every test of the list gets its turn, whatever the earlier ones did. *)
Lemma outcomes_length tests : forall t, length (outcomes tests t) = length tests.
Proof.
  induction tests as [|test rest IH]; intros t; simpl; [reflexivity|].
  rewrite IH. reflexivity.
Qed.

Lemma count_true_cons o os :
  count_true (o :: os) = (if decide (o = Ok true) then 1 else 0) + count_true os.
Proof.
  unfold count_true. rewrite filter_cons.
  destruct (decide (o = Ok true)); reflexivity.
Qed.

Lemma count_true_le os : count_true os <= length os.
Proof. unfold count_true. apply length_filter. Qed.

(** The loop never raises, and it counts the tests that returned [True]. *)
Lemma run_tests_spec tests : forall passed t,
  exists t', run_tests tests passed t = (Ok (passed + count_true (outcomes tests t)), t').
Proof.
  induction tests as [|test rest IH]; intros passed t.
  - exists t. simpl. unfold ret, count_true. simpl. rewrite Nat.add_0_r. reflexivity.
  - simpl. unfold bind at 1. rewrite run_test_spec.
    destruct (IH (if decide (fst (snd test t) = Ok true) then S passed else passed)
                (snd (run_test 0 test t))) as [t' ->].
    exists t'. rewrite count_true_cons.
    destruct (decide (fst (snd test t) = Ok true)); do 2 f_equal; lia.
Qed.

Lemma passedCount_outcomes tests t :
  passedCount tests t = count_true (outcomes tests t).
Proof.
  unfold passedCount. destruct (run_tests_spec tests 0 t) as [t' ->]. reflexivity.
Qed.

Lemma passedCount_bounds tests t : 0 <= passedCount tests t <= totalCount tests.
Proof.
  rewrite passedCount_outcomes. unfold totalCount.
  rewrite <- (outcomes_length tests t). split; [lia|apply count_true_le].
Qed.

Lemma count_true_all os :
  count_true os = length os <-> Forall (fun o => o = Ok true) os.
Proof.
  induction os as [|o os IH].
  - split; [constructor|reflexivity].
  - rewrite count_true_cons. pose proof (count_true_le os) as Hle. simpl.
    destruct (decide (o = Ok true)) as [Ho|Ho].
    + split.
      * intros Hc. constructor; [exact Ho|]. apply IH. lia.
      * intros Hall. inversion Hall; subst. f_equal. apply IH. assumption.
    + split; [lia|]. intros Hall. inversion Hall; subst. contradiction.
Qed.

Lemma truediv_ok a b : b <> 0%Z -> exists q, truediv a b = Ok q.
Proof.
  intros Hb. unfold truediv. destruct (Z.eqb_spec b 0); [contradiction|]. eauto.
Qed.

Lemma print_summary_ok title passed total t :
  total <> 0 -> exists t', print_summary title passed total t = (Ok tt, t').
Proof.
  intros Htotal. unfold print_summary, bind, lift, prints, print, ret. simpl.
  destruct (truediv_ok (Z.of_nat passed) (Z.of_nat total) ltac:(lia)) as [q ->].
  eauto.
Qed.

End Loop.

(** ** The core suite *)

Section CoreRun.
Variable net : network.

Lemma core_run_unfold t :
  Core.run_all_tests net true t =
  match wait_for_service net default_max_attempts (snd (Core.banner true t)) with
  | (Ok available, t1) =>
      (if negb available
       then let* _ := print (Text "Service not available, skipping tests") in ret false
       else let* passed := run_tests (Core.tests net) 0 in
            let* _ := print_summary "CORE CONTROLLER" passed (length (Core.tests net)) in
            ret (passed =? length (Core.tests net))%nat) t1
  | (Raise e, t1) => (Raise e, t1)
  end.
Proof. reflexivity. Qed.

Lemma core_run_spec t :
  let r := wait_for_service net default_max_attempts (snd (Core.banner true t)) in
  (fst r = Ok true /\
     exists t', Core.run_all_tests net true t =
                (Ok (passedCount (Core.tests net) (snd r)
                     =? totalCount (Core.tests net))%nat, t'))
  \/ (fst r = Ok false /\
        Core.run_all_tests net true t =
        (Ok false, snd (print (Text "Service not available, skipping tests") (snd r)))).
Proof.
  intros r. subst r. rewrite core_run_unfold.
  destruct (wait_for_service_returns net (snd (Core.banner true t))) as (b & t1 & ->).
  cbn [fst snd].
  destruct b; [left|right]; (split; [reflexivity|]).
  - cbn [negb]. unfold bind at 1.
    rewrite passedCount_outcomes.
    destruct (run_tests_spec (Core.tests net) 0 t1) as [t2 ->].
    unfold bind at 1.
    destruct (print_summary_ok "CORE CONTROLLER"
                (0 + count_true (outcomes (Core.tests net) t1))
                (length (Core.tests net)) t2 ltac:(discriminate)) as [t3 ->].
    exists t3. reflexivity.
  - reflexivity.
Qed.

(** Run as a script, the core suite never lets an exception out. *)
Lemma core_script_run_returns t :
  exists (b : bool) t', Core.run_all_tests net true t = (Ok b, t').
Proof.
  destruct (core_run_spec t) as [[_ [t' ->]]|[_ ->]]; eauto.
Qed.

End CoreRun.

(** C9.  [wait_for_service] with its default bound always returns, after
    [k <= 30] probes of the health endpoint and nothing else on the wire.
    It returns true at the first probe whose status is 200, having slept
    2 seconds after each earlier probe; it returns false after 30 probes
    none of which gave 200, having slept 2 seconds between them (29
    times).  When it returns false the core suite returns [False] with
    [test_results] untouched and only the 30 probes sent: no check ran. *)
Theorem C9_wait_for_service_bounded net t :
  let w := tester_world t in
  (exists (b : bool) (k : nat) ls,
      wait_for_service net default_max_attempts t =
      (Ok b, in_world (World (stdout w ++ ls) (sent w ++ replicate k health_request)
                         (slept w ++ replicate (if b then k - 1 else 29) 2%Z)) t)
      /\ k <= 30
      /\ (forall i, i < (if b then k - 1 else k) ->
                    probe net (length (sent w) + i) <> 200%Z)
      /\ (if b then 1 <= k /\ probe net (length (sent w) + (k - 1)) = 200%Z
          else k = 30))
  /\ (fst (wait_for_service net default_max_attempts (snd (Core.banner true t))) = Ok false ->
      exists ls,
        Core.run_all_tests net true t =
        (Ok false, in_world (World (stdout w ++ ls) (sent w ++ replicate 30 health_request)
                               (slept w ++ replicate 29 2%Z)) t)).
Proof.
  intros w. split.
  - destruct (wait_loop_spec net default_max_attempts default_max_attempts 0 t eq_refl)
      as (b & k & ls & Heq & Hk & Hbefore & Hat).
    exists b, k, ls. unfold wait_for_service. rewrite Heq.
    split; [reflexivity|]. split; [exact Hk|]. split; [exact Hbefore|exact Hat].
  - intros Hfalse. rewrite core_run_unfold.
    set (t0 := snd (Core.banner true t)) in *.
    destruct (wait_loop_spec net default_max_attempts default_max_attempts 0 t0 eq_refl)
      as (b & k & ls & Heq & Hk & Hbefore & Hat).
    unfold wait_for_service in Hfalse |- *. rewrite Heq in Hfalse |- *.
    cbn [fst] in Hfalse. injection Hfalse as ->. subst k.
    eexists. cbn [negb]. unfold bind, print, ret, in_world. subst t0. simpl.
    rewrite <- !app_assoc. reflexivity.
Qed.

Lemma C9_wait_for_service_bounded_witness :
  exists ls,
    Core.run_all_tests Scenario.net_down true (new_tester world0) =
    (Ok false,
     in_world (World ([] ++ ls) ([] ++ replicate 30 health_request)
                 ([] ++ replicate 29 2%Z)) (new_tester world0)).
Proof.
  destruct (C9_wait_for_service_bounded Scenario.net_down (new_tester world0))
    as [_ Habandon].
  apply Habandon. vm_compute. reflexivity.
Defined.

(** ** The master runner *)

Section MasterRun.
Import Master.

Lemma count_success_cons x xs :
  count_success (x :: xs) = (if sr_success x then 1 else 0) + count_success xs.
Proof.
  unfold count_success. rewrite filter_cons.
  destruct (decide (sr_success x = true)) as [Hx|Hx];
    destruct (sr_success x); try congruence; reflexivity.
Qed.

Lemma count_success_le xs : count_success xs <= length xs.
Proof. unfold count_success. apply length_filter. Qed.

(** One suite, one entry in [overall_results], crash or not. *)
Lemma run_suite_spec i total passed entry r :
  exists x r',
    run_suite i total passed entry r
    = (Ok (if sr_success x then S passed else passed), r')
    /\ overall_results r' = overall_results r ++ [x]
    /\ sr_suite x = snd entry
    /\ test_suites r' = test_suites r.
Proof.
  unfold run_suite, try_except, bind, instantiate_and_run, prints, print,
    append_overall, ret.
  cbn [world_of with_world runner_harness runner_world overall_results test_suites].
  destruct (fst entry _) as [[[|]|e] w'];
    cbn [world_of with_world runner_harness runner_world overall_results test_suites].
  - exists (SuiteResult (snd entry) "PASSED" true None). eexists.
    split; [reflexivity|]. cbn. auto.
  - exists (SuiteResult (snd entry) "FAILED" false None). eexists.
    split; [reflexivity|]. cbn. auto.
  - exists (SuiteResult (snd entry) "CRASHED" false (Some (str_exn e))). eexists.
    split; [reflexivity|]. cbn. auto.
Qed.

Lemma run_suites_spec total suites : forall i passed r,
  exists new r',
    run_suites suites i total passed r = (Ok (passed + count_success new), r')
    /\ overall_results r' = overall_results r ++ new
    /\ sr_suite <$> new = snd <$> suites
    /\ test_suites r' = test_suites r.
Proof.
  induction suites as [|entry rest IH]; intros i passed r.
  - exists [], r. simpl. unfold ret. rewrite Nat.add_0_r, app_nil_r. auto.
  - simpl. unfold bind at 1.
    destruct (run_suite_spec i total passed entry r)
      as (x & r1 & -> & Hres & Hname & Hsuites).
    destruct (IH (S i) (if sr_success x then S passed else passed) r1)
      as (new & r2 & -> & Hres2 & Hnames & Hsuites2).
    exists (x :: new), r2. split; [|split; [|split]].
    + f_equal. f_equal. rewrite count_success_cons.
      destruct (sr_success x); lia.
    + rewrite Hres2, Hres, <- app_assoc. reflexivity.
    + rewrite !fmap_cons, Hname, Hnames. reflexivity.
    + congruence.
Qed.

Lemma generate_final_report_ok passed total r :
  total <> 0 ->
  exists r', generate_final_report passed total r = (Ok tt, r')
             /\ overall_results r' = overall_results r
             /\ test_suites r' = test_suites r.
Proof.
  intros Htotal. unfold generate_final_report, bind, lift, prints, print, ret.
  cbn [world_of with_world runner_harness runner_world overall_results test_suites].
  destruct (truediv_ok (Z.of_nat passed) (Z.of_nat total) ltac:(lia)) as [q ->].
  destruct (passed =? total)%nat; eexists; (split; [reflexivity|]); cbn; auto.
Qed.

(** With at least one registered suite the master run returns, having
    recorded one result per suite in registration order, and its value
    says whether all of them succeeded. *)
Lemma master_run_spec r :
  test_suites r <> [] ->
  exists new r',
    run_all_tests r = (Ok (count_success new =? length (test_suites r))%nat, r')
    /\ overall_results r' = overall_results r ++ new
    /\ sr_suite <$> new = snd <$> test_suites r.
Proof.
  intros Hne. unfold run_all_tests. unfold bind at 1.
  unfold prints at 1. cbn [world_of with_world runner_harness runner_world].
  unfold bind at 1.
  destruct (run_suites_spec (length (test_suites r)) (test_suites r) 1 0
              (Runner (test_suites r) (overall_results r)
                 (World (stdout (runner_world r) ++
                         [Text "MCP ORACLE SERVER - MASTER TEST SUITE";
                          Text "======================================================================";
                          Text "Started at: <now>";
                          TextNum "Number of test suites:" (length (test_suites r))])
                    (sent (runner_world r)) (slept (runner_world r)))))
    as (new & r1 & -> & Hres & Hnames & Hsuites).
  unfold bind at 1.
  destruct (generate_final_report_ok (0 + count_success new) (length (test_suites r)) r1)
    as (r2 & -> & Hres2 & _).
  { destruct (test_suites r); [contradiction|discriminate]. }
  exists new, r2. split; [reflexivity|]. split; [|exact Hnames].
  rewrite Hres2, Hres. reflexivity.
Qed.

Lemma master_main_unfold net repr w :
  main net repr w =
  match run_all_tests
          (Runner [(TestOracleCoreController net, "Oracle Core Controller Tests");
                   (TestOracleAnalyticsController net repr,
                    "Oracle Analytics Controller Tests")] [] w) with
  | (Ok success, r) => (if success then 0%Z else 1%Z, r)
  | (Raise _, r) => (1%Z, r)
  end.
Proof. reflexivity. Qed.

Lemma master_main_spec net repr w :
  exists new,
    overall_results (snd (main net repr w)) = new
    /\ sr_suite <$> new
       = ["Oracle Core Controller Tests"; "Oracle Analytics Controller Tests"]
    /\ fst (main net repr w) = (if (count_success new =? 2)%nat then 0 else 1)%Z.
Proof.
  rewrite master_main_unfold.
  match goal with
  | |- context [run_all_tests ?r] =>
      destruct (master_run_spec r ltac:(discriminate)) as (new & r' & -> & Hres & Hnames)
  end.
  cbn [test_suites overall_results length app] in *.
  exists new. split; [|split].
  - destruct (count_success new =? 2)%nat; exact Hres.
  - exact Hnames.
  - destruct (count_success new =? 2)%nat; reflexivity.
Qed.

End MasterRun.

(** ** The summary of the subprocess runner *)

Section Returns.
Context {St : Type} `{Harness St}.

Lemma returns_ret {A} (a : A) : returns (ret a : M St A).
Proof. intros st. exists a, st. reflexivity. Qed.

Lemma returns_bind {A B} (c : M St A) (k : A -> M St B) :
  returns c -> (forall a, returns (k a)) -> returns (bind c k).
Proof.
  intros Hc Hk st. unfold bind.
  destruct (Hc st) as (a & st1 & ->). apply Hk.
Qed.

Lemma returns_print l : returns (print l : M St unit).
Proof. intros st. eexists; eexists; reflexivity. Qed.

Lemma returns_prints ls : returns (prints ls : M St unit).
Proof. intros st. eexists; eexists; reflexivity. Qed.

Lemma returns_lift {A} (x : result A) (a : A) :
  x = Ok a -> returns (lift x : M St A).
Proof. intros -> st. exists a, st. reflexivity. Qed.

End Returns.

Section ComprehensiveRun.
Import Comprehensive.

(** With at least one result the summary prints both rates: the second
    division sits under [if total_tests > 0]. *)
Lemma print_detailed_summary_ok r :
  results r <> [] -> exists r', print_detailed_summary r = (Ok tt, r').
Proof.
  intros Hne.
  enough (Hret : exists (u : unit) r', print_detailed_summary r = (Ok u, r')).
  { destruct Hret as ([] & r' & Hr). eauto. }
  unfold print_detailed_summary.
  apply returns_bind; [apply returns_prints|intros _].
  apply returns_bind; [apply returns_print|intros _].
  destruct (truediv_ok
              (Z.of_nat (length (filter (fun x => success x = true) (results r))))
              (Z.of_nat (length (results r)))) as [q Hq].
  { destruct (results r); [contradiction|simpl; lia]. }
  apply returns_bind; [apply (returns_lift _ q Hq)|intros suite_rate].
  apply returns_bind; [apply returns_print|intros _].
  apply returns_bind.
  { destruct (Z.ltb_spec 0 (sum_Z (test_count <$> results r))) as [Hpos|Hnon];
      [|apply returns_ret].
    destruct (truediv_ok (sum_Z (passed_count <$> results r))
                (sum_Z (test_count <$> results r))) as [q' Hq'].
    { intros Hz. rewrite Hz in Hpos. inversion Hpos. }
    apply returns_bind; [apply (returns_lift _ q' Hq')|intros test_rate].
    apply returns_print. }
  intros _.
  apply returns_bind; [apply returns_prints|intros _].
  apply returns_bind; [apply returns_prints|intros _].
  apply returns_bind.
  { destruct (filter (fun x => success x = false) (results r));
      [apply returns_ret|].
    apply returns_bind; [apply returns_prints|intros _]. apply returns_prints. }
  intros _. destruct (_ =? _)%nat; apply returns_print.
Qed.

End ComprehensiveRun.

(** ** Suites whose tests record exactly once *)

Section RecordsOnce.

Lemma count_passed_cons r rs :
  count_passed (r :: rs) = (if snd r then 1 else 0) + count_passed rs.
Proof.
  unfold count_passed. rewrite filter_cons.
  destruct (decide (snd r = true)) as [Hr|Hr];
    destruct (snd r); try congruence; reflexivity.
Qed.


Lemma world_only_ret {A} (a : A) : world_only (ret a).
Proof. intros t. exists a, (tester_world t). destruct t; reflexivity. Qed.

Lemma world_only_bind {A B} (c : M tester A) (k : A -> M tester B) :
  world_only c -> (forall a, world_only (k a)) -> world_only (bind c k).
Proof.
  intros Hc Hk t. unfold bind.
  destruct (Hc t) as (a & w1 & ->).
  destruct (Hk a (in_world w1 t)) as (b & w2 & ->).
  exists b, w2. reflexivity.
Qed.

Lemma world_only_print l : world_only (print l).
Proof. intros t. eexists; eexists; reflexivity. Qed.

Lemma world_only_prints ls : world_only (prints ls).
Proof. intros t. eexists; eexists; reflexivity. Qed.

Lemma print_results_world_only results title max_items :
  world_only (print_results results title max_items).
Proof.
  unfold print_results.
  apply world_only_bind; [apply world_only_prints|intros _].
  destruct results as [| | | |[|x l]|d]; try apply world_only_print.
  apply world_only_bind; [apply world_only_prints|intros _].
  destruct (_ <? _)%nat; [apply world_only_print|apply world_only_ret].
Qed.

Lemma world_only_keeps {A} (c : M tester A) : world_only c -> keeps_results c.
Proof. intros Hc t. destruct (Hc t) as (a & w' & ->). reflexivity. Qed.

Lemma keeps_results_ret {A} (a : A) : keeps_results (ret a).
Proof. intros t. reflexivity. Qed.

Lemma keeps_results_lift {A} (x : result A) : keeps_results (lift x).
Proof. intros t. reflexivity. Qed.

Lemma keeps_results_bind {A B} (c : M tester A) (k : A -> M tester B) :
  keeps_results c -> (forall a, keeps_results (k a)) -> keeps_results (bind c k).
Proof.
  intros Hc Hk t. unfold bind. specialize (Hc t).
  destruct (c t) as [[a|e] t1]; cbn [snd] in *; [|exact Hc].
  rewrite Hk. exact Hc.
Qed.

Lemma keeps_results_set_csrf_token v : keeps_results (set_csrf_token v).
Proof. intros t. reflexivity. Qed.

Lemma make_request_world_only net endpoint method data params headers :
  world_only (make_request net endpoint method data params headers).
Proof.
  intros t. rewrite make_request_spec.
  destruct (base_request endpoint method data params headers) as [req|].
  - eexists; eexists; reflexivity.
  - eexists. exists (tester_world t). destruct t; reflexivity.
Qed.

(** A computation that keeps [test_results] may run before a test that
    records once. *)
Lemma records_once_bind {A} (c : M tester A) (k : A -> M tester bool) :
  keeps_results c -> (forall a, records_once (k a)) -> records_once (bind c k).
Proof.
  intros Hc Hk t. unfold bind. specialize (Hc t).
  destruct (c t) as [[a|e] t1]; cbn [snd] in Hc; [|exact Hc].
  specialize (Hk a t1). destruct (k a t1) as [[b|e] t2]; rewrite <- Hc; exact Hk.
Qed.

(** The end of a test: record, list the payload, return. *)
Lemma records_once_tail label (result : bool) (post : M tester unit) :
  world_only post ->
  records_once (let* _ := append_result (label, result) in
                let* _ := post in
                ret result).
Proof.
  intros Hpost t. unfold bind at 1. unfold append_result at 1.
  unfold bind at 1.
  destruct (Hpost (Tester (test_results t ++ [(label, result)]) (csrf_token t)
                     (tester_world t))) as ([] & w' & ->).
  unfold ret. exists label. reflexivity.
Qed.

End RecordsOnce.

Section CsrfRun.
Variable net : network.




End CsrfRun.

Section CoreRecords.
Variable net : network.

(** In the core suite the two tests that finish their listing before
    they record do record once. *)
Lemma core_health_check_records_once : records_once (Core.test_health_check net).
Proof.
  unfold Core.test_health_check.
  apply records_once_bind; [apply world_only_keeps, world_only_prints|intros _].
  apply records_once_bind;
    [apply world_only_keeps, make_request_world_only|intros [status response]].
  apply records_once_bind.
  { apply world_only_keeps. destruct (status =? 200)%Z;
      (apply world_only_bind; [apply world_only_print|intros _; apply world_only_ret]). }
  intros result. apply records_once_tail.
  destruct result; [apply print_results_world_only|apply world_only_ret].
Qed.

Lemma core_list_tables_records_once : records_once (Core.test_list_tables net).
Proof.
  unfold Core.test_list_tables.
  apply records_once_bind; [apply world_only_keeps, world_only_prints|intros _].
  apply records_once_bind;
    [apply world_only_keeps, make_request_world_only|intros [status response]].
  apply records_once_bind.
  { destruct (status =? 200)%Z.
    - apply keeps_results_bind; [apply world_only_keeps, world_only_print|intros _].
      apply keeps_results_bind; [apply keeps_results_lift|intros tables].
      apply keeps_results_bind; [apply keeps_results_lift|intros n].
      apply keeps_results_bind; [apply world_only_keeps, world_only_print|intros _].
      apply keeps_results_bind;
        [apply world_only_keeps, print_results_world_only|intros _].
      apply keeps_results_ret.
    - apply world_only_keeps.
      apply world_only_bind; [apply world_only_print|intros _; apply world_only_ret]. }
  intros result t. unfold bind, append_result, ret. exists "List Tables". reflexivity.
Qed.

End CoreRecords.

(** The tests that record first and list afterwards do not: the listing
    can raise once the result is in [test_results]. *)
Lemma core_describe_table_records_early :
  ~ records_once (Core.test_describe_table Scenario.net_null_columns).
Proof.
  intros Honce. specialize (Honce (new_tester world0)).
  vm_compute in Honce. discriminate Honce.
Qed.

Section MasterMain.
Import Master.
Variable net : network.
Variable repr : json -> string.

(** Imported by the master runner, the core suite crashes at once. *)
Lemma imported_core_suite_crashes w :
  fst (TestOracleCoreController net w)
  = Raise (Exn NameError "name 'datetime' is not defined").
Proof. reflexivity. Qed.

(** So the first suite of [main] is recorded as crashed, and [main]
    exits 1 whatever the service does. *)
Lemma master_main_exits_1 w : fst (main net repr w) = 1%Z.
Proof.
  rewrite master_main_unfold.
  unfold run_all_tests. unfold bind at 1. unfold prints at 1.
  cbn [world_of with_world runner_harness runner_world test_suites overall_results
         length run_suites].
  unfold bind at 1. unfold bind at 1.
  destruct (run_suite_spec 1 2 0
              (TestOracleCoreController net, "Oracle Core Controller Tests")
              (Runner [(TestOracleCoreController net, "Oracle Core Controller Tests");
                       (TestOracleAnalyticsController net repr,
                        "Oracle Analytics Controller Tests")] []
                 (World (stdout w ++
                         [Text "MCP ORACLE SERVER - MASTER TEST SUITE";
                          Text "======================================================================";
                          Text "Started at: <now>";
                          TextNum "Number of test suites:" 2])
                    (sent w) (slept w)))) as (x & r1 & Hrun & Hres & _ & Hsuites).
  assert (Hx : sr_success x = false).
  { revert Hrun. unfold run_suite, try_except, bind, instantiate_and_run, prints, print,
      append_overall, ret.
    cbn [world_of with_world runner_harness runner_world overall_results test_suites
           fst snd TestOracleCoreController].
    unfold TestOracleCoreController. cbn. intros Hrun.
    destruct (sr_success x); [discriminate Hrun|reflexivity]. }
  rewrite Hrun, Hx.
  unfold bind at 1.
  destruct (run_suite_spec 2 2 0
              (TestOracleAnalyticsController net repr, "Oracle Analytics Controller Tests")
              r1) as (y & r2 & -> & _ & _ & _).
  unfold ret at 1. unfold bind at 1.
  destruct (generate_final_report_ok (if sr_success y then 1 else 0) 2 r2 ltac:(lia))
    as (r3 & -> & _).
  unfold ret. destruct (sr_success y); reflexivity.
Qed.

End MasterMain.

(** ** Exit status *)

(** C7.  The core suite run as a script exits 0 exactly when the
    availability wait succeeded and the loop's [passed] equals the number
    of tests; an abandoned run exits 1, and so does a run in which some
    test returned [False] or raised.  [main] of the master runner records
    one result for each of its two suites and exits 0 exactly when both
    are recorded as successful. *)
Theorem C7_exit_status net repr w :
  let r := wait_for_service net default_max_attempts
             (snd (Core.banner true (new_tester w))) in
  let code := fst (Core.script net w) in
  let recorded := Master.overall_results (snd (Master.main net repr w)) in
  code = match fst r with
         | Ok true =>
             if (passedCount (Core.tests net) (snd r) =? totalCount (Core.tests net))%nat
             then 0%Z else 1%Z
         | _ => 1%Z
         end
  /\ (fst r = Ok true ->
      Exists (fun o => o <> Ok true) (outcomes (Core.tests net) (snd r)) ->
      code = 1%Z)
  /\ length recorded = 2
  /\ fst (Master.main net repr w) = (if (count_success recorded =? 2)%nat then 0 else 1)%Z.
Proof.
  intros r code recorded.
  assert (Hcode : code = match fst r with
                         | Ok true =>
                             if (passedCount (Core.tests net) (snd r)
                                 =? totalCount (Core.tests net))%nat
                             then 0%Z else 1%Z
                         | _ => 1%Z
                         end).
  { subst code r. unfold Core.script.
    destruct (core_run_spec net (new_tester w)) as [[Hr [t' Hrun]]|[Hr Hrun]];
      rewrite Hrun, Hr; cbn [fst]; [|reflexivity].
    destruct (_ =? _)%nat; reflexivity. }
  split; [exact Hcode|]. split; [|].
  - intros Hr Hex. rewrite Hcode, Hr.
    destruct (Nat.eqb_spec (passedCount (Core.tests net) (snd r))
                (totalCount (Core.tests net))) as [Heq|Hne]; [|reflexivity].
    exfalso. rewrite passedCount_outcomes in Heq. unfold totalCount in Heq.
    rewrite <- (outcomes_length (Core.tests net) (snd r)) in Heq.
    apply count_true_all in Heq. apply Exists_exists in Hex.
    destruct Hex as (o & Hin & Ho). rewrite Forall_forall in Heq.
    apply Ho, Heq, Hin.
  - subst recorded.
    destruct (master_main_spec net repr w) as (new & Hnew & Hnames & Hmain).
    rewrite Hnew. split; [|exact Hmain].
    rewrite <- (length_fmap Master.sr_suite), Hnames. reflexivity.
Qed.

Lemma C7_exit_status_witness :
  fst (Core.script Scenario.net_describe_missing world0) = 1%Z.
Proof.
  destruct (C7_exit_status Scenario.net_describe_missing Scenario.no_repr world0)
    as (_ & Hfailed & _).
  apply Hfailed.
  - vm_compute. reflexivity.
  - vm_compute. do 3 apply Exists_cons_tl. apply Exists_cons_hd. discriminate.
Defined.

(** On a service that answers every call with the success payload the
    core script passes its six checks and exits 0. *)
Example core_script_all_pass :
  fst (Core.script Scenario.net_ok world0) = 0%Z
  /\ count_passed (test_results (snd (Core.script Scenario.net_ok world0))) = 6.
Proof. vm_compute. split; reflexivity. Qed.

(** ** Runs on which the harness departs from the specification *)

(** C2.  An exception does escape [run()]: imported by the master runner,
    the core suite's [run_all_tests] raises [NameError] at its banner,
    before the availability wait and before any check, whatever the
    service does; and a master runner with no registered suite raises
    [ZeroDivisionError] from its final report. *)
Theorem C2_exception_escapes_run :
  (forall net t,
      fst (Core.run_all_tests net false t)
      = Raise (Exn NameError "name 'datetime' is not defined")
      /\ test_results (snd (Core.run_all_tests net false t)) = test_results t
      /\ sent (tester_world (snd (Core.run_all_tests net false t)))
         = sent (tester_world t))
  /\ (forall w,
         fst (Master.run_all_tests (Master.new_runner w))
         = Raise (Exn ZeroDivisionError "division by zero")).
Proof.
  split.
  - intros net t. repeat split.
  - intros w. reflexivity.
Qed.

(** C3.  A check that raises after it recorded its own result leaves two
    entries: on a healthy service whose table description has
    ["columns": null], the six checks of the core suite leave seven
    entries in [test_results]. *)
Theorem C3_crash_after_record_adds_entry :
  let run := Core.run_all_tests Scenario.net_null_columns true (new_tester world0) in
  fst run = Ok false
  /\ totalCount (Core.tests Scenario.net_null_columns) = 6
  /\ test_results (snd run)
     = [("Health Check", true); ("List Tables", true); ("Query Customers", true);
        ("Describe Table", true); ("test_describe_table", false);
        ("Filtered Account Query", true); ("Loan Data Query", true)].
Proof. vm_compute. repeat split. Qed.

(** C4.  On the same run the loop's [passed] is 5 while six recorded
    results have passed=true: the check that raised after recording
    [True] is not counted. *)
Theorem C4_passed_count_mismatch :
  let net := Scenario.net_null_columns in
  let run := Core.run_all_tests net true (new_tester world0) in
  passedCount (Core.tests net) (Scenario.core_loop_start net) = 5
  /\ count_passed (test_results (snd run)) = 6
  /\ exists rate, last (stdout (tester_world (snd run))) = Some (TextRate "Overall" 5 6 rate).
Proof.
  split; [vm_compute; reflexivity|]. split; [vm_compute; reflexivity|].
  eexists. vm_compute. reflexivity.
Qed.

(** C6.  The rate computation is not guarded against a zero total: a
    master runner with no registered suite prints no report and raises
    [ZeroDivisionError] from [generate_final_report], and so does
    [print_detailed_summary] on an empty result list, whose only guard
    protects the individual-test rate. *)
Theorem C6_rate_division_unguarded :
  (forall w,
      fst (Master.run_all_tests (Master.new_runner w))
      = Raise (Exn ZeroDivisionError "division by zero")
      /\ Master.overall_results (snd (Master.run_all_tests (Master.new_runner w))) = [])
  /\ (forall passed r,
         fst (Master.generate_final_report passed 0 r)
         = Raise (Exn ZeroDivisionError "division by zero"))
  /\ (forall w,
         fst (Comprehensive.print_detailed_summary (Comprehensive.Runner [] w))
         = Raise (Exn ZeroDivisionError "division by zero")).
Proof.
  split; [intros w; split; reflexivity|].
  split; [intros passed r; reflexivity|].
  intros w. reflexivity.
Qed.

(** * Further properties of the harness *)

(** ** Printing a payload *)


(** ** Waiting for the service, for any bound *)

(** X2.  For every bound [max_attempts], [wait_for_service] returns
    after [k <= max_attempts] probes of the health endpoint.  It answers
    true at the first probe with status 200, after one 2-second sleep per
    earlier probe; it answers false after [max_attempts] probes without a
    200, having slept [max_attempts - 1] times: never after the last
    probe.  With a bound of 0 it answers false at once, without a probe
    and without a sleep. *)
Theorem X2_wait_for_service_any_bound net max_attempts (t : tester) :
  let w := tester_world t in
  (exists (b : bool) (k : nat) ls,
      wait_for_service net max_attempts t =
      (Ok b, in_world (World (stdout w ++ ls) (sent w ++ replicate k health_request)
                         (slept w ++ replicate (if b then k - 1 else max_attempts - 1) 2%Z)) t)
      /\ k <= max_attempts
      /\ (forall i, i < (if b then k - 1 else k) ->
                    probe net (length (sent w) + i) <> 200%Z)
      /\ (if b then 1 <= k /\ probe net (length (sent w) + (k - 1)) = 200%Z
          else k = max_attempts))
  /\ (max_attempts = 0 ->
      exists ls, wait_for_service net max_attempts t
                 = (Ok false, in_world (World (stdout w ++ ls) (sent w) (slept w)) t)).
Proof.
  intros w. split.
  - destruct (wait_loop_spec net max_attempts max_attempts 0 t eq_refl)
      as (b & k & ls & Heq & Hk & Hbefore & Hat).
    exists b, k, ls. unfold wait_for_service. rewrite Heq.
    split; [reflexivity|]. split; [exact Hk|]. split; [exact Hbefore|exact Hat].
  - intros ->. eexists. unfold wait_for_service. simpl.
    unfold bind, print, ret, in_world. simpl. reflexivity.
Qed.

Lemma X2_wait_for_service_any_bound_witness :
  exists ls,
    wait_for_service Scenario.net_ok 0 (new_tester world0)
    = (Ok false, in_world (World ([] ++ ls) [] []) (new_tester world0)).
Proof.
  destruct (X2_wait_for_service_any_bound Scenario.net_ok 0 (new_tester world0))
    as [_ Hzero].
  apply Hzero. reflexivity.
Defined.

(** ** What [make_request] puts on the wire *)

Lemma upper_ascii_idempotent c : upper_ascii (upper_ascii c) = upper_ascii c.
Proof. destruct c as [[] [] [] [] [] [] [] []]; reflexivity. Qed.

Lemma upper_idempotent s : upper (upper s) = upper s.
Proof.
  induction s as [|c s IH]; [reflexivity|].
  simpl. rewrite upper_ascii_idempotent, IH. reflexivity.
Qed.

Lemma base_request_upper endpoint method data params headers :
  base_request endpoint (upper method) data params headers
  = base_request endpoint method data params headers.
Proof. unfold base_request. rewrite upper_idempotent. reflexivity. Qed.

(** X3.  [TestBase.make_request] reads the method without regard to the
    case of its (ASCII) letters: with a method it supports, it sends the
    same request and returns the same pair as with the upper-cased name.
    The module-level [make_request] of test_controllers_advanced.py
    compares exactly: any method other than the strings GET and POST,
    lower-case spellings included, sends nothing and returns
    [(500, {"error": ...})]. *)
Theorem X3_method_case :
  (forall (St : Type) (HSt : Harness St) net endpoint method data params headers (st : St),
      base_request endpoint method data params headers <> None ->
      make_request net endpoint method data params headers st
      = make_request net endpoint (upper method) data params headers st)
  /\ (forall (St : Type) (HSt : Harness St) net endpoint method data params (st : St),
         method <> "GET" -> method <> "POST" ->
         exists msg,
           Advanced.make_request net endpoint method data params st
           = (Ok (500%Z, JDict {[ "error" := JStr msg ]}), st)).
Proof.
  split.
  - intros St HSt net endpoint method data params headers st Hsome.
    rewrite !make_request_spec, base_request_upper.
    destruct (base_request endpoint method data params headers); [reflexivity|].
    contradiction.
  - intros St HSt net endpoint method data params st Hget Hpost.
    rewrite advanced_make_request_spec. unfold advanced_request.
    destruct (String.eqb_spec method "GET"); [contradiction|].
    destruct (String.eqb_spec method "POST"); [contradiction|].
    eexists. reflexivity.
Qed.

Lemma X3_method_case_witness :
  make_request Scenario.net_ok "/api/csrf/info" "get" JNull JNull None world0
  = make_request Scenario.net_ok "/api/csrf/info" "GET" JNull JNull None world0
  /\ exists msg,
       Advanced.make_request Scenario.net_ok "/api/csrf/info" "get" JNull JNull world0
       = (Ok (500%Z, JDict {[ "error" := JStr msg ]}), world0).
Proof.
  destruct X3_method_case as [Hbase Hadv]. split.
  - apply (Hbase world _ Scenario.net_ok "/api/csrf/info" "get" JNull JNull None world0).
    vm_compute. discriminate.
  - apply (Hadv world _ Scenario.net_ok "/api/csrf/info" "get" JNull JNull world0);
      discriminate.
Defined.



Import Shape.

(** ** When a policy raises *)

(** X5.  A classification policy that reads the payload raises exactly
    when the status code is 200 and the payload is not a dict, and then
    with [AttributeError]: this holds for [assert_success] and for
    [analytics_assert_success].  [sec_assert_success] never raises. *)
Theorem X5_policies_raise_on_non_dict repr status body test_name (t : tester) :
  ((exists e, fst (assert_success status body test_name t) = Raise e)
   <-> status = 200%Z /\ is_dict body = false)
  /\ ((exists e, fst (Analytics.analytics_assert_success repr status body test_name t)
                 = Raise e)
      <-> status = 200%Z /\ is_dict body = false)
  /\ (forall e, fst (assert_success status body test_name t) = Raise e
                \/ fst (Analytics.analytics_assert_success repr status body test_name t)
                   = Raise e ->
                exn_cls e = AttributeError)
  /\ (exists b, fst (Security.sec_assert_success status body test_name t) = Ok b).
Proof.
  rewrite assert_success_value, analytics_assert_success_value, sec_assert_success_value.
  unfold base_value, analytics_value.
  destruct (Z.eqb_spec status 200) as [->|Hne].
  - destruct body as [| | | |l|d]; cbn [dict_get is_dict].
    1-5: (split; [split; [intros _; split; reflexivity|intros _; eexists; reflexivity]|];
          split; [split; [intros _; split; reflexivity|intros _; eexists; reflexivity]|];
          split; [intros e [He|He]; injection He as <-; reflexivity|eexists; reflexivity]).
    split; [split; [intros [e He]; discriminate|intros [_ Hd]; discriminate]|].
    split; [|split; [|eexists; reflexivity]].
    + split; [|intros [_ Hd]; discriminate]. intros [e He]. exfalso.
      destruct (eq_str _ "success"); [discriminate|]. cbn [has] in He.
      destruct (bool_decide _); [discriminate|].
      destruct (eq_str _ "error"); discriminate.
    + intros e [He|He]; [discriminate|]. exfalso.
      destruct (eq_str _ "success"); [discriminate|]. cbn [has] in He.
      destruct (bool_decide _); [discriminate|].
      destruct (eq_str _ "error"); discriminate.
  - split; [split; [intros [e He]; discriminate|intros [Hs _]; contradiction]|].
    split; [split; [intros [e He]; discriminate|intros [Hs _]; contradiction]|].
    split; [intros e [He|He]; discriminate|eexists; reflexivity].
Qed.

(** ** What the checks put on the wire *)

Section Wire.

Lemma keeps_wire_ret {A} (a : A) : keeps_wire (ret a).
Proof. intros t. reflexivity. Qed.

Lemma keeps_wire_lift {A} (x : result A) : keeps_wire (lift x).
Proof. intros t. reflexivity. Qed.

Lemma keeps_wire_print l : keeps_wire (print l).
Proof. intros t. reflexivity. Qed.

Lemma keeps_wire_prints ls : keeps_wire (prints ls).
Proof. intros t. reflexivity. Qed.

Lemma keeps_wire_append_result entry : keeps_wire (append_result entry).
Proof. intros t. reflexivity. Qed.

Lemma keeps_wire_set_csrf_token v : keeps_wire (set_csrf_token v).
Proof. intros t. reflexivity. Qed.

Lemma keeps_wire_bind {A B} (c : M tester A) (k : A -> M tester B) :
  keeps_wire c -> (forall a, keeps_wire (k a)) -> keeps_wire (bind c k).
Proof.
  intros Hc Hk t. unfold bind. specialize (Hc t).
  destruct (c t) as [[a|e] t1]; cbn [snd] in *; [|exact Hc].
  rewrite Hk. exact Hc.
Qed.

Lemma sends_one_bind_l {A B} req (c : M tester A) (k : A -> M tester B) :
  sends_one req c -> (forall a, keeps_wire (k a)) -> sends_one req (bind c k).
Proof.
  intros Hc Hk t. unfold bind. specialize (Hc t).
  destruct (c t) as [[a|e] t1]; cbn [snd] in *; [|exact Hc].
  rewrite Hk. exact Hc.
Qed.

Lemma sends_one_bind_r {A B} req (c : M tester A) (k : A -> M tester B) :
  keeps_wire c -> returns c -> (forall a, sends_one req (k a)) -> sends_one req (bind c k).
Proof.
  intros Hc Hret Hk t. unfold bind. specialize (Hc t).
  destruct (Hret t) as (a & t1 & Heq). rewrite Heq in Hc |- *. cbn [snd] in Hc.
  rewrite Hk, Hc. reflexivity.
Qed.

Lemma make_request_sends_one net endpoint method data params headers req :
  base_request endpoint method data params headers = Some req ->
  sends_one req (make_request net endpoint method data params headers).
Proof.
  intros Hreq t. rewrite make_request_spec, Hreq. reflexivity.
Qed.

End Wire.

Ltac keeps_wire_tac :=
  repeat first
    [ apply keeps_wire_ret
    | apply keeps_wire_lift
    | apply keeps_wire_print
    | apply keeps_wire_prints
    | apply keeps_wire_append_result
    | apply keeps_wire_set_csrf_token
    | apply keeps_wire_bind; [|intros ?]
    | match goal with
      | |- keeps_wire (if ?b then _ else _) => destruct b
      | |- keeps_wire (match ?p with (_, _) => _ end) => destruct p
      | |- keeps_wire (match ?r with JNull => _ | _ => _ end) => destruct r
      end ].

Lemma keeps_wire_print_results results title max_items :
  keeps_wire (print_results results title max_items : M tester unit).
Proof.
  unfold print_results. apply keeps_wire_bind; [apply keeps_wire_prints|intros _].
  destruct results as [| | | |[|x l]|d]; keeps_wire_tac.
Qed.

Lemma keeps_wire_assert_success status body test_name :
  keeps_wire (assert_success status body test_name).
Proof. unfold assert_success. keeps_wire_tac. Qed.

Lemma keeps_wire_analytics_assert_success repr status body test_name :
  keeps_wire (Analytics.analytics_assert_success repr status body test_name).
Proof. unfold Analytics.analytics_assert_success. keeps_wire_tac. Qed.

Lemma returns_print_test_header header : returns (print_test_header header : M tester unit).
Proof. apply returns_prints. Qed.

(** A test that prints its header, makes its one call and then only
    classifies, records and lists. *)
Lemma test_sends_one net header endpoint method data params req
    (rest : Z * json -> M tester bool) :
  base_request endpoint method data params None = Some req ->
  (forall p, keeps_wire (rest p)) ->
  sends_one req (let* _ := print_test_header header in
                 let* p := make_request net endpoint method data params None in
                 rest p).
Proof.
  intros Hreq Hrest.
  apply sends_one_bind_r;
    [apply keeps_wire_prints|apply returns_print_test_header|intros _].
  apply sends_one_bind_l; [apply make_request_sends_one, Hreq|exact Hrest].
Qed.

Ltac test_wire :=
  eapply test_sends_one; [reflexivity|];
  intros [status response];
  repeat first
    [ apply keeps_wire_print_results
    | apply keeps_wire_assert_success
    | apply keeps_wire_analytics_assert_success
    | progress keeps_wire_tac ].

Section WireOfSuites.
Variable net : network.

Lemma core_tests_wire :
  exists reqs,
    Forall2 (fun test req => sends_one req (snd test)) (Core.tests net) reqs
    /\ endpoints reqs
       = [ (GET, "http://localhost:8080/api/oracle/core/health");
           (GET, "http://localhost:8080/api/oracle/core/tables");
           (POST, "http://localhost:8080/api/oracle/core/tables/CUSTOMERS/query");
           (GET, "http://localhost:8080/api/oracle/core/tables/CUSTOMERS/describe");
           (POST, "http://localhost:8080/api/oracle/core/tables/ACCOUNTS/query");
           (POST, "http://localhost:8080/api/oracle/core/tables/LOANS/query") ].
Proof.
  eexists. split.
  - unfold Core.tests. repeat apply List.Forall2_cons; [..|apply List.Forall2_nil]; cbn [snd].
    + unfold Core.test_health_check. test_wire.
    + unfold Core.test_list_tables. test_wire.
    + unfold Core.test_query_customers. test_wire.
    + unfold Core.test_describe_table. test_wire.
    + unfold Core.test_account_query_with_filter. test_wire.
    + unfold Core.test_loan_data_query. test_wire.
  - reflexivity.
Qed.


Lemma run_test_wire passed test req :
  sends_one req (snd test) -> sends_one req (run_test passed test).
Proof.
  intros Hone t. unfold run_test, try_except, bind. specialize (Hone t).
  destruct (snd test t) as [[b|e] t1]; exact Hone.
Qed.

Lemma run_tests_wire tests reqs :
  Forall2 (fun test req => sends_one req (snd test)) tests reqs ->
  forall passed t,
    sent (tester_world (snd (run_tests tests passed t))) = sent (tester_world t) ++ reqs.
Proof.
  induction 1 as [|test req tests reqs Hone _ IH]; intros passed t.
  - simpl. rewrite app_nil_r. reflexivity.
  - simpl. unfold bind. pose proof (run_test_wire passed test req Hone t) as Hstep.
    rewrite run_test_spec in Hstep |- *. cbn [snd] in Hstep.
    rewrite IH, Hstep, <- app_assoc. reflexivity.
Qed.

Lemma analytics_tests_wire repr :
  exists reqs,
    Forall2 (fun test req => sends_one req (snd test)) (Analytics.tests net repr) reqs
    /\ endpoints reqs
       = [ (POST, "http://localhost:8080/api/oracle/analytics/window-functions");
           (POST, "http://localhost:8080/api/oracle/analytics/complex-joins");
           (POST, "http://localhost:8080/api/oracle/analytics/hierarchical-queries");
           (POST, "http://localhost:8080/api/oracle/analytics/analytical-functions");
           (POST, "http://localhost:8080/api/oracle/analytics/complex-joins");
           (POST, "http://localhost:8080/api/oracle/analytics/complex-joins") ].
Proof.
  eexists. split.
  - unfold Analytics.tests.
    repeat apply List.Forall2_cons; [..|apply List.Forall2_nil]; cbn [snd];
      unfold Analytics.test_window_functions, Analytics.test_complex_joins,
        Analytics.test_hierarchical_queries, Analytics.test_analytical_functions,
        Analytics.test_loan_risk_analysis, Analytics.test_transaction_patterns,
        Analytics.analytics_test;
      test_wire.
  - reflexivity.
Qed.

Lemma csrf_tests_wire :
  exists reqs,
    Forall2 (fun test req => sends_one req (snd test)) (Csrf.tests net) reqs
    /\ endpoints reqs
       = [ (GET, "http://localhost:8080/api/csrf/info");
           (GET, "http://localhost:8080/api/csrf/token") ].
Proof.
  eexists. split.
  - unfold Csrf.tests.
    repeat apply List.Forall2_cons; [..|apply List.Forall2_nil]; cbn [snd].
    + unfold Csrf.test_csrf_info_endpoint. test_wire.
    + unfold Csrf.test_get_csrf_token. test_wire.
  - reflexivity.
Qed.

End WireOfSuites.

(** X6.  The traffic of a suite does not depend on the service.  Whatever
    the service answers, and whether checks pass, fail or raise, the loop
    of the core suite sends exactly six requests, one per check, to the
    six endpoints below in this order; the analytics suite sends six POSTs
    and the CSRF suite two GETs in the same way. *)
Theorem X6_suite_traffic_is_fixed net repr passed (t : tester) :
  (exists reqs,
      sent (tester_world (snd (run_tests (Core.tests net) passed t)))
      = sent (tester_world t) ++ reqs
      /\ endpoints reqs
         = [ (GET, "http://localhost:8080/api/oracle/core/health");
             (GET, "http://localhost:8080/api/oracle/core/tables");
             (POST, "http://localhost:8080/api/oracle/core/tables/CUSTOMERS/query");
             (GET, "http://localhost:8080/api/oracle/core/tables/CUSTOMERS/describe");
             (POST, "http://localhost:8080/api/oracle/core/tables/ACCOUNTS/query");
             (POST, "http://localhost:8080/api/oracle/core/tables/LOANS/query") ])
  /\ (exists reqs,
         sent (tester_world (snd (run_tests (Analytics.tests net repr) passed t)))
         = sent (tester_world t) ++ reqs
         /\ endpoints reqs
            = [ (POST, "http://localhost:8080/api/oracle/analytics/window-functions");
                (POST, "http://localhost:8080/api/oracle/analytics/complex-joins");
                (POST, "http://localhost:8080/api/oracle/analytics/hierarchical-queries");
                (POST, "http://localhost:8080/api/oracle/analytics/analytical-functions");
                (POST, "http://localhost:8080/api/oracle/analytics/complex-joins");
                (POST, "http://localhost:8080/api/oracle/analytics/complex-joins") ])
  /\ (exists reqs,
         sent (tester_world (snd (run_tests (Csrf.tests net) passed t)))
         = sent (tester_world t) ++ reqs
         /\ endpoints reqs
            = [ (GET, "http://localhost:8080/api/csrf/info");
                (GET, "http://localhost:8080/api/csrf/token") ]).
Proof.
  split; [|split].
  - destruct (core_tests_wire net) as (reqs & Hall & Hends).
    exists reqs. split; [apply run_tests_wire, Hall|exact Hends].
  - destruct (analytics_tests_wire net repr) as (reqs & Hall & Hends).
    exists reqs. split; [apply run_tests_wire, Hall|exact Hends].
  - destruct (csrf_tests_wire net) as (reqs & Hall & Hends).
    exists reqs. split; [apply run_tests_wire, Hall|exact Hends].
Qed.

(** ** The shape of the report *)

Section Early.

Lemma keeps_results_print l : keeps_results (print l).
Proof. intros t. reflexivity. Qed.

Lemma keeps_results_prints ls : keeps_results (prints ls).
Proof. intros t. reflexivity. Qed.

Lemma keeps_results_if {A} (b : bool) (c1 c2 : M tester A) :
  keeps_results c1 -> keeps_results c2 -> keeps_results (if b then c1 else c2).
Proof. destruct b; auto. Qed.

Lemma count_failed_cons r rs :
  count_failed (r :: rs) = (if snd r then 0 else 1) + count_failed rs.
Proof.
  unfold count_failed. rewrite filter_cons.
  destruct (decide (snd r = false)) as [Hr|Hr];
    destruct (snd r); try congruence; reflexivity.
Qed.

Lemma records_once_early test : records_once test -> records_early test.
Proof.
  intros Hone t. specialize (Hone t).
  destruct (test t) as [[b|e] t']; [exact Hone|left; exact Hone].
Qed.

Lemma records_early_bind {A} (c : M tester A) (k : A -> M tester bool) :
  keeps_results c -> (forall a, records_early (k a)) -> records_early (bind c k).
Proof.
  intros Hc Hk t. unfold bind. specialize (Hc t).
  destruct (c t) as [[a|e] t1]; cbn [snd] in Hc; [|left; exact Hc].
  specialize (Hk a t1). destruct (k a t1) as [[b|e] t2]; rewrite <- Hc; exact Hk.
Qed.

(** The end of a test that records before it lists: the listing runs
    only when the result is true, so a raise leaves a [True] entry. *)
Lemma records_early_tail label (result : bool) (listing : M tester unit) :
  keeps_results listing ->
  records_early (let* _ := append_result (label, result) in
                 let* _ := if result then listing else ret tt in
                 ret result).
Proof.
  intros Hlist t. unfold bind at 1. unfold append_result at 1.
  set (t1 := Tester (test_results t ++ [(label, result)]) (csrf_token t) (tester_world t)).
  unfold bind. destruct result.
  - specialize (Hlist t1). destruct (listing t1) as [[[]|e] t2]; cbn [snd] in Hlist.
    + exists label. exact Hlist.
    + right. exists label. exact Hlist.
  - exists label. reflexivity.
Qed.

(** One turn of the loop on a test that records early. *)
Lemma run_test_records_early passed test t :
  records_early (snd test) ->
  exists new passed' t',
    run_test passed test t = (Ok passed', t')
    /\ test_results t' = test_results t ++ new
    /\ 1 <= length new <= 2
    /\ passed <= passed'
    /\ count_failed new + (passed' - passed) = 1
    /\ passed' - passed <= count_passed new.
Proof.
  intros Hearly. specialize (Hearly t).
  unfold run_test, try_except, bind, print, append_result, ret.
  destruct (snd test t) as [[b|e] t1].
  - destruct Hearly as [label Hres].
    exists [(label, b)]. eexists. eexists. split; [reflexivity|].
    split; [exact Hres|]. rewrite count_failed_cons, count_passed_cons.
    unfold count_failed, count_passed. destruct b; simpl; lia.
  - cbn [world_of with_world tester_harness test_results csrf_token tester_world].
    destruct Hearly as [Hres|[label Hres]].
    + exists [(fst test, false)]. eexists. eexists. split; [reflexivity|].
      cbn [test_results]. rewrite Hres. split; [reflexivity|].
      rewrite count_failed_cons, count_passed_cons.
      unfold count_failed, count_passed. simpl. lia.
    + exists [(label, true); (fst test, false)]. eexists. eexists. split; [reflexivity|].
      cbn [test_results]. rewrite Hres, <- app_assoc. split; [reflexivity|].
      rewrite !count_failed_cons, !count_passed_cons.
      unfold count_failed, count_passed. simpl. lia.
Qed.

Lemma count_failed_app xs ys :
  count_failed (xs ++ ys) = count_failed xs + count_failed ys.
Proof. unfold count_failed. rewrite filter_app, length_app. reflexivity. Qed.

Lemma count_passed_app xs ys :
  count_passed (xs ++ ys) = count_passed xs + count_passed ys.
Proof. unfold count_passed. rewrite filter_app, length_app. reflexivity. Qed.

Lemma run_tests_records_early tests :
  Forall (fun test => records_early (snd test)) tests ->
  forall passed t,
  exists new passed' t',
    run_tests tests passed t = (Ok passed', t')
    /\ test_results t' = test_results t ++ new
    /\ length tests <= length new <= 2 * length tests
    /\ passed <= passed'
    /\ count_failed new + (passed' - passed) = length tests
    /\ passed' - passed <= count_passed new.
Proof.
  induction 1 as [|test rest Hone _ IH]; intros passed t.
  - exists [], passed, t. simpl. unfold ret, count_failed, count_passed. simpl.
    rewrite app_nil_r. repeat split; lia.
  - simpl. unfold bind.
    destruct (run_test_records_early passed test t Hone)
      as (new1 & p1 & t1 & -> & Hres1 & Hlen1 & Hp1 & Hfail1 & Hpass1).
    destruct (IH p1 t1) as (new2 & p2 & t2 & -> & Hres2 & Hlen2 & Hp2 & Hfail2 & Hpass2).
    exists (new1 ++ new2), p2, t2. split; [reflexivity|].
    split; [rewrite Hres2, Hres1, <- app_assoc; reflexivity|].
    rewrite length_app, count_failed_app, count_passed_app. cbn [length].
    repeat split; lia.
Qed.

End Early.

Ltac keeps_results_tac :=
  repeat first
    [ apply keeps_results_ret
    | apply keeps_results_lift
    | apply keeps_results_print
    | apply keeps_results_prints
    | apply keeps_results_set_csrf_token
    | apply world_only_keeps, print_results_world_only
    | apply world_only_keeps, make_request_world_only
    | apply keeps_results_bind; [|intros ?]
    | match goal with
      | |- keeps_results (if ?b then _ else _) => destruct b
      | |- keeps_results (match ?p with (_, _) => _ end) => destruct p
      | |- keeps_results (match ?r with JNull => _ | _ => _ end) => destruct r
      end ].

Lemma keeps_results_assert_success status body test_name :
  keeps_results (assert_success status body test_name).
Proof. unfold assert_success. keeps_results_tac. Qed.

Lemma keeps_results_analytics_assert_success repr status body test_name :
  keeps_results (Analytics.analytics_assert_success repr status body test_name).
Proof. unfold Analytics.analytics_assert_success. keeps_results_tac. Qed.

(** A test of the usual build: header, call, policy, then record and
    list. *)
Ltac test_early policy_keeps :=
  apply records_early_bind; [keeps_results_tac|intros _];
  apply records_early_bind; [keeps_results_tac|intros [status response]];
  apply records_early_bind; [apply policy_keeps|intros result];
  apply records_early_tail; keeps_results_tac.

Section EarlySuites.
Variable net : network.

Lemma core_tests_record_early :
  Forall (fun test => records_early (snd test)) (Core.tests net).
Proof.
  unfold Core.tests. repeat apply List.Forall_cons; [..|apply List.Forall_nil]; cbn [snd].
  - apply records_once_early, core_health_check_records_once.
  - apply records_once_early, core_list_tables_records_once.
  - unfold Core.test_query_customers. test_early keeps_results_assert_success.
  - unfold Core.test_describe_table. test_early keeps_results_assert_success.
  - unfold Core.test_account_query_with_filter. test_early keeps_results_assert_success.
  - unfold Core.test_loan_data_query. test_early keeps_results_assert_success.
Qed.

Lemma analytics_tests_record_early repr :
  Forall (fun test => records_early (snd test)) (Analytics.tests net repr).
Proof.
  unfold Analytics.tests.
  repeat apply List.Forall_cons; [..|apply List.Forall_nil]; cbn [snd];
    unfold Analytics.test_window_functions, Analytics.test_complex_joins,
      Analytics.test_hierarchical_queries, Analytics.test_analytical_functions,
      Analytics.test_loan_risk_analysis, Analytics.test_transaction_patterns,
      Analytics.analytics_test;
    test_early (keeps_results_analytics_assert_success repr).
Qed.

End EarlySuites.

(** X7.  In the core and analytics suites, on every service, the loop
    over the N checks leaves between N and 2N entries in [test_results];
    the entries with passed=false are exactly as many as the checks that
    were not counted as passed, and every counted pass has an entry with
    passed=true (there can be more such entries than counted passes). *)
Theorem X7_report_shape net repr (t : tester) :
  (exists new passed t',
      run_tests (Core.tests net) 0 t = (Ok passed, t')
      /\ test_results t' = test_results t ++ new
      /\ totalCount (Core.tests net) <= length new <= 2 * totalCount (Core.tests net)
      /\ count_failed new = totalCount (Core.tests net) - passed
      /\ passed <= count_passed new)
  /\ (exists new passed t',
         run_tests (Analytics.tests net repr) 0 t = (Ok passed, t')
         /\ test_results t' = test_results t ++ new
         /\ totalCount (Analytics.tests net repr) <= length new
            <= 2 * totalCount (Analytics.tests net repr)
         /\ count_failed new = totalCount (Analytics.tests net repr) - passed
         /\ passed <= count_passed new).
Proof.
  split.
  - destruct (run_tests_records_early _ (core_tests_record_early net) 0 t)
      as (new & p & t' & Hrun & Hres & Hlen & _ & Hfail & Hpass).
    exists new, p, t'. unfold totalCount. repeat split; try assumption; lia.
  - destruct (run_tests_records_early _ (analytics_tests_record_early net repr) 0 t)
      as (new & p & t' & Hrun & Hres & Hlen & _ & Hfail & Hpass).
    exists new, p, t'. unfold totalCount. repeat split; try assumption; lia.
Qed.

(** ** The CSRF suite *)

Import CsrfShape.

Section CsrfSuite.
Variable net : network.


Lemma print_summary_keeps title passed total : keeps_results (print_summary title passed total).
Proof.
  unfold print_summary.
  apply keeps_results_bind; [apply keeps_results_prints|intros _].
  apply keeps_results_bind; [intros t; reflexivity|intros _].
  apply keeps_results_bind; [apply keeps_results_lift|intros rate].
  apply keeps_results_print.
Qed.



End CsrfSuite.


Lemma csrf_token_run net (t : tester) :
  let rep := reply_pair (net (length (sent (tester_world t))) token_request) in
  let token := token_of (snd rep) in
  exists r t',
    Csrf.test_get_csrf_token net t = (r, t')
    /\ csrf_token t'
       = (if (fst rep =? 200)%Z && truthy token then token else csrf_token t)
    /\ r = (if (fst rep =? 200)%Z
            then if truthy token
                 then match Csrf.slice20 token with
                      | Ok _ => Ok true
                      | Raise e => Raise e
                      end
                 else Ok true
            else Ok false).
Proof.
  intros rep token. subst token rep.
  unfold Csrf.test_get_csrf_token.
  unfold bind at 1. unfold print_test_header, prints at 1.
  cbn [world_of with_world tester_harness].
  unfold bind at 1. rewrite make_request_spec.
  change (base_request "/api/csrf/token" "GET" JNull JNull None) with (Some token_request).
  cbv beta iota. cbn [world_of tester_harness sent tester_world].
  destruct (reply_pair (net (length (sent (tester_world t))) token_request))
    as [status response].
  cbn [fst snd].
  set (t1 := wired token_request _).
  assert (Ht1 : csrf_token t1 = csrf_token t) by reflexivity.
  assert (Hpr : forall t0 : tester,
             exists w', print_results response "CSRF Token Information" 5 t0
                        = (Ok tt, in_world w' t0)).
  { intros t0. destruct (print_results_world_only response "CSRF Token Information" 5 t0)
      as ([] & w' & Hp). eauto. }
  destruct (status =? 200)%Z; cbn [andb]; [|eexists; eexists; split; [reflexivity|split; reflexivity]].
  cbv beta iota delta [bind ret print lift append_result set_csrf_token].
  cbn [world_of with_world tester_harness].
  destruct response as [| | | |l|d]; cbn [token_of truthy];
    try (match goal with
         | |- context [print_results ?a ?b ?c ?t0] => destruct (Hpr t0) as [w' ->]
         end; eexists; eexists; split; [reflexivity|split; reflexivity]).
  destruct (truthy (default JNull (d !! "token"))) eqn:Htruthy.
  - destruct (Csrf.slice20 (default JNull (d !! "token"))) as [head|e];
      [|eexists; eexists; split; [reflexivity|split; reflexivity]].
    match goal with
    | |- context [print_results ?a ?b ?c ?t0] => destruct (Hpr t0) as [w' ->]
    end.
    eexists; eexists; split; [reflexivity|split; reflexivity].
  - match goal with
    | |- context [print_results ?a ?b ?c ?t0] => destruct (Hpr t0) as [w' ->]
    end.
    eexists; eexists; split; [reflexivity|split; reflexivity].
Qed.

(** X9.  [test_get_csrf_token] stores the token exactly when the status
    is 200 and the payload is a dict with a truthy ['token'], and it
    stores it before it prints its first 20 characters.  So a token that
    cannot be sliced (a number, [true], a dict) makes the check raise
    although the status was 200, with the token already stored; a
    missing, null or empty token lets the check pass without storing
    anything; any other status fails the check. *)
Theorem X9_csrf_token_stored net (t : tester) :
  let rep := reply_pair (net (length (sent (tester_world t))) token_request) in
  let token := token_of (snd rep) in
  let run := Csrf.test_get_csrf_token net t in
  csrf_token (snd run)
  = (if (fst rep =? 200)%Z && truthy token then token else csrf_token t)
  /\ fst run
     = (if (fst rep =? 200)%Z
        then if truthy token
             then match Csrf.slice20 token with
                  | Ok _ => Ok true
                  | Raise e => Raise e
                  end
             else Ok true
        else Ok false).
Proof.
  intros rep token run.
  destruct (csrf_token_run net t) as (r & t' & Hrun & Htoken & Hr).
  subst run. rewrite Hrun. split; assumption.
Qed.

(** ** The master runner's results *)

Import MasterShape.

Section MasterResults.
Import Master.

Lemma run_suite_entry i total passed entry r :
  exists x r',
    run_suite i total passed entry r
    = (Ok (if sr_success x then S passed else passed), r')
    /\ overall_results r' = overall_results r ++ [x]
    /\ sr_suite x = snd entry
    /\ entry_consistent x
    /\ test_suites r' = test_suites r.
Proof.
  unfold run_suite, try_except, bind, instantiate_and_run, prints, print,
    append_overall, ret.
  cbn [world_of with_world runner_harness runner_world overall_results test_suites].
  destruct (fst entry _) as [[[|]|e] w'];
    cbn [world_of with_world runner_harness runner_world overall_results test_suites].
  - exists (SuiteResult (snd entry) "PASSED" true None). eexists.
    split; [reflexivity|]. cbn. repeat split. left. cbn. auto.
  - exists (SuiteResult (snd entry) "FAILED" false None). eexists.
    split; [reflexivity|]. cbn. repeat split. right; left. cbn. auto.
  - exists (SuiteResult (snd entry) "CRASHED" false (Some (str_exn e))). eexists.
    split; [reflexivity|]. cbn. repeat split. right; right. cbn. eauto.
Qed.

Lemma run_suites_entries total suites : forall i passed r,
  exists new r',
    run_suites suites i total passed r = (Ok (passed + count_success new), r')
    /\ overall_results r' = overall_results r ++ new
    /\ sr_suite <$> new = snd <$> suites
    /\ Forall entry_consistent new
    /\ test_suites r' = test_suites r.
Proof.
  induction suites as [|entry rest IH]; intros i passed r.
  - exists [], r. simpl. unfold ret. rewrite Nat.add_0_r, app_nil_r. auto.
  - simpl. unfold bind at 1.
    destruct (run_suite_entry i total passed entry r)
      as (x & r1 & -> & Hres & Hname & Hx & Hsuites).
    destruct (IH (S i) (if sr_success x then S passed else passed) r1)
      as (new & r2 & -> & Hres2 & Hnames & Hnew & Hsuites2).
    exists (x :: new), r2. split; [|split; [|split; [|split]]].
    + f_equal. f_equal. rewrite count_success_cons.
      destruct (sr_success x); lia.
    + rewrite Hres2, Hres, <- app_assoc. reflexivity.
    + rewrite !fmap_cons, Hname, Hnames. reflexivity.
    + constructor; assumption.
    + congruence.
Qed.

End MasterResults.

(** X10.  [add_test_suite] appends to the list of suites and touches
    nothing else.  With at least one suite registered, [run_all_tests]
    of the master runner returns; it adds one entry per suite to
    [overall_results], in registration order and under the registered
    names, each entry being PASSED with success, FAILED without, or
    CRASHED without success and with the error message; the value
    returned says whether every entry is a success; the list of suites is
    left as it was. *)
Theorem X10_master_results_in_order (r : Master.runner) :
  (forall c name,
      Master.test_suites (snd (Master.add_test_suite c name r))
      = Master.test_suites r ++ [(c, name)]
      /\ Master.overall_results (snd (Master.add_test_suite c name r))
         = Master.overall_results r)
  /\ (Master.test_suites r <> [] ->
      exists new r',
        Master.run_all_tests r
        = (Ok (count_success new =? length (Master.test_suites r))%nat, r')
        /\ Master.overall_results r' = Master.overall_results r ++ new
        /\ Master.sr_suite <$> new = snd <$> Master.test_suites r
        /\ Forall entry_consistent new
        /\ Master.test_suites r' = Master.test_suites r).
Proof.
  split; [intros c name; split; reflexivity|].
  intros Hne. unfold Master.run_all_tests. unfold bind at 1.
  unfold prints at 1. cbn [world_of with_world Master.runner_harness Master.runner_world].
  unfold bind at 1.
  match goal with
  | |- context [Master.run_suites ?s ?i ?n ?p ?r0] =>
      destruct (run_suites_entries n s i p r0)
        as (new & r1 & -> & Hres & Hnames & Hnew & Hsuites)
  end.
  unfold bind at 1.
  destruct (generate_final_report_ok (0 + count_success new)
              (length (Master.test_suites r)) r1)
    as (r2 & -> & Hres2 & Hsuites2).
  { destruct (Master.test_suites r); [contradiction|discriminate]. }
  exists new, r2. split; [reflexivity|].
  split; [rewrite Hres2, Hres; reflexivity|].
  split; [exact Hnames|]. split; [exact Hnew|].
  rewrite Hsuites2, Hsuites. reflexivity.
Qed.

Lemma X10_master_results_in_order_witness :
  exists new r',
    Master.run_all_tests (Master.Runner [(trivial_suite, "Trivial")] [] world0)
    = (Ok (count_success new =? 1)%nat, r')
    /\ Master.sr_suite <$> new = ["Trivial"].
Proof.
  destruct (X10_master_results_in_order
              (Master.Runner [(trivial_suite, "Trivial")] [] world0)) as [_ Hrun].
  destruct Hrun as (new & r' & Heq & _ & Hnames & _); [discriminate|].
  exists new, r'. split; [exact Heq|exact Hnames].
Defined.

(** ** The advanced suite: one summary entry per test *)

Section AdvancedRun.
Import AdvancedSuite AdvancedShape.
Variable net : network.

Lemma advanced_print_results_quiet results title n (w : world) :
  exists w', AdvancedSuite.print_results results title n w = (Ok tt, w')
             /\ sent w' = sent w.
Proof.
  unfold AdvancedSuite.print_results, bind, prints, print, ret.
  cbn [world_of with_world world_harness].
  destruct results as [| | | |[|x l]|]; cbn [stdout sent slept]; eauto.
  destruct (n <? length (x :: l))%nat; cbn [stdout sent slept]; eauto.
Qed.

Lemma advanced_test_calls_one header intro endpoint data params passed failed title n :
  truthy data = true ->
  calls_one net (post (endpoint, data, params))
    (advanced_test net header intro endpoint data params passed failed title n).
Proof.
  intros Hdata w. unfold advanced_test.
  unfold bind at 1. unfold AdvancedSuite.print_test_header, prints at 1.
  cbn [world_of with_world world_harness].
  unfold bind at 1. unfold print at 1. cbn [world_of with_world world_harness].
  unfold bind at 1. rewrite advanced_make_request_spec.
  unfold advanced_request. rewrite Hdata. cbn [String.eqb Ascii.eqb Bool.eqb].
  unfold verdict, post, wired. cbn [world_of with_world world_harness stdout sent slept fst snd].
  match goal with
  | |- context [reply_pair ?rep] => destruct (reply_pair rep) as [status body]
  end.
  cbn [fst snd]. unfold base_value.
  unfold bind at 1. unfold print at 1. cbn [world_of with_world world_harness stdout sent slept].
  unfold bind at 1.
  destruct (status =? 200)%Z.
  - unfold bind at 1, lift at 1.
    destruct body as [| | | | |d]; cbn [dict_get]; try (eexists; split; reflexivity).
    unfold ret at 1.
    destruct (eq_str _ "success").
    + unfold bind at 1, print at 1. cbn [world_of with_world world_harness stdout sent slept].
      unfold bind at 1, lift at 1. unfold bind at 1.
      match goal with
      | |- context [AdvancedSuite.print_results ?r ?t ?m ?w0] =>
          destruct (advanced_print_results_quiet r t m w0) as (w1 & -> & Hsent)
      end.
      unfold ret. eexists; split; [reflexivity|]. rewrite Hsent. reflexivity.
    + unfold bind, print, ret. cbn [world_of with_world world_harness stdout sent slept].
      eexists; split; reflexivity.
  - unfold ret at 1. unfold bind, print, ret.
    cbn [world_of with_world world_harness stdout sent slept].
    eexists; split; reflexivity.
Qed.

Lemma advanced_run_test_spec passed summary name test req w :
  calls_one net req test ->
  exists w',
    AdvancedSuite.run_test (passed, summary) (name, test) w
    = (Ok (if is_pass (verdict net (length (sent w)) req) then S passed else passed,
           summary ++ [entry_of name (verdict net (length (sent w)) req)]), w')
    /\ sent w' = sent w ++ [req].
Proof.
  intros Htest. unfold AdvancedSuite.run_test.
  unfold bind at 1, print at 1. cbn [world_of with_world world_harness fst snd].
  unfold try_except, bind at 1.
  match goal with
  | |- context [test ?w0] => destruct (Htest w0) as (w1 & -> & Hsent)
  end.
  cbn [sent] in *.
  destruct (verdict net (length (sent w)) req) as [[|]|e];
    cbn [is_pass entry_of]; unfold ret, bind, print;
    cbn [world_of with_world world_harness stdout sent slept];
    eexists; (split; [reflexivity|]); cbn [sent]; exact Hsent.
Qed.

Lemma advanced_run_tests_spec tests reqs :
  Forall2 (fun t req => calls_one net req (snd t)) tests reqs ->
  forall passed summary w,
  exists w',
    AdvancedSuite.run_tests tests (passed, summary) w
    = (Ok (passed + count_pass (verdicts net (length (sent w)) reqs),
           summary ++ zip_with entry_of (fst <$> tests)
                        (verdicts net (length (sent w)) reqs)), w')
    /\ sent w' = sent w ++ reqs.
Proof.
  induction 1 as [|[name test] req tests reqs Hone _ IH]; intros passed summary w.
  - exists w. cbn. unfold ret, count_pass. cbn.
    rewrite Nat.add_0_r, !app_nil_r. auto.
  - cbn [AdvancedSuite.run_tests]. unfold bind at 1.
    destruct (advanced_run_test_spec passed summary name test req w Hone)
      as (w1 & -> & Hsent1).
    edestruct IH as (w2 & -> & Hsent2).
    exists w2. split; [|rewrite Hsent2, Hsent1, <- app_assoc; reflexivity].
    rewrite Hsent1, length_app, Nat.add_1_r. cbn [verdicts fmap list_fmap zip_with fst].
    f_equal. f_equal. f_equal.
    + unfold count_pass.
      destruct (is_pass (verdict net (length (sent w)) req)) eqn:Hp.
      * rewrite filter_cons_True by exact Hp. cbn [length]. lia.
      * rewrite filter_cons_False by (rewrite Hp; discriminate). lia.
    + rewrite <- app_assoc. reflexivity.
Qed.

Lemma advanced_tests_call_one :
  Forall2 (fun t req => calls_one net req (snd t)) (AdvancedSuite.tests net) requests.
Proof.
  unfold AdvancedSuite.tests, requests, calls.
  cbn [fmap list_fmap].
  repeat (apply List.Forall2_cons;
          [apply advanced_test_calls_one; reflexivity|]).
  apply List.Forall2_nil.
Qed.

Lemma verdicts_length n reqs : length (verdicts net n reqs) = length reqs.
Proof. revert n; induction reqs; intros; cbn; auto. Qed.

Lemma count_pass_all vs :
  (count_pass vs =? length vs)%nat = forallb is_pass vs.
Proof.
  assert (Hle : forall l, count_pass l <= length l).
  { intros l. unfold count_pass. apply length_filter. }
  induction vs as [|v vs IH]; [reflexivity|].
  unfold count_pass in *. cbn [forallb length].
  destruct (is_pass v) eqn:Hv.
  - rewrite filter_cons_True by exact Hv. cbn [length andb]. exact IH.
  - rewrite filter_cons_False by (rewrite Hv; discriminate). cbn [andb].
    apply Nat.eqb_neq. specialize (Hle vs). lia.
Qed.

End AdvancedRun.

(** X11.  The loop of [run_comprehensive_test_suite] never raises.  On
    every service it sends the suite's ten POSTs, one per test and in the
    order of the list, and leaves exactly one entry per test in
    [results_summary], in that order and under the test's name: PASSED
    when the reply has status 200 and a dict payload whose status is
    success, CRASHED with the error text when the reply has status 200
    and a payload that is not a dict, FAILED otherwise.  [passed] is the
    number of PASSED entries. *)
Theorem X11_advanced_one_entry_per_test net (w : world) :
  let vs := AdvancedShape.verdicts net (length (sent w)) AdvancedShape.requests in
  exists w',
    AdvancedSuite.run_tests (AdvancedSuite.tests net) (0, []) w
    = (Ok (AdvancedShape.count_pass vs,
           zip_with AdvancedShape.entry_of (fst <$> AdvancedSuite.tests net) vs), w')
    /\ sent w' = sent w ++ AdvancedShape.requests
    /\ length vs = length (AdvancedSuite.tests net)
    /\ Forall (fun v => forall e, v = Raise e -> exn_cls e = AttributeError) vs.
Proof.
  intros vs.
  destruct (advanced_run_tests_spec net _ _ (advanced_tests_call_one net) 0 [] w)
    as (w' & Hrun & Hsent).
  exists w'. split; [exact Hrun|]. split; [exact Hsent|].
  split; [apply verdicts_length|].
  subst vs. generalize (length (sent w)) as n.
  generalize AdvancedShape.requests as reqs.
  induction reqs as [|req reqs IH]; intros n; cbn [AdvancedShape.verdicts];
    constructor; [|apply IH].
  intros e. unfold AdvancedShape.verdict, base_value.
  destruct (fst _ =? 200)%Z; [|discriminate].
  destruct (snd (reply_pair (net n req))); cbn [dict_get]; intros [= <-]; reflexivity.
Qed.

(** X12.  [run_comprehensive_test_suite] always returns, whatever the
    service does, and its exit status is 0 exactly when each of the ten
    replies has status 200 and a dict payload whose status is success;
    otherwise it is 1.  The run sends the ten POSTs and nothing else. *)
Theorem X12_advanced_exit_status net (w : world) :
  exists w',
    AdvancedSuite.run_comprehensive_test_suite net w
    = (Ok (if forallb AdvancedShape.is_pass
                (AdvancedShape.verdicts net (length (sent w)) AdvancedShape.requests)
           then 0%Z else 1%Z), w')
    /\ sent w' = sent w ++ AdvancedShape.requests.
Proof.
  unfold AdvancedSuite.run_comprehensive_test_suite.
  unfold bind at 1, prints at 1. cbn [world_of with_world world_harness].
  unfold bind at 1.
  match goal with
  | |- context [AdvancedSuite.run_tests _ _ ?w0] =>
      destruct (advanced_run_tests_spec net _ _ (advanced_tests_call_one net) 0 [] w0)
        as (w1 & -> & Hsent)
  end.
  cbn [sent] in Hsent |- *. cbn [Nat.add app].
  unfold bind at 1, prints at 1. cbn [world_of with_world world_harness].
  unfold bind at 1, prints at 1. cbn [world_of with_world world_harness].
  unfold bind at 1, lift at 1.
  destruct (truediv_ok
              (Z.of_nat (AdvancedShape.count_pass
                           (AdvancedShape.verdicts net (length (sent w))
                              AdvancedShape.requests)))
              (Z.of_nat (length (AdvancedSuite.tests net))))
    as [q ->]; [discriminate|].
  unfold bind at 1, print at 1. cbn [world_of with_world world_harness].
  replace (length (AdvancedSuite.tests net))
    with (length (AdvancedShape.verdicts net (length (sent w)) AdvancedShape.requests))
    by apply verdicts_length.
  rewrite count_pass_all.
  destruct (forallb _ _); unfold bind, prints, print, ret;
    cbn [world_of with_world world_harness sent];
    eexists; (split; [reflexivity|exact Hsent]).
Qed.

(** ** The banking script *)

Section BankingRequests.
Import Banking BankingShape.
Variable net : network.

Lemma banking_make_request_spec endpoint method data params (w : world) :
  Banking.make_request net endpoint method data params w =
  match banking_request endpoint method data params with
  | Some req => (Ok (reply_pair (net (length (sent w)) req)), wired req w)
  | None =>
      (Ok (500%Z,
           JDict {[ "error" :=
                      JStr "cannot access local variable 'response' where it is not associated with a value" ]}),
       w)
  end.
Proof.
  unfold Banking.make_request, Banking.make_request_body, banking_request.
  destruct (String.eqb method "GET"); [|destruct (String.eqb method "POST")];
    [| destruct (truthy data) |reflexivity].
  all: unfold try_except; rewrite send_then;
    cbn [world_of world_harness];
    match goal with
    | |- context [net ?n ?req] => destruct (net n req); [|reflexivity]
    end;
    unfold reply_pair, bind, lift, ret;
    case_bool_decide; [reflexivity|];
    match goal with
    | |- context [json_ ?r] => destruct (json_ r); reflexivity
    end.
Qed.

End BankingRequests.

(** X13.  [make_request] of the banking script always returns and only
    touches the wire.  With a method other than the exact strings GET and
    POST it sends nothing and reports status 500.  Otherwise it sends one
    request to the base address followed by the endpoint, with the
    caller's query parameters; the JSON body and the Content-Type header
    go out only with truthy [data]: a POST with [data=[]], [{}] or [None]
    carries neither. *)
Theorem X13_banking_request_shape net endpoint method data params (w : world) :
  exists pair w',
    Banking.make_request net endpoint method data params w = (Ok pair, w')
    /\ stdout w' = stdout w
    /\ ((sent w' = sent w /\ method <> "GET" /\ method <> "POST" /\ fst pair = 500%Z)
        \/ exists req,
             sent w' = sent w ++ [req]
             /\ pair = reply_pair (net (length (sent w)) req)
             /\ (req_verb req = GET /\ method = "GET"
                 \/ req_verb req = POST /\ method = "POST")
             /\ req_url req = (Banking.BASE_URL ++ endpoint)%string
             /\ req_params req = params
             /\ req_json req = (if truthy data
                                then match req_verb req with
                                     | POST => Some data
                                     | _ => None
                                     end
                                else None)
             /\ req_headers req = (if truthy data
                                   then {[ "Content-Type" := "application/json" ]}
                                   else ∅)).
Proof.
  rewrite banking_make_request_spec. unfold BankingShape.banking_request.
  destruct (String.eqb_spec method "GET") as [->|Hget].
  - eexists; eexists. split; [reflexivity|]. split; [reflexivity|].
    right. eexists. split; [reflexivity|]. split; [reflexivity|].
    cbn [req_verb req_url req_params req_json req_headers].
    destruct (truthy data); auto 10.
  - destruct (String.eqb_spec method "POST") as [->|Hpost].
    + eexists; eexists. split; [reflexivity|]. split; [reflexivity|].
      right. eexists. split; [reflexivity|]. split; [reflexivity|].
      cbn [req_verb req_url req_params req_json req_headers].
      destruct (truthy data); auto 10.
    + eexists; eexists. split; [reflexivity|]. split; [reflexivity|].
      left. auto.
Qed.

(** ** What the banking script puts on the wire *)

Section Quiet.
Import Banking BankingShape.

Lemma quiet_ret {A} (a : A) : quiet (ret a).
Proof. intros w. reflexivity. Qed.

Lemma quiet_lift {A} (x : result A) : quiet (lift x).
Proof. intros w. reflexivity. Qed.

Lemma quiet_print l : quiet (print l).
Proof. intros w. reflexivity. Qed.

Lemma quiet_prints ls : quiet (prints ls).
Proof. intros w. reflexivity. Qed.

Lemma quiet_bind {A B} (c : M world A) (k : A -> M world B) :
  quiet c -> (forall a, quiet (k a)) -> quiet (bind c k).
Proof.
  intros Hc Hk w. unfold bind. specialize (Hc w).
  destruct (c w) as [[a|e] w1]; cbn [snd] in *; [|exact Hc].
  rewrite Hk. exact Hc.
Qed.

Lemma quiet_for_each {A} (body : A -> M world unit) items :
  (forall x, quiet (body x)) -> quiet (for_each body items).
Proof.
  intros Hbody. induction items as [|x items IH]; cbn [for_each].
  - apply quiet_ret.
  - apply quiet_bind; [apply Hbody|intros _; exact IH].
Qed.

Lemma quiet_success status response : quiet (success status response).
Proof.
  unfold success. destruct (status =? 200)%Z; [|apply quiet_ret].
  apply quiet_bind; [apply quiet_lift|intros s; apply quiet_ret].
Qed.

Lemma traffic_bind_l {A B} P lo hi (c : M world A) (k : A -> M world B) :
  traffic P lo hi c -> (forall a, quiet (k a)) -> traffic P lo hi (bind c k).
Proof.
  intros Hc Hk w. unfold bind. destruct (Hc w) as (reqs & Hsent & Hlen & HP).
  exists reqs. destruct (c w) as [[a|e] w1]; cbn [snd] in *; [|auto].
  rewrite Hk. auto.
Qed.

Lemma traffic_bind_r {A B} P lo hi (c : M world A) (k : A -> M world B) :
  quiet c -> returns c -> (forall a, traffic P lo hi (k a)) -> traffic P lo hi (bind c k).
Proof.
  intros Hc Hret Hk w. unfold bind. specialize (Hc w).
  destruct (Hret w) as (a & w1 & Heq). rewrite Heq in Hc |- *. cbn [snd] in Hc.
  destruct (Hk a w1) as (reqs & Hsent & Hlen & HP).
  exists reqs. rewrite Hsent, Hc. auto.
Qed.

Lemma banking_make_request_traffic net (P : request -> Prop) endpoint method data params req :
  banking_request endpoint method data params = Some req ->
  P req ->
  traffic P 1 1 (Banking.make_request net endpoint method data params).
Proof.
  intros Hreq HP w. rewrite banking_make_request_spec, Hreq.
  exists [req]. cbn. auto.
Qed.

(** A test that prints a line, makes its one call and then only reads
    the reply and prints. *)
Lemma banking_test_sends_one net l endpoint method data params req
    (rest : Z * json -> M world bool) :
  banking_request endpoint method data params = Some req ->
  (forall p, quiet (rest p)) ->
  traffic (fun _ => True) 1 1
    (let* _ := print l in
     let* p := Banking.make_request net endpoint method data params in
     rest p).
Proof.
  intros Hreq Hrest.
  apply traffic_bind_r; [apply quiet_print|apply returns_print|intros _].
  apply traffic_bind_l; [|exact Hrest].
  eapply banking_make_request_traffic; [exact Hreq|exact I].
Qed.

End Quiet.

Ltac quiet_tac :=
  repeat first
    [ apply quiet_ret
    | apply quiet_lift
    | apply quiet_print
    | apply quiet_prints
    | apply quiet_success
    | apply quiet_for_each; intros ?
    | apply quiet_bind; [|intros ?]
    | match goal with
      | |- BankingShape.quiet (if ?b then _ else _) => destruct b
      | |- BankingShape.quiet (match ?p with (_, _) => _ end) => destruct p
      end ].

Ltac banking_test_wire :=
  eapply banking_test_sends_one; [reflexivity|];
  intros [status response]; quiet_tac.

Section BankingTests.
Import Banking BankingShape.
Variable net : network.
Variable indent : json -> result string.

Lemma test_service_health_traffic :
  traffic (fun _ => True) 1 1 (test_service_health net).
Proof. unfold test_service_health. banking_test_wire. Qed.

Lemma test_banking_tables_traffic :
  traffic (fun _ => True) 1 1 (test_banking_tables net).
Proof. unfold test_banking_tables. banking_test_wire. Qed.

Lemma test_table_query_traffic :
  traffic (fun _ => True) 1 1 (test_table_query net).
Proof. unfold test_table_query. banking_test_wire. Qed.

Lemma test_analytics_capabilities_traffic :
  traffic (fun _ => True) 1 1 (test_analytics_capabilities net).
Proof. unfold test_analytics_capabilities. banking_test_wire. Qed.

Lemma test_complex_joins_traffic :
  traffic (fun _ => True) 1 1 (Banking.test_complex_joins net).
Proof. unfold Banking.test_complex_joins. banking_test_wire. Qed.

Lemma test_banking_analytics_traffic :
  traffic (fun _ => True) 1 1 (test_banking_analytics net indent).
Proof. unfold test_banking_analytics. banking_test_wire. Qed.

End BankingTests.

Section BankingSummary.
Import Banking BankingShape.
Variable net : network.

Lemma success_value status response (w : world) :
  success status response w = (base_value status response, w).
Proof.
  unfold success, base_value. destruct (status =? 200)%Z; [|reflexivity].
  unfold bind, lift, ret. destruct (dict_get response "status" JNull); reflexivity.
Qed.

Lemma base_value_raises status response e :
  base_value status response = Raise e -> exn_cls e = AttributeError.
Proof.
  unfold base_value. destruct (status =? 200)%Z; [|discriminate].
  destruct response; cbn [dict_get]; intros [= <-]; reflexivity.
Qed.

Lemma len_raises v e : len v = Raise e -> exn_cls e = TypeError.
Proof. destruct v; cbn [len]; intros [= <-]; reflexivity. Qed.

Lemma bare_query_of table params :
  table ∈ summary_tables ->
  bare_query (Request POST
                (Banking.BASE_URL ++ "/api/oracle/core/tables/" ++ table ++ "/query")
                None params ∅).
Proof. intros Hin. repeat split. exists table. auto. Qed.

Lemma banking_post_empty endpoint params :
  banking_request endpoint "POST" (JList []) params
  = Some (Request POST (Banking.BASE_URL ++ endpoint) None params ∅).
Proof. reflexivity. Qed.

(** One table of the summary: one query, and a second one when the
    first succeeded. *)
Lemma summarise_spec summary table (w : world) :
  table ∈ summary_tables ->
  exists res w' reqs,
    summarise net summary table w = (res, w')
    /\ sent w' = sent w ++ reqs
    /\ 1 <= length reqs <= 2
    /\ Forall bare_query reqs
    /\ (forall summary', res = Ok summary' ->
        exists c, summary' = summary ++ [(table, c)]
                  /\ (is_count c = true -> length reqs = 2))
    /\ (forall e, res = Raise e ->
        exn_cls e = AttributeError \/ exn_cls e = TypeError).
Proof.
  intros Hin.
  destruct (summarise net summary table w) as [res w'] eqn:Hrun.
  exists res, w'. revert Hrun. unfold summarise.
  unfold bind at 1. rewrite banking_make_request_spec, banking_post_empty.
  set (url := (Banking.BASE_URL ++ ("/api/oracle/core/tables/" ++ table ++ "/query"))%string).
  set (req1 := Request POST url None (dict [("limit", JInt 1)]) ∅).
  assert (Hreq1 : bare_query req1) by (apply bare_query_of; exact Hin).
  destruct (reply_pair (net (length (sent w)) req1)) as [status response].
  unfold bind at 1. rewrite success_value.
  destruct (base_value status response) as [[|]|e] eqn:Hv1.
  - unfold bind at 1. rewrite banking_make_request_spec, banking_post_empty. fold url.
    set (req2 := Request POST url None JNull ∅).
    assert (Hreq2 : bare_query req2) by (apply bare_query_of; exact Hin).
    match goal with
    | |- context [reply_pair ?rep] => destruct (reply_pair rep) as [status2 response2]
    end.
    unfold bind at 1. rewrite success_value.
    assert (Hsent : sent (wired req2 (wired req1 w)) = sent w ++ [req1; req2]).
    { unfold wired. cbn. rewrite <- app_assoc. reflexivity. }
    destruct (base_value status2 response2) as [[|]|e] eqn:Hv2.
    + unfold bind at 1, lift at 1.
      destruct (dict_get response2 "data" (JList [])) as [data|e] eqn:Hdata.
      * unfold bind, lift, ret.
        destruct (len data) as [count|e] eqn:Hlen; intros [= <- <-];
          exists [req1; req2]; (split; [reflexivity|]); (split; [exact Hsent|]);
          (split; [cbn; lia|]); (split; [auto|]).
        -- split; [|discriminate].
           intros summary' [= <-]. exists (Count count). auto.
        -- split; [discriminate|].
           intros e' [= <-]. right. eapply len_raises; eassumption.
      * intros [= <- <-]. exists [req1; req2]. split; [reflexivity|]. split; [exact Hsent|].
        split; [cbn; lia|]. split; [auto|].
        split; [discriminate|].
        intros e' [= <-]. left.
        destruct response2; cbn [dict_get] in Hdata; try discriminate;
          injection Hdata as <-; reflexivity.
    + unfold ret. intros [= <- <-]. exists [req1; req2]. split; [reflexivity|]. split; [exact Hsent|].
      split; [cbn; lia|]. split; [auto|].
      split; [|discriminate].
      intros summary' [= <-]. exists Unknown. split; [reflexivity|discriminate].
    + intros [= <- <-]. exists [req1; req2]. split; [reflexivity|]. split; [exact Hsent|].
      split; [cbn; lia|]. split; [auto|].
      split; [discriminate|].
      intros e' [= <-]. left. eapply base_value_raises; eassumption.
  - unfold ret. intros [= <- <-]. exists [req1].
    split; [reflexivity|]. split; [reflexivity|]. split; [cbn; lia|]. split; [auto|].
    split; [|discriminate].
    intros summary' [= <-]. exists Error. split; [reflexivity|discriminate].
  - intros [= <- <-]. exists [req1].
    split; [reflexivity|]. split; [reflexivity|]. split; [cbn; lia|]. split; [auto|].
    split; [discriminate|].
    intros e' [= <-]. left. eapply base_value_raises; eassumption.
Qed.

Lemma summarise_all_spec tables :
  (forall table, table ∈ tables -> table ∈ summary_tables) ->
  forall summary (w : world),
  exists res w' reqs,
    summarise_all net tables summary w = (res, w')
    /\ sent w' = sent w ++ reqs
    /\ length reqs <= 2 * length tables
    /\ (tables <> [] -> 1 <= length reqs)
    /\ Forall bare_query reqs
    /\ (forall summary', res = Ok summary' ->
        exists new,
          summary' = summary ++ new
          /\ new.*1 = tables
          /\ length tables + length (filter (fun e => is_count (snd e) = true) new)
             <= length reqs)
    /\ (forall e, res = Raise e ->
        exn_cls e = AttributeError \/ exn_cls e = TypeError).
Proof.
  induction tables as [|table tables IH]; intros Hin summary w.
  - exists (Ok summary), w, []. cbn [summarise_all length]. rewrite app_nil_r.
    split; [reflexivity|]. split; [reflexivity|]. split; [lia|].
    split; [intros Hne; contradiction|]. split; [constructor|].
    split; [|discriminate].
    intros summary' [= <-]. exists []. rewrite app_nil_r. auto.
  - cbn [summarise_all]. unfold bind at 1.
    destruct (summarise_spec summary table w) as
      (res1 & w1 & reqs1 & -> & Hsent1 & Hlen1 & HP1 & Hok1 & Hraise1).
    { apply Hin. left. }
    destruct res1 as [summary1|e].
    + destruct (Hok1 summary1 eq_refl) as (c & -> & Hc).
      assert (Hin' : forall t, t ∈ tables -> t ∈ summary_tables).
      { intros t Ht. apply Hin. right. exact Ht. }
      destruct (IH Hin' (summary ++ [(table, c)]) w1)
        as (res & w' & reqs & -> & Hsent & Hlen & _ & HP & Hok & Hraise).
      exists res, w', (reqs1 ++ reqs). split; [reflexivity|].
      split; [rewrite Hsent, Hsent1, <- app_assoc; reflexivity|].
      rewrite length_app. cbn [length].
      split; [lia|]. split; [lia|].
      split; [apply Forall_app; auto|].
      split; [|exact Hraise].
      intros summary' Hres. destruct (Hok summary' Hres) as (new & -> & Hnames & Hcount).
      exists ((table, c) :: new). rewrite <- app_assoc.
      split; [reflexivity|]. split; [cbn; rewrite Hnames; reflexivity|].
      destruct (is_count c) eqn:Hcc.
      * rewrite filter_cons_True by exact Hcc. cbn [length].
        specialize (Hc eq_refl). lia.
      * rewrite filter_cons_False by (cbn; rewrite Hcc; discriminate). lia.
    + exists (Raise e), w1, reqs1. cbn [length].
      split; [reflexivity|]. split; [exact Hsent1|].
      split; [lia|]. split; [lia|]. split; [exact HP1|].
      split; [discriminate|]. intros e' [= <-]. apply Hraise1. reflexivity.
Qed.

End BankingSummary.

Lemma test_data_summary_traffic net :
  BankingShape.traffic (fun _ => True) 1 12 (Banking.test_data_summary net).
Proof.
  intros w. unfold Banking.test_data_summary.
  unfold bind at 1, print at 1. cbn [world_of with_world world_harness].
  unfold bind at 1.
  match goal with
  | |- context [Banking.summarise_all net ?ts ?s ?w0] =>
      destruct (summarise_all_spec net ts (fun t Ht => Ht) s w0)
        as (res & w1 & reqs & -> & Hsent & Hlen & Hlo & _)
  end.
  cbn [sent] in Hsent. cbn [length Banking.summary_tables] in Hlen, Hlo.
  exists reqs. split; [|split; [split; [apply Hlo; discriminate|lia]|apply Forall_forall; auto]].
  destruct res as [summary|e]; [|exact Hsent].
  unfold bind, print, prints, ret. cbn [world_of with_world world_harness sent snd].
  exact Hsent.
Qed.

(** X14.  [test_data_summary] sends at least one and at most twelve
    requests, each a POST to the query endpoint of one of the six tables
    that carries neither a JSON body nor a header.  When it returns it
    has queried every table, so it has sent at least six, and it returns
    True only after some table answered both of its queries, that is
    after at least seven.  It can only raise [AttributeError] (a payload
    that is not a dict) or [TypeError] (a [data] field without a
    length). *)
Theorem X14_data_summary_traffic net (w : world) :
  exists res w' reqs,
    Banking.test_data_summary net w = (res, w')
    /\ sent w' = sent w ++ reqs
    /\ 1 <= length reqs <= 12
    /\ Forall BankingShape.bare_query reqs
    /\ (forall b, res = Ok b -> 6 <= length reqs /\ (b = true -> 7 <= length reqs))
    /\ (forall e, res = Raise e ->
        exn_cls e = AttributeError \/ exn_cls e = TypeError).
Proof.
  unfold Banking.test_data_summary.
  unfold bind at 1, print at 1. cbn [world_of with_world world_harness].
  unfold bind at 1.
  match goal with
  | |- context [Banking.summarise_all net ?ts ?s ?w0] =>
      destruct (summarise_all_spec net ts (fun t Ht => Ht) s w0)
        as (res & w1 & reqs & -> & Hsent & Hlen & Hlo & HP & Hok & Hraise)
  end.
  cbn [sent] in Hsent. cbn [length Banking.summary_tables] in Hlen, Hlo.
  destruct res as [summary|e].
  - destruct (Hok summary eq_refl) as (new & Hsummary & Hnames & Hcount).
    cbn [app] in Hsummary. subst summary. cbn [length Banking.summary_tables] in Hcount.
    unfold bind, print, prints, ret. cbn [world_of with_world world_harness sent].
    eexists; eexists; exists reqs. split; [reflexivity|].
    split; [exact Hsent|]. split; [split; [apply Hlo; discriminate|lia]|].
    split; [exact HP|]. split; [|discriminate].
    intros b [= <-]. split; [lia|].
    intros Hpos. apply Nat.ltb_lt in Hpos. lia.
  - eexists; eexists; exists reqs. split; [reflexivity|].
    split; [exact Hsent|]. split; [split; [apply Hlo; discriminate|lia]|].
    split; [exact HP|]. split; [discriminate|].
    intros e' [= <-]. apply Hraise. reflexivity.
Qed.

Section BankingMain.
Import Banking BankingShape AdvancedShape.

Lemma banking_run_test_spec passed test (w : world) :
  Banking.run_test passed test w
  = (Ok (if is_pass (fst (snd test w)) then S passed else passed),
     snd (Banking.run_test 0 test w))
  /\ sent (snd (Banking.run_test 0 test w)) = sent (snd (snd test w)).
Proof.
  unfold Banking.run_test, try_except, bind.
  destruct (snd test w) as [[[|]|e] w1]; cbn [fst snd is_pass];
    unfold ret, print; cbn [world_of with_world world_harness sent]; auto.
Qed.

Lemma banking_run_tests_spec tests his :
  Forall2 (fun t hi => traffic (fun _ => True) 1 hi (snd t)) tests his ->
  forall passed (w : world),
  exists w' reqs,
    Banking.run_tests tests passed w
    = (Ok (passed + count_pass (outcomes tests w)), w')
    /\ sent w' = sent w ++ reqs
    /\ length tests <= length reqs <= list_sum his.
Proof.
  induction 1 as [|test hi tests his Htest _ IH]; intros passed w.
  - exists w, []. cbn. unfold ret, count_pass. cbn.
    rewrite Nat.add_0_r, app_nil_r. auto.
  - cbn [Banking.run_tests outcomes]. unfold bind at 1.
    destruct (banking_run_test_spec passed test w) as [-> Hsent1].
    destruct (Htest w) as (reqs1 & Hreqs1 & Hlen1 & _).
    edestruct IH as (w' & reqs & -> & Hsent & Hlen).
    exists w', (reqs1 ++ reqs). split; [|split].
    + f_equal. f_equal. unfold count_pass.
      destruct (is_pass (fst (snd test w))) eqn:Hp.
      * rewrite filter_cons_True by exact Hp. cbn [length]. lia.
      * rewrite filter_cons_False by (rewrite Hp; discriminate). lia.
    + rewrite Hsent, Hsent1, Hreqs1, <- app_assoc. reflexivity.
    + rewrite length_app. cbn [length]. change (list_sum (hi :: his)) with (hi + list_sum his). lia.
Qed.

Lemma banking_outcomes_length tests' (w : world) : length (outcomes tests' w) = length tests'.
Proof. revert w. induction tests'; intros; cbn; auto. Qed.

End BankingMain.

(** X15.  [main] of the banking script always returns, whatever the
    service answers and whatever the tests do: its exit status is 0
    exactly when each of the seven tests, run in order, returned True,
    and 1 when any of them returned False or raised.  A run sends at
    least 7 and at most 18 requests. *)
Theorem X15_banking_main_exit net indent (w : world) :
  exists w' reqs,
    Banking.main net indent w
    = (Ok (if forallb AdvancedShape.is_pass
                (BankingShape.outcomes (Banking.tests net indent) (snd (Banking.banner w)))
           then 0%Z else 1%Z), w')
    /\ sent w' = sent w ++ reqs
    /\ 7 <= length reqs <= 18.
Proof.
  unfold Banking.main. unfold bind at 1.
  change (Banking.banner w) with (Ok tt, snd (Banking.banner w)).
  assert (Hsent0 : sent (snd (Banking.banner w)) = sent w) by reflexivity.
  generalize dependent (snd (Banking.banner w)). intros w0 Hsent0.
  unfold bind at 1.
  destruct (banking_run_tests_spec (Banking.tests net indent) [1; 1; 1; 1; 1; 1; 12])
    with (passed := 0) (w := w0) as (w1 & reqs & -> & Hsent & Hlen).
  { unfold Banking.tests.
    repeat (apply List.Forall2_cons; [cbn [snd]|]); [..|apply List.Forall2_nil].
    - apply test_service_health_traffic.
    - apply test_banking_tables_traffic.
    - apply test_table_query_traffic.
    - apply test_analytics_capabilities_traffic.
    - apply test_complex_joins_traffic.
    - apply test_banking_analytics_traffic.
    - apply test_data_summary_traffic. }
  cbn [Nat.add].
  unfold bind at 1, prints at 1. cbn [world_of with_world world_harness].
  replace (length (Banking.tests net indent))
    with (length (BankingShape.outcomes (Banking.tests net indent) w0))
    by apply banking_outcomes_length.
  rewrite count_pass_all.
  cbn [length Banking.tests list_sum foldr Nat.add] in Hlen.
  destruct (forallb _ _); unfold bind, print, ret;
    cbn [world_of with_world world_harness sent];
    eexists; exists reqs; (split; [reflexivity|]);
    (split; [rewrite Hsent, Hsent0; reflexivity|lia]).
Qed.

Section BankingTables.
Import Banking BankingShape.

Lemma banking_only_dicts tables :
  forallb Shape.is_dict tables = true ->
  banking_only tables = Ok (List.filter names_banking_table tables).
Proof.
  induction tables as [|t tables IH]; [reflexivity|].
  cbn [forallb]. intros [Ht Hrest]%andb_prop.
  cbn [banking_only List.filter]. rewrite (IH Hrest).
  destruct t; try discriminate. cbn [dict_get names_banking_table].
  unfold default. destruct (d !! "TABLE_NAME"); reflexivity.
Qed.

Lemma quiet_returns_for_each_dicts (rows : list json) (w : world) :
  forallb Shape.is_dict rows = true ->
  exists w',
    for_each (fun table =>
                let* v := lift (dict_get table "TABLE_NAME" JNull) in
                print (TextJson "   -" v)) rows w = (Ok tt, w').
Proof.
  revert w. induction rows as [|t rows IH]; intros w; cbn [forallb for_each].
  - intros _. exists w. reflexivity.
  - intros [Ht Hrest]%andb_prop. destruct t; try discriminate.
    unfold bind at 1. unfold bind at 1, lift at 1. cbn [dict_get].
    unfold print at 1. cbn [world_of with_world world_harness].
    apply IH, Hrest.
Qed.

Lemma filter_all (f g : json -> bool) l :
  forallb g l = true -> forallb g (List.filter f l) = true.
Proof.
  induction l as [|x l IH]; [reflexivity|].
  cbn [forallb List.filter]. intros [Hx Hl]%andb_prop.
  destruct (f x); cbn [forallb]; rewrite ?Hx, IH; auto.
Qed.

Lemma filter_nonempty (f : json -> bool) l :
  (0 <? length (List.filter f l))%nat = existsb f l.
Proof.
  induction l as [|x l IH]; [reflexivity|].
  cbn [List.filter existsb]. destruct (f x); [reflexivity|exact IH].
Qed.

End BankingTables.

(** X16.  When the tables call is answered with status 200 and a
    payload whose status is success and whose [data] is a list of dicts,
    [test_banking_tables] returns True exactly when at least one row has
    a [TABLE_NAME] among CUSTOMERS, ACCOUNTS, LOANS, BRANCHES and
    EMPLOYEES: a successful call that lists no banking table, or no table
    at all, fails the test. *)
Theorem X16_banking_tables_verdict net (w : world) d tables :
  reply_pair (net (length (sent w)) BankingShape.tables_request) = (200%Z, JDict d) ->
  d !! "status" = Some (JStr "success") ->
  d !! "data" = Some (JList tables) ->
  forallb Shape.is_dict tables = true ->
  fst (Banking.test_banking_tables net w)
  = Ok (existsb BankingShape.names_banking_table tables).
Proof.
  intros Hreply Hstatus Hdata Hdicts.
  unfold Banking.test_banking_tables.
  unfold bind at 1, print at 1. cbn [world_of with_world world_harness].
  unfold bind at 1. rewrite banking_make_request_spec.
  change (BankingShape.banking_request "/api/oracle/core/tables" "GET" JNull JNull)
    with (Some BankingShape.tables_request).
  cbn [sent]. rewrite Hreply.
  unfold bind at 1. rewrite success_value.
  unfold base_value. cbn [Z.eqb Pos.eqb dict_get]. rewrite Hstatus.
  change (eq_str (JStr "success") "success") with true. cbn iota.
  unfold bind at 1, lift at 1. cbn [dict_get]. rewrite Hdata.
  unfold bind at 1, lift at 1. cbn [Banking.iter].
  unfold bind at 1, lift at 1. rewrite (banking_only_dicts _ Hdicts).
  unfold bind at 1, print at 1. cbn [world_of with_world world_harness].
  unfold bind at 1.
  match goal with
  | |- context [Banking.for_each ?f ?rows ?w0] =>
      destruct (quiet_returns_for_each_dicts rows w0) as [w1 ->]
  end.
  { apply filter_all. exact Hdicts. }
  unfold ret. cbn [fst]. rewrite filter_nonempty. reflexivity.
Qed.

Lemma X16_banking_tables_verdict_witness :
  fst (Banking.test_banking_tables (BankingShape.net_listing ["DUAL"; "LOANS"]) world0)
  = Ok true
  /\ fst (Banking.test_banking_tables (BankingShape.net_listing ["DUAL"]) world0)
     = Ok false.
Proof.
  split.
  - rewrite (X16_banking_tables_verdict (BankingShape.net_listing ["DUAL"; "LOANS"]) world0
               (list_to_map
                  [("status", JStr "success");
                   ("data", JList ((fun n => JDict {[ "TABLE_NAME" := JStr n ]})
                                     <$> ["DUAL"; "LOANS"]))])
               ((fun n => JDict {[ "TABLE_NAME" := JStr n ]}) <$> ["DUAL"; "LOANS"]));
      vm_compute; reflexivity.
  - rewrite (X16_banking_tables_verdict (BankingShape.net_listing ["DUAL"]) world0
               (list_to_map
                  [("status", JStr "success");
                   ("data", JList ((fun n => JDict {[ "TABLE_NAME" := JStr n ]})
                                     <$> ["DUAL"]))])
               ((fun n => JDict {[ "TABLE_NAME" := JStr n ]}) <$> ["DUAL"]));
      vm_compute; reflexivity.
Defined.

(** ** The security suite *)

Section SecurityRun.
Import SecuritySuite SecurityShape AdvancedShape.
Variable net : network.

Lemma print_results_in_world results title max_items (t : tester) :
  exists w',
    print_results results title max_items t = (Ok tt, in_world w' t)
    /\ sent w' = sent (tester_world t).
Proof.
  unfold print_results, bind, prints, print, ret, in_world.
  cbn [world_of with_world tester_harness].
  destruct results as [| | | |[|x l]|]; cbn [tester_world test_results csrf_token stdout sent slept];
    try (eexists; split; reflexivity).
  destruct (max_items <? length (x :: l))%nat;
    cbn [tester_world test_results csrf_token stdout sent slept];
    eexists; split; reflexivity.
Qed.

Lemma show_spec what response title max_items (t : tester) :
  exists w',
    show what response title max_items t
    = (listable what response,
       match listable what response with
       | Ok _ => in_world w' t
       | Raise _ => t
       end)
    /\ sent w' = sent (tester_world t).
Proof.
  destruct what as [| |found]; cbn [show listable].
  - apply print_results_in_world.
  - unfold bind at 1, lift at 1.
    destruct (dict_get response "data" (JDict ∅)) as [data|e].
    + apply print_results_in_world.
    + exists (tester_world t). split; reflexivity.
  - unfold bind at 1, lift at 1.
    destruct (dict_get response "data" (JList [])) as [data|e];
      [|exists (tester_world t); split; reflexivity].
    unfold bind at 1, lift at 1.
    destruct (len data) as [n|e]; [|exists (tester_world t); split; reflexivity].
    unfold bind at 1, print at 1. cbn [world_of with_world tester_harness].
    match goal with
    | |- context [print_results ?r ?ti ?m ?t0] =>
        destruct (print_results_in_world r ti m t0) as (w' & -> & Hsent)
    end.
    exists w'. split; [reflexivity|exact Hsent].
Qed.

Lemma security_test_follows header endpoint method data params name what title
    max_items fn req :
  base_request endpoint method data params None = Some req ->
  follows net (Check fn name what req)
    (security_test net header endpoint method data params name what title max_items).
Proof.
  intros Hreq t. cbn [call test_name lists]. unfold security_test, outcome.
  cbn [lists].
  unfold bind at 1. unfold print_test_header, prints at 1.
  cbn [world_of with_world tester_harness].
  unfold bind at 1. rewrite make_request_spec, Hreq.
  cbn [world_of tester_harness tester_world sent].
  destruct (reply_pair (net (length (sent (tester_world t))) req)) as [status response].
  cbn [fst snd]. unfold wired. cbn [world_of with_world tester_harness tester_world
                                      test_results csrf_token stdout sent slept].
  unfold bind at 1. unfold Security.sec_assert_success, tolerated.
  destruct (status =? 200)%Z; [|destruct (status =? 404)%Z]; cbn [orb].
  1,2: unfold bind at 1, print at 1; cbn [world_of with_world tester_harness tester_world
                                            test_results csrf_token stdout sent slept];
    unfold ret at 1; unfold bind at 1, append_result at 1;
    cbn [tester_world test_results csrf_token];
    unfold bind at 1;
    match goal with
    | |- context [show ?wh ?r ?ti ?m ?t0] =>
        destruct (show_spec wh r ti m t0) as (w' & -> & Hsent)
    end;
    destruct (listable what response);
      [unfold ret, in_world; cbn [tester_world test_results csrf_token];
       exists w'; split; [reflexivity|exact Hsent]
      |eexists; split; reflexivity].
  unfold bind, print, ret, append_result.
  cbn [world_of with_world tester_harness tester_world test_results csrf_token
         stdout sent slept].
  eexists; split; reflexivity.
Qed.

Lemma security_run_tests_spec tests checks :
  Forall2 (fun t c => fst t = method_name c /\ follows net c (snd t)) tests checks ->
  forall passed (t : tester),
  let reps := replies net (length (sent (tester_world t))) checks in
  exists w',
    run_tests tests passed t
    = (Ok (passed + count_pass (zip_with outcome checks reps)),
       Tester (test_results t ++ concat (zip_with entries checks reps)) (csrf_token t) w')
    /\ sent w' = sent (tester_world t) ++ (call <$> checks).
Proof.
  induction 1 as [|[fn test] c tests checks [Hfn Hc] _ IH]; intros passed t reps.
  - exists (tester_world t). subst reps. cbn. unfold ret, count_pass. cbn.
    rewrite Nat.add_0_r, !app_nil_r. destruct t; auto.
  - cbn [fst snd] in Hfn, Hc. subst fn reps.
    cbn [run_tests replies zip_with concat fmap list_fmap].
    unfold bind at 1. unfold run_test, try_except. cbn [fst snd].
    unfold bind at 1.
    destruct (Hc t) as (w1 & Htest & Hsent1). cbv zeta in Htest. rewrite Htest.
    set (rep := net (length (sent (tester_world t))) (call c)) in *.
    change (entries c rep)
      with ((test_name c, tolerated (fst (reply_pair rep)))
            :: match outcome c rep with
               | Raise _ => [(method_name c, false)]
               | Ok _ => []
               end).
    destruct (outcome c rep) as [b|e] eqn:Hout.
    + unfold ret at 1.
      edestruct (IH (if b then S passed else passed)) as (w2 & -> & Hsent2).
      cbn [tester_world test_results csrf_token sent] in *.
      exists w2. rewrite Hsent1, length_app, Nat.add_1_r in *. cbn [length] in *.
      split.
      * f_equal; [|rewrite <- app_assoc; reflexivity].
        f_equal. unfold count_pass.
        destruct b.
        -- rewrite filter_cons_True by reflexivity. cbn [length]. lia.
        -- rewrite filter_cons_False by discriminate. lia.
      * rewrite Hsent2, <- app_assoc. reflexivity.
    + unfold bind at 1, print at 1. cbn [world_of with_world tester_harness tester_world
                                          test_results csrf_token].
      unfold bind at 1, append_result at 1. cbn [tester_world test_results csrf_token].
      unfold ret at 1.
      edestruct (IH passed) as (w2 & -> & Hsent2).
      cbn [tester_world test_results csrf_token sent stdout slept] in *.
      exists w2. rewrite Hsent1, length_app, Nat.add_1_r in *. cbn [length] in *.
      split.
      * f_equal.
        all: try (rewrite <- !app_assoc; reflexivity).
        all: try (f_equal; unfold count_pass;
                  rewrite filter_cons_False by discriminate; reflexivity).
      * rewrite Hsent2, <- app_assoc. reflexivity.
Qed.

Lemma security_tests_follow :
  Forall2 (fun t c => fst t = method_name c /\ follows net c (snd t))
    (SecuritySuite.tests net) plan.
Proof.
  unfold SecuritySuite.tests, plan.
  repeat (apply List.Forall2_cons;
          [split; [reflexivity|apply security_test_follows; reflexivity]|]).
  apply List.Forall2_nil.
Qed.

End SecurityRun.

(** X17.  The loop of the security suite never raises, and its report
    is a function of the thirteen replies.  It sends the suite's thirteen
    requests in order.  Each check records one entry under its own name,
    passed exactly when the status [make_request] reports is 200 or 404;
    when listing the payload of such a reply raises (the payload is not a
    dict, or its [data] has no length where the check counts it) the
    handler adds a second, failed entry under the method's name.
    [passed] counts the checks that were tolerated and listed without
    raising. *)
Theorem X17_security_report net (t : tester) :
  let reps := SecurityShape.replies net (length (sent (tester_world t))) SecurityShape.plan in
  exists t',
    run_tests (SecuritySuite.tests net) 0 t
    = (Ok (AdvancedShape.count_pass (zip_with SecurityShape.outcome SecurityShape.plan reps)),
       t')
    /\ test_results t'
       = test_results t ++ concat (zip_with SecurityShape.entries SecurityShape.plan reps)
    /\ sent (tester_world t')
       = sent (tester_world t) ++ (SecurityShape.call <$> SecurityShape.plan).
Proof.
  intros reps.
  destruct (security_run_tests_spec net _ _ (security_tests_follow net) 0 t)
    as (w' & Hrun & Hsent).
  eexists. split; [exact Hrun|]. split; [reflexivity|exact Hsent].
Qed.

Section SecurityVerdict.
Import SecuritySuite SecurityShape AdvancedShape.
Variable net : network.

Lemma security_run_unfold t :
  SecuritySuite.run_all_tests net t =
  match wait_for_service net default_max_attempts (snd (SecuritySuite.banner t)) with
  | (Ok available, t1) =>
      (if negb available
       then let* _ := print (Text "Service not available, skipping tests") in ret false
       else let* passed := run_tests (SecuritySuite.tests net) 0 in
            let* _ := print_summary "SECURITY CONTROLLER" passed
                        (length (SecuritySuite.tests net)) in
            ret (passed =? length (SecuritySuite.tests net))%nat) t1
  | (Raise e, t1) => (Raise e, t1)
  end.
Proof. reflexivity. Qed.

Lemma replies_length n checks : length (replies net n checks) = length checks.
Proof. revert n. induction checks; intros; cbn; auto. Qed.

Lemma outcomes_of_plan_length n :
  length (zip_with outcome plan (replies net n plan)) = length (SecuritySuite.tests net).
Proof.
  rewrite length_zip_with, replies_length. reflexivity.
Qed.

End SecurityVerdict.

(** X18.  [run_all_tests] of the security suite always returns.  When
    none of the thirty health probes is answered with status 200 it
    returns False and records nothing.  Otherwise, with the [k]-th probe
    the first one answered with 200, the thirteen checks run on the
    replies to the requests that follow and the suite returns True
    exactly when every reply has a reported status of 200 or 404 and a
    payload that can be listed. *)
Theorem X18_security_verdict net (t : tester) :
  let n := length (sent (tester_world t)) in
  exists (verdict : bool) t',
    SecuritySuite.run_all_tests net t = (Ok verdict, t')
    /\ ((verdict = false
         /\ test_results t' = test_results t
         /\ forall i, i < default_max_attempts -> probe net (n + i) <> 200%Z)
        \/ exists k,
             1 <= k <= default_max_attempts
             /\ probe net (n + (k - 1)) = 200%Z
             /\ (forall i, i < k - 1 -> probe net (n + i) <> 200%Z)
             /\ let reps := SecurityShape.replies net (n + k) SecurityShape.plan in
                verdict = forallb AdvancedShape.is_pass
                            (zip_with SecurityShape.outcome SecurityShape.plan reps)
                /\ test_results t'
                   = test_results t
                     ++ concat (zip_with SecurityShape.entries SecurityShape.plan reps)).
Proof.
  intros n. rewrite security_run_unfold.
  set (t0 := snd (SecuritySuite.banner t)).
  assert (Ht0 : test_results t0 = test_results t
                /\ sent (tester_world t0) = sent (tester_world t)) by (split; reflexivity).
  destruct Ht0 as [Hres0 Hsent0].
  unfold wait_for_service.
  destruct (wait_loop_spec net default_max_attempts default_max_attempts 0 t0 eq_refl)
    as (b & k & ls & -> & Hk & Hbefore & Hat).
  rewrite Hsent0 in Hbefore, Hat. fold n in Hbefore, Hat.
  destruct b; cbn [negb].
  - destruct Hat as [Hk1 Hprobe].
    set (t1 := in_world _ t0).
    destruct (security_run_tests_spec net _ _ (security_tests_follow net) 0 t1)
      as (w2 & Hrun & Hsent2).
    unfold bind at 1. rewrite Hrun. cbn [Nat.add].
    assert (Hn : length (sent (tester_world t1)) = n + k).
    { subst t1. unfold in_world. cbn [tester_world sent].
      rewrite length_app, length_replicate, Hsent0. reflexivity. }
    rewrite Hn in *.
    set (reps := SecurityShape.replies net (n + k) SecurityShape.plan) in *.
    set (t2 := Tester _ _ w2).
    pose proof (print_summary_keeps "SECURITY CONTROLLER"
                  (AdvancedShape.count_pass (zip_with SecurityShape.outcome SecurityShape.plan reps))
                  (length (SecuritySuite.tests net)) t2) as Hsum.
    destruct (print_summary_ok "SECURITY CONTROLLER"
                (AdvancedShape.count_pass (zip_with SecurityShape.outcome SecurityShape.plan reps))
                (length (SecuritySuite.tests net)) t2 ltac:(discriminate)) as [t3 Heq].
    unfold bind at 1. rewrite Heq in Hsum |- *. cbn [snd] in Hsum.
    eexists; exists t3. split; [reflexivity|]. right.
    exists k. split; [lia|]. split; [exact Hprobe|]. split; [exact Hbefore|].
    cbv zeta. split.
    + unfold ret. rewrite <- (outcomes_of_plan_length net (n + k)).
      fold reps. apply count_pass_all.
    + rewrite Hsum. subst t2 t1. cbn [test_results in_world]. rewrite Hres0. reflexivity.
  - subst k.
    eexists; eexists. split; [reflexivity|]. left.
    split; [reflexivity|]. split; [cbn; exact Hres0|exact Hbefore].
Qed.

(** ** The controller runner *)

Section ControllerRun.
Import Comprehensive ControllerRunner.

Lemma keeps_entries_ret {A} (a : A) : keeps_entries (ret a).
Proof. intros r. reflexivity. Qed.

Lemma keeps_entries_lift {A} (x : result A) : keeps_entries (lift x).
Proof. intros r. reflexivity. Qed.

Lemma keeps_entries_print l : keeps_entries (print l).
Proof. intros r. reflexivity. Qed.

Lemma keeps_entries_prints ls : keeps_entries (prints ls).
Proof. intros r. reflexivity. Qed.

Lemma keeps_entries_bind {A B} (c : M runner A) (k : A -> M runner B) :
  keeps_entries c -> (forall a, keeps_entries (k a)) -> keeps_entries (bind c k).
Proof.
  intros Hc Hk r. unfold bind. specialize (Hc r).
  destruct (c r) as [[a|e] r1]; cbn [snd] in *; [|exact Hc].
  rewrite Hk. exact Hc.
Qed.

Lemma print_detailed_summary_keeps : keeps_entries print_detailed_summary.
Proof.
  intros r. unfold print_detailed_summary.
  repeat first
    [ apply keeps_entries_ret
    | apply keeps_entries_lift
    | apply keeps_entries_print
    | apply keeps_entries_prints
    | apply keeps_entries_bind; [|intros ?]
    | match goal with
      | |- keeps_entries (if ?b then _ else _) => destruct b
      | |- keeps_entries (match ?l with [] => _ | _ :: _ => _ end) => destruct l
      end ].
Qed.

Variable path_exists : string -> bool.
Variable run : string -> spawned.
Variable dump : result unit.
Variable lower : string -> string.
Variable split : string -> list string.
Variable int : string -> result Z.

Lemma run_script_spec entry (r : runner) :
  exists w',
    run_script path_exists run lower split int entry r
    = (Ok tt,
       Runner (results r
               ++ [entry_for path_exists run (parse_counts lower split int) entry]) w').
Proof.
  unfold run_script, entry_for.
  destruct (path_exists (snd entry)).
  - unfold run_test_script. unfold bind at 1, prints at 1.
    cbn [world_of with_world runner_harness].
    destruct (run (snd entry)) as [rc output errors| |e].
    + unfold bind at 1, append_result at 1. cbn [results runner_world].
      destruct (rc =? 0)%Z;
        repeat match goal with
               | |- context [if ?b then _ else _] => destruct b
               end;
        unfold bind, print, ret; cbn [world_of with_world runner_harness results runner_world];
        eexists; reflexivity.
    + unfold bind, print, append_result.
      cbn [world_of with_world runner_harness results runner_world].
      eexists; reflexivity.
    + unfold bind, print, append_result.
      cbn [world_of with_world runner_harness results runner_world].
      eexists; reflexivity.
  - unfold bind, print, append_result.
    cbn [world_of with_world runner_harness results runner_world].
    eexists; reflexivity.
Qed.

Lemma run_scripts_spec scripts : forall (r : runner),
  exists w',
    for_each (run_script path_exists run lower split int) scripts r
    = (Ok tt,
       Runner (results r
               ++ (entry_for path_exists run (parse_counts lower split int) <$> scripts)) w').
Proof.
  induction scripts as [|entry scripts IH]; intros r.
  - exists (runner_world r). cbn. rewrite app_nil_r. destruct r; reflexivity.
  - cbn [for_each]. unfold bind at 1.
    destruct (run_script_spec entry r) as [w1 ->].
    destruct (IH (Runner (results r
                          ++ [entry_for path_exists run (parse_counts lower split int) entry])
                    w1)) as [w2 ->].
    exists w2. cbn [results fmap list_fmap]. rewrite <- app_assoc. reflexivity.
Qed.

Lemma save_results_json_spec (r : runner) :
  exists w', save_results_json dump r = (Ok tt, Runner (results r) w').
Proof.
  unfold save_results_json, try_except, bind, lift, print.
  cbn [world_of with_world runner_harness].
  destruct dump; eexists; reflexivity.
Qed.

Lemma entry_success entry :
  success (entry_for path_exists run (parse_counts lower split int) entry) = true
  <-> succeeded path_exists run (snd entry).
Proof.
  unfold entry_for, succeeded.
  destruct (path_exists (snd entry)); cbn [success].
  - destruct (run (snd entry)) as [rc output errors| |e]; cbn [success].
    + split.
      * intros Hrc%Z.eqb_eq. subst rc. eauto.
      * intros [_ (o & e & [= -> _ _])]. reflexivity.
    + split; [discriminate|]. intros [_ (o & e & [=])].
    + split; [discriminate|]. intros [_ (o & e' & [=])].
  - split; [discriminate|]. intros [[=] _].
Qed.

End ControllerRun.

(** X19.  [run_all_tests] of the controller runner never raises.
    Without [test_base.py] in the directory it records nothing and
    returns False.  Otherwise it adds exactly one entry per script of
    [test_scripts], in order, so the rates of the summary are never a
    division by zero; an entry is a success exactly when the script is
    present and ran to completion with status 0 (a missing script, a
    timeout and a failure to start are recorded as failures), and the
    value returned says whether every recorded entry is a success. *)
Theorem X19_controller_runner_results path_exists run dump lower split int
    (r : Comprehensive.runner) :
  let entry := ControllerRunner.entry_for path_exists run
                 (ControllerRunner.parse_counts lower split int) in
  (exists verdict r',
      ControllerRunner.run_all_tests path_exists run dump lower split int r
      = (Ok verdict, r')
      /\ if path_exists "test_base.py"
         then Comprehensive.results r'
              = Comprehensive.results r ++ (entry <$> ControllerRunner.test_scripts)
              /\ verdict = forallb Comprehensive.success (Comprehensive.results r')
         else Comprehensive.results r' = Comprehensive.results r /\ verdict = false)
  /\ (forall e, Comprehensive.success (entry e) = true
                <-> ControllerRunner.succeeded path_exists run (snd e)).
Proof.
  intros entry. split; [|intros e; apply entry_success].
  unfold ControllerRunner.run_all_tests.
  unfold bind at 1. unfold ControllerRunner.print_header, prints at 1.
  cbn [world_of with_world Comprehensive.runner_harness].
  destruct (path_exists "test_base.py"); cbn [negb].
  - unfold bind at 1.
    match goal with
    | |- context [ControllerRunner.for_each ?f ?l ?r0] =>
        destruct (run_scripts_spec path_exists run lower split int l r0) as [w1 ->]
    end.
    cbn [Comprehensive.results].
    set (r1 := Comprehensive.Runner _ w1).
    pose proof (print_detailed_summary_keeps r1) as Hkeep.
    destruct (print_detailed_summary_ok r1) as [r2 Hsum].
    { subst r1. cbn [Comprehensive.results]. intros Hnil.
      apply (f_equal length) in Hnil. rewrite length_app in Hnil. cbn in Hnil. lia. }
    unfold bind at 1. rewrite Hsum in Hkeep |- *. cbn [snd] in Hkeep.
    unfold bind at 1.
    destruct (save_results_json_spec dump r2) as [w3 ->].
    eexists; eexists. split; [reflexivity|].
    cbn [Comprehensive.results]. rewrite Hkeep. subst r1. cbn [Comprehensive.results].
    split; reflexivity.
  - unfold bind, print, ret. cbn [world_of with_world Comprehensive.runner_harness].
    eexists; eexists. split; [reflexivity|]. split; reflexivity.
Qed.

(** ** The quick summary script *)

Section QuickRun.
Import ControllerRunner QuickTests.

Lemma append_cons c a b : (String c a ++ b)%string = String c (a ++ b)%string.
Proof. reflexivity. Qed.

Lemma append_nil b : (EmptyString ++ b)%string = b.
Proof. reflexivity. Qed.

Lemma prefix_app n a b :
  String.prefix n a = true -> String.prefix n (a ++ b) = true.
Proof.
  revert a. induction n as [|c n IH]; intros a;
    [intros _; destruct (a ++ b)%string; reflexivity|].
  destruct a as [|c' a]; [discriminate|].
  rewrite append_cons. cbn [String.prefix].
  destruct (Ascii.ascii_dec c c'); [|discriminate].
  intros Hp. apply IH, Hp.
Qed.

Lemma contains_cons n c a :
  contains n (String c a) = if String.prefix n (String c a) then true else contains n a.
Proof. reflexivity. Qed.

Lemma contains_app_r n a b :
  contains n a = true -> contains n (a ++ b) = true.
Proof.
  induction a as [|c a IH].
  - cbn [contains]. destruct (String.prefix n "") eqn:Hp; [|discriminate].
    intros _. apply (prefix_app n "" b) in Hp. rewrite append_nil in *.
    destruct b; cbn [contains]; rewrite Hp; reflexivity.
  - rewrite append_cons, !contains_cons.
    destruct (String.prefix n (String c a)) eqn:Hp.
    + intros _. apply (prefix_app n _ b) in Hp. rewrite append_cons in Hp.
      rewrite Hp. reflexivity.
    + intros Ha. rewrite (IH Ha).
      destruct (String.prefix n (String c (a ++ b))); reflexivity.
Qed.

Lemma contains_app_l n a b :
  contains n b = true -> contains n (a ++ b) = true.
Proof.
  intros Hb. induction a as [|c a IH]; [exact Hb|].
  rewrite append_cons, contains_cons, IH.
  destruct (String.prefix n (String c (a ++ b))); reflexivity.
Qed.

(** Every item of a split is a piece of the string, and the first one
    starts it. *)
Lemma split_on_pieces sep s :
  exists x xs,
    split_on sep s = x :: xs
    /\ (exists post, s = (x ++ post)%string)
    /\ (forall line, line ∈ xs -> exists pre post, s = (pre ++ line ++ post)%string).
Proof.
  induction s as [|c s IH]; cbn [split_on].
  - exists EmptyString, []. split; [reflexivity|]. split; [exists EmptyString; reflexivity|].
    intros line Hin. inversion Hin.
  - destruct IH as (x & xs & Hs & (post & Hx) & Hxs). rewrite Hs.
    destruct (Ascii.eqb c sep).
    + exists EmptyString, (x :: xs). split; [reflexivity|].
      split; [exists (String c s); reflexivity|].
      intros line [->|Hin]%elem_of_cons.
      * exists (String c EmptyString), post. rewrite append_cons, append_nil, <- Hx. reflexivity.
      * destruct (Hxs line Hin) as (pre & post' & Heq).
        exists (String c pre), post'. rewrite append_cons, <- Heq. reflexivity.
    + exists (String c x), xs. split; [reflexivity|].
      split; [exists post; rewrite append_cons, <- Hx; reflexivity|].
      intros line Hin. destruct (Hxs line Hin) as (pre & post' & Heq).
      exists (String c pre), post'. rewrite append_cons, <- Heq. reflexivity.
Qed.

Lemma split_on_contains sep n s line :
  line ∈ split_on sep s -> contains n line = true -> contains n s = true.
Proof.
  intros Hin Hline.
  destruct (split_on_pieces sep s) as (x & xs & Hs & (post & Hx) & Hxs).
  rewrite Hs in Hin. apply elem_of_cons in Hin as [->|Hin].
  - rewrite Hx. apply contains_app_r, Hline.
  - destruct (Hxs line Hin) as (pre & post' & ->).
    apply contains_app_l, contains_app_r, Hline.
Qed.

Lemma overall_line_found lines line :
  overall_line lines = Some line ->
  line ∈ lines /\ contains "Overall:" line = true.
Proof.
  induction lines as [|l lines IH]; cbn [overall_line]; [discriminate|].
  destruct (contains "Overall:" l && contains "tests passed" l) eqn:Hl.
  - intros [= <-]. apply andb_prop in Hl as [Ho _]. split; [left|exact Ho].
  - intros Hrest. destruct (IH Hrest) as [Hin Ho]. split; [right; exact Hin|exact Ho].
Qed.

(** The test on the whole output never hides a line that the loop would
    find. *)
Lemma overall_guard output :
  (if contains "Overall:" output
   then overall_line (split_on newline output)
   else None)
  = overall_line (split_on newline output).
Proof.
  destruct (contains "Overall:" output) eqn:Hout; [reflexivity|].
  destruct (overall_line (split_on newline output)) as [line|] eqn:Hline; [|reflexivity].
  destruct (overall_line_found _ _ Hline) as [Hin Ho].
  rewrite (split_on_contains _ _ _ _ Hin Ho) in Hout. discriminate.
Qed.

Variable run : string -> spawned.
Variable strip : string -> string.

Lemma quick_run_test_spec script name (w : world) :
  exists text w',
    run_test run strip script name w = (Ok (text, exit_ok (run script)), w')
    /\ sent w' = sent w.
Proof.
  unfold run_test, bind, print, ret. cbn [world_of with_world world_harness].
  destruct (run script) as [rc output errors| |e]; cbn [exit_ok].
  - destruct (if contains "Overall:" output then _ else _);
      eexists; eexists; split; reflexivity.
  - eexists; eexists; split; reflexivity.
  - eexists; eexists; split; reflexivity.
Qed.

Lemma quick_run_tests_spec scripts : forall results passed (w : world),
  exists new w',
    run_tests run strip scripts (results, passed) w
    = (Ok (results ++ new,
           passed + length (filter (fun t => exit_ok (run (fst t)) = true) scripts)), w')
    /\ new.*1.*1 = scripts.*2
    /\ new.*2 = (fun t => exit_ok (run (fst t))) <$> scripts
    /\ sent w' = sent w.
Proof.
  induction scripts as [|test scripts IH]; intros results passed w.
  - exists [], w. cbn. unfold ret. rewrite app_nil_r, Nat.add_0_r. auto.
  - cbn [run_tests]. unfold bind at 1.
    destruct (quick_run_test_spec (fst test) (snd test) w) as (text & w1 & -> & Hsent1).
    cbn [fst snd].
    edestruct IH as (new & w2 & -> & Hnames & Hok & Hsent2).
    exists ((snd test, text, exit_ok (run (fst test))) :: new), w2.
    split; [|split; [|split]].
    + f_equal. f_equal. f_equal.
      * rewrite <- app_assoc. reflexivity.
      * destruct (exit_ok (run (fst test))) eqn:Hx.
        -- rewrite filter_cons_True by exact Hx. cbn [length]. lia.
        -- rewrite filter_cons_False by (rewrite Hx; discriminate). lia.
    + cbn. rewrite Hnames. reflexivity.
    + cbn. rewrite Hok. reflexivity.
    + congruence.
Qed.

Lemma filter_length_all {A} (f : A -> bool) (l : list A) :
  (length (filter (fun x => f x = true) l) =? length l)%nat = forallb f l.
Proof.
  induction l as [|x l IH]; [reflexivity|].
  cbn [forallb length]. destruct (f x) eqn:Hx.
  - rewrite filter_cons_True by exact Hx. cbn [length andb]. exact IH.
  - rewrite filter_cons_False by (rewrite Hx; discriminate). cbn [andb].
    apply Nat.eqb_neq.
    pose proof (length_filter (fun x => f x = true) l). lia.
Qed.

End QuickRun.

(** X20.  [main] of the quick summary never raises and sends nothing
    itself: it returns True exactly when each of the seven scripts ran to
    completion with status 0, a timeout or a failure to start counting as
    a failure.  The text shown for a completed script is its first output
    line that contains both Overall: and tests passed, stripped, whatever
    its exit status; the test on the whole output that precedes the loop
    never hides such a line, and No results found is shown exactly when
    there is none. *)
Theorem X20_quick_summary run strip (w : world) :
  (exists w',
      QuickTests.main run strip w
      = (Ok (forallb (fun t => QuickTests.exit_ok (run (fst t))) QuickTests.tests), w')
      /\ sent w' = sent w)
  /\ (forall script name returncode output errors,
         run script = ControllerRunner.Completed returncode output errors ->
         fst (QuickTests.run_test run strip script name w)
         = Ok (match QuickTests.overall_line
                       (ControllerRunner.split_on ControllerRunner.newline output) with
               | Some line => strip line
               | None => "No results found"
               end, (returncode =? 0)%Z)).
Proof.
  split.
  - unfold QuickTests.main.
    unfold bind at 1, prints at 1. cbn [world_of with_world world_harness].
    unfold bind at 1.
    match goal with
    | |- context [QuickTests.run_tests run strip ?l (?rs, ?p) ?w0] =>
        destruct (quick_run_tests_spec run strip l rs p w0)
          as (new & w1 & -> & _ & _ & Hsent)
    end.
    cbn [sent] in Hsent. cbn [Nat.add app].
    unfold bind at 1, prints at 1. cbn [world_of with_world world_harness].
    unfold bind at 1, prints at 1. cbn [world_of with_world world_harness].
    unfold bind at 1, print at 1. cbn [world_of with_world world_harness].
    rewrite (filter_length_all (fun t => QuickTests.exit_ok (run (fst t)))).
    destruct (forallb _ _); unfold bind, print, ret;
      cbn [world_of with_world world_harness sent];
      eexists; (split; [reflexivity|exact Hsent]).
  - intros script name rc output errors Hrun.
    unfold QuickTests.run_test, bind, print. cbn [world_of with_world world_harness].
    rewrite Hrun, overall_guard.
    destruct (QuickTests.overall_line _); reflexivity.
Qed.

Lemma X20_quick_summary_witness :
  fst (QuickTests.run_test QuickTests.failing_script (fun s => s)
         "test_csrf_controller.py" "CSRF Controller" world0)
  = Ok ("Overall: 1/2 tests passed", false).
Proof.
  destruct (X20_quick_summary QuickTests.failing_script (fun s => s) world0) as [_ Htext].
  rewrite (Htext "test_csrf_controller.py" "CSRF Controller" 1%Z
             QuickTests.two_summaries EmptyString eq_refl).
  vm_compute. reflexivity.
Defined.
